(** * python-ads: symbol and data-type metadata of a PLC program

    A shallow embedding of [ads/nonzerobasedarray.py] and of the metadata
    core of [ads/adssymbols.py] (record stream, data-type records, ctypes
    layout synthesis, variable navigation), with the properties of the
    specification stated and settled over it.

    Conventions.  Python integers are [Z]; fields the binary format stores
    unsigned are [N]; [str] is [string] (records decode Latin-1, one
    character per byte); dictionaries keyed by type name are [gmap string];
    an [OrderedDict] is an association list in insertion order.  A raised
    exception is a value of [exn]; code that mutates the catalog runs in a
    state-and-exception monad whose state survives a raise, as an object's
    attributes do in Python. *)

From Stdlib Require Import ZArith NArith List Ascii String Lia.
From stdpp Require Import base option list strings gmap pretty.

Local Open Scope Z_scope.

(** ** Python preliminaries *)

(** The exceptions the modelled code can raise. *)
Inductive exn : Type :=
| IndexError
| TypeError
| ValueError
| AttributeError
| AssertionError
| ZeroDivisionError
| NotImplementedError
| RecursionError
| RuntimeError
| StopIteration
| struct_error.

(** Outcome of a call: a value or a raised exception. *)
Inductive result (A : Type) : Type :=
| Ok (a : A)
| Raise (e : exn).
Arguments Ok {A} a.
Arguments Raise {A} e.

Definition result_bind {A B} (r : result A) (k : A -> result B) : result B :=
  match r with
  | Ok a => k a
  | Raise e => Raise e
  end.

(** How a generator ends, as its consumer sees it: [Exhausted] is the normal
    end of a [for] loop over it, [Raises e] an exception coming out of
    [next], [Suspended] a generator that still has work to do when the
    fuel of the model runs out. *)
Inductive finish : Type :=
| Exhausted
| Raises (e : exn)
| Suspended.

(** An exception leaving a generator body.  [StopIteration] raised by the
    body itself ends the iteration silently unless the module runs under
    [generator_stop] (PEP 479: default from Python 3.7, opt-in through
    [from __future__ import generator_stop] before), where it surfaces as
    [RuntimeError]. *)
Definition generator_raise (generator_stop : bool) (e : exn) : finish :=
  match e with
  | StopIteration => if generator_stop then Raises RuntimeError else Exhausted
  | _ => Raises e
  end.

(** ** ctypes arrays (the base class of [NonzeroBasedArray] instances) *)

Module Array.

(** An index object handed to [__getitem__]. *)
Inductive index : Type :=
| Int (i : Z)
| Slice (start stop step : option Z)
| Object.

(** What a subscript returns: one element or, for a slice, a list. *)
Inductive value (A : Type) : Type :=
| Item (a : A)
| Items (l : list A).
Arguments Item {A} a.
Arguments Items {A} l.

Definition PY_SSIZE_T_MAX : Z := 2 ^ 63 - 1.
Definition PY_SSIZE_T_MIN : Z := - 2 ^ 63.

(** [_PyEval_SliceIndex]: a slice bound is clipped to [Py_ssize_t]. *)
Definition clip (v : Z) : Z := Z.max PY_SSIZE_T_MIN (Z.min PY_SSIZE_T_MAX v).

(** [Array_item]: no wrap-around at this level. *)
Definition item {A} (items : list A) (i : Z) : result A :=
  if (i <? 0) || (Z.of_nat (length items) <=? i) then Raise IndexError
  else match nth_error items (Z.to_nat i) with
       | Some a => Ok a
       | None => Raise IndexError
       end.

(** [PySlice_AdjustIndices] for one bound. *)
Definition adjust (len step v : Z) : Z :=
  if v <? 0 then
    let v' := v + len in
    if v' <? 0 then (if step <? 0 then -1 else 0) else v'
  else if len <=? v then (if step <? 0 then len - 1 else len)
  else v.

Definition slicelength (start stop step : Z) : Z :=
  if step <? 0 then
    (if stop <? start then (start - stop - 1) / (- step) + 1 else 0)
  else
    (if start <? stop then (stop - start - 1) / step + 1 else 0).

Fixpoint collect {A} (items : list A) (cur step : Z) (n : nat) : result (list A) :=
  match n with
  | O => Ok []
  | S n' =>
      result_bind (item items cur) (fun a =>
      result_bind (collect items (cur + step) step n') (fun l =>
      Ok (a :: l)))
  end.

(** [Array_subscript]: an integer counts from the end when negative; a
    slice is unpacked, adjusted to the length and read element-wise. *)
Definition getitem {A} (items : list A) (idx : index) : result (value A) :=
  let len := Z.of_nat (length items) in
  match idx with
  | Int i =>
      let i' := if i <? 0 then i + len else i in
      result_bind (item items i') (fun a => Ok (Item a))
  | Slice start stop step =>
      let step' := match step with Some s => clip s | None => 1 end in
      if step' =? 0 then Raise ValueError
      else
        let start' := match start with
                      | Some s => clip s
                      | None => if step' <? 0 then PY_SSIZE_T_MAX else 0
                      end in
        let stop' := match stop with
                     | Some s => clip s
                     | None => if step' <? 0 then PY_SSIZE_T_MIN else PY_SSIZE_T_MAX
                     end in
        let start'' := adjust len step' start' in
        let stop'' := adjust len step' stop' in
        result_bind
          (collect items start'' step' (Z.to_nat (slicelength start'' stop'' step')))
          (fun l => Ok (Items l))
  | Object => Raise TypeError
  end.

(** [Array_ass_subscript]: assignment through an index.  An integer
    index takes one element (counting from the end when negative); a slice
    takes a sequence of exactly the length of the slice, and anything else,
    a single element included, is a [ValueError] (its length is not that
    of the slice).  Elements are of a simple type: a sequence is not an
    element.  An assigned value is a value of the element type, as the
    setter of that type stores it; what the setter makes of other Python
    objects (a [TypeError], or an integer reduced to the width of the type)
    is the element type's own and outside this model. *)
Fixpoint assign {A} (items : list A) (cur step : Z) (values : list A) : result (list A) :=
  match values with
  | [] => Ok items
  | v :: values' =>
      if (cur <? 0) || (Z.of_nat (length items) <=? cur) then Raise IndexError
      else assign (<[Z.to_nat cur := v]> items) (cur + step) step values'
  end.

Definition setitem {A} (items : list A) (idx : index) (v : value A) : result (list A) :=
  let len := Z.of_nat (length items) in
  match idx with
  | Int i =>
      let i' := if i <? 0 then i + len else i in
      match v with
      | Item a =>
          if (i' <? 0) || (len <=? i') then Raise IndexError
          else Ok (<[Z.to_nat i' := a]> items)
      | Items _ =>
          if (i' <? 0) || (len <=? i') then Raise IndexError else Raise TypeError
      end
  | Slice start stop step =>
      let step' := match step with Some s => clip s | None => 1 end in
      if step' =? 0 then Raise ValueError
      else
        let start' := match start with
                      | Some s => clip s
                      | None => if step' <? 0 then PY_SSIZE_T_MAX else 0
                      end in
        let stop' := match stop with
                     | Some s => clip s
                     | None => if step' <? 0 then PY_SSIZE_T_MIN else PY_SSIZE_T_MAX
                     end in
        let start'' := adjust len step' start' in
        let stop'' := adjust len step' stop' in
        match v with
        | Item _ => Raise ValueError
        | Items values =>
            if negb (Z.of_nat (length values) =? slicelength start'' stop'' step')
            then Raise ValueError
            else assign items start'' step' values
        end
  | Object => Raise TypeError
  end.

End Array.

(** ** [ads/nonzerobasedarray.py] *)

Module NonzeroBasedArray.

Import Array.

(** An instance: the class attribute [_lbound_] and the element buffer,
    whose length is the class attribute [_length_]. *)
Record t (A : Type) : Type := create_instance {
  _lbound_ : Z;
  buffer : list A
}.
Arguments create_instance {A} _ _.
Arguments _lbound_ {A} _.
Arguments buffer {A} _.

Definition _length_ {A} (self : t A) : Z := Z.of_nat (length (buffer self)).

Definition __convertindex__ {A} (self : t A) (idx : index) : result index :=
  match idx with
  | Int index =>
      let index := index - _lbound_ self in
      if index <? 0 then Raise IndexError else Ok (Int index)
  | Slice start stop step =>
      result_bind
        (match start with
         | Some start =>
             let start := start - _lbound_ self in
             if start <? 0 then Raise IndexError else Ok (Some start)
         | None => Ok None
         end) (fun start =>
      result_bind
        (match stop with
         | Some stop =>
             let stop := stop - _lbound_ self in
             if stop <? 0 then Raise IndexError else Ok (Some stop)
         | None => Ok None
         end) (fun stop =>
      Ok (Slice start stop step)))
  | Object => Raise TypeError
  end.

Definition __getitem__ {A} (self : t A) (idx : index) : result (value A) :=
  result_bind (__convertindex__ self idx) (fun idx' => getitem (buffer self) idx').

(** [__iter__]: the [while True] loop of the generator, from index [i].
    Every [yield self[i]] adds one element; an [IndexError] from [self[i]]
    is turned into [raise StopIteration] inside the generator body. *)
Fixpoint iter_from {A} (generator_stop : bool) (fuel : nat) (self : t A) (i : Z)
  : list (value A) * finish :=
  match fuel with
  | O => ([], Suspended)
  | S fuel' =>
      match __getitem__ self (Int i) with
      | Ok v =>
          let '(vs, f) := iter_from generator_stop fuel' self (i + 1) in
          (v :: vs, f)
      | Raise IndexError => ([], generator_raise generator_stop StopIteration)
      | Raise e => ([], generator_raise generator_stop e)
      end
  end.

Definition __iter__ {A} (generator_stop : bool) (fuel : nat) (self : t A)
  : list (value A) * finish :=
  iter_from generator_stop fuel self (_lbound_ self).

Definition __setitem__ {A} (self : t A) (idx : index) (v : value A) : result (t A) :=
  result_bind (__convertindex__ self idx) (fun idx' =>
  result_bind (setitem (buffer self) idx' v) (fun buffer' =>
  Ok (create_instance (_lbound_ self) buffer'))).

(** [__init__] with its positional arguments [args]: the buffer of
    [_length_] zeroed elements that
    [super().__init__()] makes, then [self[i + self._lbound_] = v] for
    every argument in turn. *)
Fixpoint init_args {A} (self : t A) (i : Z) (args : list A) : result (t A) :=
  match args with
  | [] => Ok self
  | v :: args' =>
      result_bind (__setitem__ self (Int (i + _lbound_ self)) (Item v)) (fun self' =>
      init_args self' (i + 1) args')
  end.

Definition __init__ {A} (zero : A) (lbound : Z) (length : nat) (args : list A)
  : result (t A) :=
  init_args (create_instance lbound (replicate length zero)) 0 args.

End NonzeroBasedArray.

(** ** [ads/adssymbols.py]: the record stream *)

Module Entry.

Definition bytes : Type := list Byte.byte.

(** [data[:n]] and [data[n:]] for a non-negative [n]. *)
Definition upto (n : N) (data : bytes) : bytes := take (N.to_nat n) data.
Definition from (n : N) (data : bytes) : bytes := drop (N.to_nat n) data.

(** [data[p:q]] for [0 <= p <= q]; Python clips a slice to the data. *)
Definition slice (p q : N) (data : bytes) : bytes := upto (q - p) (from p data).

(** Native little-endian integers of [struct]: ['L'] and ['l'] are four
    bytes and ['H'] two (the package loads [AdsDll.dll]: Windows, x86). *)
Fixpoint le_uint (bs : bytes) : N :=
  match bs with
  | [] => 0
  | b :: bs' => Byte.to_N b + 256 * le_uint bs'
  end%N.

Definition to_signed32 (n : N) : Z :=
  if (n <? 2 ^ 31)%N then Z.of_N n else Z.of_N n - 2 ^ 32.

(** [struct.unpack] of consecutive unsigned fields of the given widths:
    the buffer must have exactly the size of the format. *)
Fixpoint split_fields (widths : list N) (data : bytes) : list N :=
  match widths with
  | [] => []
  | w :: ws => le_uint (upto w data) :: split_fields ws (from w data)
  end.

Definition calcsize (widths : list N) : N := fold_right N.add 0%N widths.

Definition unpack (widths : list N) (data : bytes) : result (list N) :=
  if (N.of_nat (length data) =? calcsize widths)%N
  then Ok (split_fields widths data)
  else Raise struct_error.

(** [struct.unpack('L', data)]. *)
Definition unpack_L (data : bytes) : result N :=
  match unpack [4%N] data with
  | Ok [v] => Ok v
  | Ok _ => Raise struct_error
  | Raise e => Raise e
  end.

(** [struct.unpack('lL', data)]: a signed lower bound, an unsigned count. *)
Definition unpack_lL (data : bytes) : result (Z * N) :=
  match unpack [4%N; 4%N] data with
  | Ok [l; n] => Ok (to_signed32 l, n)
  | Ok _ => Raise struct_error
  | Raise e => Raise e
  end.

(** [_parsefields]: unpack the fixed structure from the first
    [calcsize] bytes, return the values and the remainder. *)
Definition _parsefields (widths : list N) (data : bytes) : result (list N * bytes) :=
  let formatlength := calcsize widths in
  result_bind (unpack widths (upto formatlength data)) (fun values =>
  Ok (values, from formatlength data)).

Definition _field (length : N) (data : bytes) : bytes * bytes :=
  (upto length data, from length data).

(** [bytes.decode('latin-1')]: one character per byte, same code. *)
Definition decode_latin1 (data : bytes) : string :=
  string_of_list_ascii (map ascii_of_byte data).

Definition _stringfield (length : N) (data : bytes) : string * bytes :=
  (decode_latin1 (upto length data), from (length + 1) data).

(** [Entry.iter]: the generator loop from cursor [p].  [cls] is the record
    class whose constructor decodes one record. *)
Fixpoint iter_from {E} (cls : bytes -> result E) (fuel : nat) (data : bytes) (p : N)
  : list E * finish :=
  match fuel with
  | O => ([], Suspended)
  | S fuel' =>
      if (p <? N.of_nat (length data))%N then
        match unpack_L (slice p (p + 4) data) with
        | Raise e => ([], Raises e)
        | Ok length =>
            match cls (slice p (p + length) data) with
            | Raise e => ([], Raises e)
            | Ok entry =>
                let '(entries, f) := iter_from cls fuel' data (p + length) in
                (entry :: entries, f)
            end
        end
      else ([], Exhausted)
  end.

Definition iter {E} (cls : bytes -> result E) (fuel : nat) (data : bytes)
  : list E * finish :=
  iter_from cls fuel data 0.

End Entry.

Module AdsSymbolEntry.

Import Entry.

Record t : Type := mk {
  entryLength : N;
  iGroup : N;
  iOffs : N;
  size : N;
  dataType : N;
  flags : N;
  nameLength : N;
  typeLength : N;
  commentLength : N;
  name : string;
  type : string;
  comment : string
}.

(** ['LLLLLLHHH'] *)
Definition _fieldsformat : list N := [4; 4; 4; 4; 4; 4; 2; 2; 2]%N.

Definition __init__ (data : bytes) : result t :=
  result_bind (_parsefields _fieldsformat data) (fun '(values, remainder) =>
  match values with
  | [entryLength; iGroup; iOffs; size; dataType; flags;
     nameLength; typeLength; commentLength] =>
      let '(name, remainder) := _stringfield nameLength remainder in
      let '(type, remainder) := _stringfield typeLength remainder in
      let '(comment, remainder) := _stringfield commentLength remainder in
      Ok (mk entryLength iGroup iOffs size dataType flags
             nameLength typeLength commentLength name type comment)
  | _ => Raise struct_error
  end).

End AdsSymbolEntry.

Module AdsDatatypeEntry.

Import Entry.

#[warnings="-register-all"]
Inductive t : Type := mk {
  entryLength : N;
  version : N;
  hashValue : N;
  typeHashValue : N;
  size : N;
  offs : N;
  dataType : N;
  flags : N;
  nameLength : N;
  typeLength : N;
  commentLength : N;
  arrayDim : N;
  subItemsCount : N;
  name : string;
  type : string;
  comment : string;
  array : list (Z * N);
  subItems : list t
}.

(** ['LLLLLLLLHHHHH'] *)
Definition _fieldsformat : list N := [4; 4; 4; 4; 4; 4; 4; 4; 2; 2; 2; 2; 2]%N.

(** [subItems] is an [OrderedDict] keyed by each sub-item's own [name]:
    it is kept as the list of its values in insertion order, and
    [subItems[subItem.name] = subItem] replaces the value of a known name
    in place. *)
Fixpoint odict_set (subItem : t) (d : list t) : list t :=
  match d with
  | [] => [subItem]
  | v :: d' =>
      if String.eqb (name v) (name subItem) then subItem :: d'
      else v :: odict_set subItem d'
  end.

(** The loop over [range(self.arrayDim)]. *)
Fixpoint parse_dims (n : nat) (remainder : bytes) : result (list (Z * N) * bytes) :=
  match n with
  | O => Ok ([], remainder)
  | S n' =>
      let '(dim, remainder) := _field 8 remainder in
      result_bind (unpack_lL dim) (fun d =>
      result_bind (parse_dims n' remainder) (fun '(dims, remainder) =>
      Ok (d :: dims, remainder)))
  end.

(** The loop over [range(self.subItemsCount)]; [init] is the constructor
    called on each sub-item's bytes. *)
Fixpoint parse_subItems (init : bytes -> result t) (n : nat)
  (subItems : list t) (remainder : bytes) : result (list t) :=
  match n with
  | O => Ok subItems
  | S n' =>
      result_bind (unpack_L (upto 4 remainder)) (fun length =>
      let '(subItemData, remainder) := _field length remainder in
      result_bind (init subItemData) (fun subItem =>
      parse_subItems init n' (odict_set subItem subItems) remainder))
  end.

(** The constructor; [depth] is the depth of nested constructor calls the
    interpreter still allows. *)
Fixpoint __init__ (depth : nat) (data : bytes) : result t :=
  match depth with
  | O => Raise RecursionError
  | S depth' =>
      result_bind (_parsefields _fieldsformat data) (fun '(values, remainder) =>
      match values with
      | [entryLength; version; hashValue; typeHashValue; size; offs; dataType; flags;
         nameLength; typeLength; commentLength; arrayDim; subItemsCount] =>
          let '(name, remainder) := _stringfield nameLength remainder in
          let '(type, remainder) := _stringfield typeLength remainder in
          let '(comment, remainder) := _stringfield commentLength remainder in
          result_bind (parse_dims (N.to_nat arrayDim) remainder) (fun '(dims, remainder) =>
          result_bind (parse_subItems (__init__ depth') (N.to_nat subItemsCount) [] remainder)
            (fun subItems =>
          Ok (mk entryLength version hashValue typeHashValue size offs dataType flags
                 nameLength typeLength commentLength arrayDim subItemsCount
                 name type comment dims subItems)))
      | _ => Raise struct_error
      end)
  end.

End AdsDatatypeEntry.

(** ** ctypes types

    The classes [getCtype] returns, as values: the primitive classes of
    [basictypes], arrays ([ctype * n]), the classes made by
    [NonzeroBasedArray.create], [PLCString.create], [type(name,
    (Structure,), ...)] and [type('Dummy', (Dummy,), ...)].  Two classes
    made from the same ingredients are the same value.  Array lengths are
    unbounded integers here (ctypes refuses a type larger than
    [Py_ssize_t]). *)

#[warnings="-register-all"]
Inductive CType : Type :=
| c_bool | c_byte | c_ubyte | c_char
| c_int8 | c_uint8 | c_int16 | c_uint16
| c_int32 | c_uint32 | c_int64 | c_uint64
| c_float | c_double
| c_void_p
| c_array (_type_ : CType) (_length_ : N)
| NonzeroBasedArray_type (_type_ : CType) (_lbound_ : Z) (_length_ : N)
| PLCString_type (length : N)
| Structure_type (name : string) (_fields_ : list (string * CType)) (_pack_ : N)
| Dummy_type (_length_ : N).

Definition round_up (offset align : N) : N :=
  (((offset + align - 1) / align) * align)%N.

(** Size and alignment as ctypes computes them on a 64-bit build: a
    primitive is aligned to its size, an array to its element, and the
    fields of a structure are laid out in order, each aligned to
    [min(_pack_, alignment)] when the class has a [_pack_], the whole
    rounded up to the largest field alignment. *)
Fixpoint layout (t : CType) : N * N :=
  match t with
  | c_bool | c_byte | c_ubyte | c_char | c_int8 | c_uint8 => (1, 1)
  | c_int16 | c_uint16 => (2, 2)
  | c_int32 | c_uint32 | c_float => (4, 4)
  | c_int64 | c_uint64 | c_double | c_void_p => (8, 8)
  | c_array e n => (n * fst (layout e), snd (layout e))
  | NonzeroBasedArray_type e _ n => (n * fst (layout e), snd (layout e))
  | PLCString_type length => (length + 1, 1)
  | Dummy_type n => (n, 1)
  | Structure_type _ fields pack =>
      (fix place (fs : list (string * CType)) (offset align : N) {struct fs} : N * N :=
         match fs with
         | [] => (round_up offset align, align)
         | f :: fs' =>
             let '(fsize, falign) := layout (snd f) in
             let a := if (pack =? 0)%N then falign else N.min pack falign in
             place fs' (round_up offset a + fsize) (N.max align a)
         end) fields 0 1
  end%N.

Definition sizeof (t : CType) : N := fst (layout t).

(** ** [ads/adssymbols.py]: type catalog and layout synthesis *)

(** The table of built-in PLC types. *)
Definition basictypes : gmap string CType :=
  list_to_map
    [ ("BOOL", c_bool); ("BIT", c_bool); ("BYTE", c_byte); ("DATE", c_int32);
      ("DINT", c_int32); ("DT", c_int32); ("DWORD", c_int32); ("INT", c_int16);
      ("LREAL", c_double); ("REAL", c_float); ("SINT", c_int8); ("STRING", c_char);
      ("TIME", c_int32); ("TOD", c_int32); ("UDINT", c_uint32); ("UINT", c_uint16);
      ("USINT", c_uint8); ("WORD", c_int16); ("LINT", c_int64); ("ULINT", c_uint64);
      ("PVOID", c_void_p); ("OTCID", c_int32) ].

(** [PLCString.create(length)]: a structure of [length + 1] characters.
    This is the descriptor of the class; ctypes itself makes the class
    only when [length + 1] fits [Py_ssize_t] and raises [OverflowError]
    otherwise ([Props.creatable]). *)
Definition PLCString_create (length : N) : CType := PLCString_type length.

(** Instances of [PLCString] classes. *)
Module PLCString.

(** An instance of [PLCString.create(length)]: the memory of its one field
    [data], a [c_char] array of [length + 1] characters. *)
Record t : Type := mk { data : Entry.bytes }.

(** [str.encode('latin-1')]: one byte per character, same code.  (Python
    raises [UnicodeEncodeError] at a character above 255; the strings here
    have none.) *)
Definition encode_latin1 (s : string) : Entry.bytes :=
  map byte_of_ascii (list_ascii_of_string s).

(** The characters a C string holds: the bytes before the first NUL. *)
Fixpoint c_str (data : Entry.bytes) : Entry.bytes :=
  match data with
  | [] => []
  | b :: data' => if Byte.eqb b Byte.x00 then [] else b :: c_str data'
  end.

(** The setter ctypes uses for a [c_char] array field: with
    [size = strlen(value)], more than the field holds is a [ValueError];
    otherwise [size] characters are copied, and the NUL that follows them
    too when there is room for it. *)
Definition s_set (field value : Entry.bytes) : result Entry.bytes :=
  let size := length (c_str value) in
  if (size <? length field)%nat then
    Ok (c_str value ++ [Byte.x00] ++ drop (S size) field)
  else if (length field <? size)%nat then Raise ValueError
  else Ok (c_str value ++ drop size field).

(** The getter of such a field: the bytes up to the first NUL, or all of
    them when there is none. *)
Definition s_get (field : Entry.bytes) : Entry.bytes := c_str field.

(** [PLCString.create(length)(str)]: the structure starts zeroed, then
    [Structure.__init__] assigns [str.encode('latin-1') + b'\0'] to
    [data]. *)
Definition __init__ (length : N) (str : string) : result t :=
  result_bind (s_set (replicate (N.to_nat (length + 1)) Byte.x00)
                     (encode_latin1 str ++ [Byte.x00]))
              (fun data => Ok (mk data)).

(** [__repr__]: [self.data.decode('latin-1')]. *)
Definition __repr__ (self : t) : string := Entry.decode_latin1 (s_get (data self)).

End PLCString.

(** [re.match(r'STRING\((\d+)\)', s)] followed by [int(group(1))]: the
    name starts with [STRING(], at least one decimal digit and [)]. *)
Definition is_digit (c : ascii) : bool :=
  let n := N_of_ascii c in ((48 <=? n) && (n <=? 57))%N.

Fixpoint digits_then_paren (s : string) (seen : bool) (acc : N) : option N :=
  match s with
  | String c s' =>
      if is_digit c then digits_then_paren s' true (10 * acc + (N_of_ascii c - 48))%N
      else if seen && Ascii.eqb c ")" then Some acc
      else None
  | EmptyString => None
  end.

Fixpoint strip_prefix (p s : string) : option string :=
  match p, s with
  | EmptyString, _ => Some s
  | String a p', String b s' => if Ascii.eqb a b then strip_prefix p' s' else None
  | String _ _, EmptyString => None
  end.

Definition stringMatch (s : string) : option N :=
  match strip_prefix "STRING(" s with
  | Some rest => digits_then_paren rest false 0
  | None => None
  end.

(** Messages passed to [warnings.warn]. *)
Inductive warning : Type :=
| Unknown_datatype (datatype : string)
| Unknown_type_with_unknown_size (dtypename : string)
| Unknown_type_with_known_size (dtypename : string) (size : N)
| union_not_yet_supported
| Ctype_size_does_not_match (name : string) (size : N).

Module AdsVariablesDefinition.

(** The catalog object: the data-type table, the memo of synthesized
    ctypes seeded with [basictypes], and the warnings emitted so far. *)
Record t : Type := mk {
  dtypes : gmap string AdsDatatypeEntry.t;
  ctypes : gmap string CType;
  warnings : list warning
}.

(** Methods run against the catalog: they return a value or raise, and
    leave the catalog as they changed it either way. *)
Definition M (A : Type) : Type := t -> result A * t.

Definition ret {A} (a : A) : M A := fun self => (Ok a, self).

Definition raise {A} (e : exn) : M A := fun self => (Raise e, self).

Definition bind {A B} (c : M A) (k : A -> M B) : M B :=
  fun self =>
    match c self with
    | (Ok a, self') => k a self'
    | (Raise e, self') => (Raise e, self')
    end.

Definition warn (w : warning) : M unit :=
  fun self => (Ok tt, mk (dtypes self) (ctypes self) (warnings self ++ [w])).

(** [self.ctypes[dtypename] = ctype] *)
Definition memoize (dtypename : string) (ctype : CType) : M unit :=
  fun self => (Ok tt, mk (dtypes self) (<[dtypename := ctype]> (ctypes self)) (warnings self)).

Definition get : M t := fun self => (Ok self, self).

Declare Scope py_scope.
Delimit Scope py_scope with py.
Notation "x <- c ;; k" := (bind c (fun x => k))
  (at level 100, c at next level, right associativity) : py_scope.
Notation "c ;; k" := (bind c (fun _ => k))
  (at level 100, right associativity) : py_scope.
Local Open Scope py_scope.

Definition truthy (s : string) : bool := negb (String.eqb s "").

(** [arraysize = 1; for lbound, elements in dtype.array: arraysize *= elements] *)
Definition arraysize (dims : list (Z * N)) : N :=
  fold_left (fun acc (d : Z * N) => (acc * snd d)%N) dims 1%N.

(** The loop over [reversed(dtype.array)] that wraps [ctype] in one array
    class per dimension.  The result is the descriptor of the class;
    ctypes itself makes an array class only when its length and its size
    in bytes fit [Py_ssize_t] and raises [OverflowError] otherwise
    ([Props.creatable]). *)
Definition wrap_arrays (dims : list (Z * N)) (ctype : CType) : CType :=
  fold_left
    (fun ct (d : Z * N) =>
       let '(lbound, elements) := d in
       if lbound =? 0 then c_array ct elements
       else NonzeroBasedArray_type ct lbound elements)
    (rev dims) ctype.

(** [type(name, (Structure,), dict(_fields_ = fields, _pack_ = 8))]; a
    field whose type is [None] is refused by ctypes.  It refuses more: a
    class name with a NUL character ([ValueError]), a field named like an
    attribute that the class object does not let be replaced, as
    [_fields_] or [__class__] ([TypeError], [AttributeError]), and it
    does not survive fields that together exceed [Py_ssize_t].  These are
    outside the descriptor built here; [Props.creatable] tells the
    classes that ctypes makes. *)
Fixpoint field_types (fields : list (string * option CType)) : option (list (string * CType)) :=
  match fields with
  | [] => Some []
  | (n, Some c) :: fs =>
      match field_types fs with
      | Some fs' => Some ((n, c) :: fs')
      | None => None
      end
  | (_, None) :: _ => None
  end.

Definition Structure_create (name : string) (fields : list (string * option CType))
  : M CType :=
  match field_types fields with
  | Some fs => ret (Structure_type name fs 8)
  | None => raise TypeError
  end.

Section Synthesis.

(** The recursive call [self.getCtype]. *)
Context (getCtype : string -> option N -> M (option CType)).

(** One turn of the loop over [dtype.subItems.values()]: [o] is the byte
    cursor, [fields] the field list built so far. *)
Definition struct_member (s : AdsDatatypeEntry.t)
  (acc : N * list (string * option CType)) : M (N * list (string * option CType)) :=
  let '(o, fields) := acc in
  let '(o, fields) :=
    if (o <? AdsDatatypeEntry.offs s)%N
    then (AdsDatatypeEntry.offs s,
          fields ++ [("", Some (c_array c_char (AdsDatatypeEntry.offs s - o)))])
    else (o, fields) in
  if (AdsDatatypeEntry.offs s =? o)%N then
    c <- getCtype (AdsDatatypeEntry.type s) (Some (AdsDatatypeEntry.size s)) ;;
    ret ((o + AdsDatatypeEntry.size s)%N, fields ++ [(AdsDatatypeEntry.name s, c)])
  else
    warn union_not_yet_supported ;;
    ret (o, fields).

Fixpoint struct_members (items : list AdsDatatypeEntry.t)
  (acc : N * list (string * option CType)) : M (N * list (string * option CType)) :=
  match items with
  | [] => ret acc
  | s :: items' =>
      acc' <- struct_member s acc ;;
      struct_members items' acc'
  end.

(** The [if]/[elif] chain of [getCtype] on a record found in the table. *)
Definition synthesize (dtypename : string) (dtype : AdsDatatypeEntry.t) : M CType :=
  if String.prefix "POINTER TO " (AdsDatatypeEntry.name dtype) then
    ret c_void_p
  else if truthy (AdsDatatypeEntry.type dtype)
          && negb (bool_decide (AdsDatatypeEntry.subItems dtype <> [])) then
    let arraysize := arraysize (AdsDatatypeEntry.array dtype) in
    if (arraysize =? 0)%N then raise ZeroDivisionError
    else
      let itemsize := (AdsDatatypeEntry.size dtype / arraysize)%N in
      let remainder := (AdsDatatypeEntry.size dtype mod arraysize)%N in
      if negb (remainder =? 0)%N then raise AssertionError
      else
        ctype <- getCtype (AdsDatatypeEntry.type dtype) (Some itemsize) ;;
        match ctype with
        | Some ctype => ret ctype
        | None => raise AssertionError
        end
  else if bool_decide (AdsDatatypeEntry.subItems dtype <> [])
          && negb (truthy (AdsDatatypeEntry.type dtype)) then
    acc <- struct_members (AdsDatatypeEntry.subItems dtype) (0%N, []) ;;
    let '(o, fields) := acc in
    let fields :=
      if (o <? AdsDatatypeEntry.size dtype)%N
      then fields ++ [("", Some (c_array c_char (AdsDatatypeEntry.size dtype - o)))]
      else fields in
    Structure_create (AdsDatatypeEntry.name dtype) fields
  else
    warn (Unknown_type_with_known_size dtypename (AdsDatatypeEntry.size dtype)) ;;
    ret (c_array c_char (AdsDatatypeEntry.size dtype)).

End Synthesis.

(** [getCtype(dtypename, size = None)]; [depth] is the depth of nested
    calls the interpreter still allows. *)
Fixpoint getCtype (depth : nat) (dtypename : string) (size : option N)
  : M (option CType) :=
  match depth with
  | O => raise RecursionError
  | S depth' =>
      self <- get ;;
      match ctypes self !! dtypename with
      | Some ctype => ret (Some ctype)
      | None =>
          match stringMatch dtypename with
          | Some stringLength =>
              let ctype := PLCString_create stringLength in
              memoize dtypename ctype ;;
              ret (Some ctype)
          | None =>
              match dtypes self !! dtypename with
              | None =>
                  match size with
                  | None =>
                      warn (Unknown_type_with_unknown_size dtypename) ;;
                      ret None
                  | Some size =>
                      warn (Unknown_type_with_known_size dtypename size) ;;
                      ret (Some (Dummy_type size))
                  end
              | Some dtype =>
                  ctype <- synthesize (getCtype depth') dtypename dtype ;;
                  let ctype := wrap_arrays (AdsDatatypeEntry.array dtype) ctype in
                  ctype <-
                    (if negb (AdsDatatypeEntry.size dtype =? sizeof ctype)%N then
                       warn (Ctype_size_does_not_match (AdsDatatypeEntry.name dtype)
                               (AdsDatatypeEntry.size dtype)) ;;
                       ret (Dummy_type (AdsDatatypeEntry.size dtype))
                     else ret ctype) ;;
                  memoize dtypename ctype ;;
                  ret (Some ctype)
              end
          end
      end
  end.

(** The part of [__init__] that fills the catalog from the decoded
    data-type records: [self.dtypes = {t.name: t for t in ...}], then
    [self.getCtype(dtypename)] for every key, in the order the keys were
    first inserted.  (The symbol list and the variable tree built
    afterwards are not part of this development.) *)
Definition dict_by_name (records : list AdsDatatypeEntry.t) : gmap string AdsDatatypeEntry.t :=
  fold_left (fun m t => <[AdsDatatypeEntry.name t := t]> m) records ∅.

Definition dict_keys (records : list AdsDatatypeEntry.t) : list string :=
  rev (remove_dups (rev (map AdsDatatypeEntry.name records))).

Fixpoint getCtype_each (limit : nat) (names : list string) : M unit :=
  match names with
  | [] => ret tt
  | dtypename :: names' =>
      getCtype limit dtypename None ;;
      getCtype_each limit names'
  end.

Definition __init__ (limit : nat) (records : list AdsDatatypeEntry.t) : result t :=
  let self := mk (dict_by_name records) basictypes [] in
  match getCtype_each limit (dict_keys records) self with
  | (Ok _, self') => Ok self'
  | (Raise e, _) => Raise e
  end.

End AdsVariablesDefinition.

(** ** [ads/adssymbols.py]: variables *)

Module AdsVariable.

Import AdsVariablesDefinition.
Local Open Scope py_scope.

(** A [Variable] object.  Its [__vardef] is the catalog the methods run
    against; the other private attributes are the fields below. *)
Record t : Type := mk {
  __name : string;
  __symbol : AdsSymbolEntry.t;
  __ctype : option CType;
  __datatype : option AdsDatatypeEntry.t;
  __offset : Z
}.

(** The [datatype] argument of the constructor: a type name or a record. *)
Inductive datatype_arg : Type :=
| ByName (datatype : string)
| ByEntry (datatype : AdsDatatypeEntry.t).

(** An index object handed to [__getitem__]. *)
Inductive index : Type :=
| Int (i : Z)
| Tuple (idx : list Z)
| Slice (start stop step : option Z).

(** What [__getitem__] returns: an element variable, or the raw bytes of
    a byte range, kept as the read request sent to the transport
    ([adsSyncReadReq(amsAddress, indexGroup, indexOffset, c_ubyte * length)]).
    And what [getattr] returns besides a field variable: an attribute of
    the object itself, kept as its name. *)
Inductive item : Type :=
| Child (v : t)
| RawRead (indexGroup : N) (indexOffset : Z) (length : Z)
| Attribute (name : string).

(** The test that makes a found record an alias to look through. *)
Definition is_alias (d : AdsDatatypeEntry.t) : bool :=
  truthy (AdsDatatypeEntry.type d)
  && bool_decide (AdsDatatypeEntry.array d = [])
  && bool_decide (AdsDatatypeEntry.subItems d = [])
  && negb (String.prefix "POINTER TO " (AdsDatatypeEntry.name d)).

Definition __init__ (limit : nat) (name : string) (symbol : AdsSymbolEntry.t)
  (datatype : datatype_arg) (offset : option Z) : M t :=
  r <- match datatype with
       | ByEntry d => ret (Some d, None)
       | ByName datatype =>
           vardef <- get ;;
           let found := dtypes vardef !! datatype in
           let '(__datatype, datatype) :=
             match found with
             | Some d => if is_alias d then (None, AdsDatatypeEntry.type d)
                         else (Some d, datatype)
             | None => (None, datatype)
             end in
           match __datatype with
           | Some d => ret (Some d, None)
           | None =>
               match basictypes !! datatype with
               | Some c => ret (None, Some c)
               | None =>
                   match stringMatch datatype with
                   | Some stringLength => ret (None, Some (PLCString_create stringLength))
                   | None => warn (Unknown_datatype datatype) ;; ret (None, None)
                   end
               end
           end
       end ;;
  let '(__datatype, __ctype) := r in
  __ctype <- match __datatype, __ctype with
             | Some d, None => getCtype limit (AdsDatatypeEntry.name d) None
             | _, _ => ret __ctype
             end ;;
  ret (mk name symbol __ctype __datatype (default 0 offset)).

(** [__getattr__]: a field of a structured variable.  (Python calls it
    for names that are not attributes of the object itself.) *)
Definition __getattr__ (limit : nat) (self : t) (name : string) : M t :=
  match __datatype self with
  | None => raise AttributeError
  | Some d =>
      match find (fun s => String.eqb (AdsDatatypeEntry.name s) name)
                 (AdsDatatypeEntry.subItems d) with
      | None => raise AttributeError
      | Some type =>
          let offset := Z.of_N (AdsDatatypeEntry.offs type) + __offset self in
          let type := if truthy (AdsDatatypeEntry.type type)
                      then ByName (AdsDatatypeEntry.type type)
                      else ByEntry type in
          __init__ limit name (__symbol self) type (Some offset)
      end
  end.

(** The names that ordinary attribute lookup finds on a [Variable] object
    (CPython 3.11; [__getstate__] is not among them before): the six
    private attributes under their mangled names, what the class defines,
    and what every object has. *)
Definition object_attributes : list string :=
  [ "_Variable__ctype"; "_Variable__datatype"; "_Variable__name";
    "_Variable__offset"; "_Variable__symbol"; "_Variable__vardef";
    "__call__"; "__class__"; "__delattr__"; "__dict__"; "__dir__"; "__doc__";
    "__eq__"; "__format__"; "__ge__"; "__getattr__"; "__getattribute__";
    "__getitem__"; "__getstate__"; "__gt__"; "__hash__"; "__init__";
    "__init_subclass__"; "__invert__"; "__iter__"; "__le__"; "__len__";
    "__lt__"; "__module__"; "__ne__"; "__new__"; "__reduce__";
    "__reduce_ex__"; "__repr__"; "__setattr__"; "__setitem__"; "__sizeof__";
    "__str__"; "__subclasshook__"; "__weakref__" ]%string.

(** [getattr(self, name)]: ordinary lookup first, [__getattr__] for the
    names it does not find. *)
Definition getattr (limit : nat) (self : t) (name : string) : M item :=
  if existsb (String.eqb name) object_attributes then ret (Attribute name)
  else v <- __getattr__ limit self name ;; ret (Child v).

(** [slice.indices(length)]. *)
Definition slice_indices (start stop step : option Z) (length : Z) : result (Z * Z * Z) :=
  let step := default 1 step in
  if step =? 0 then Raise ValueError
  else
    let start := match start with
                 | Some s => Array.adjust length step s
                 | None => if step <? 0 then length - 1 else 0
                 end in
    let stop := match stop with
                | Some s => Array.adjust length step s
                | None => if step <? 0 then -1 else length
                end in
    Ok (start, stop, step).

(** ['[%s]' % ','.join(str(i) for i in idx)] *)
Definition idxStr (idx : list Z) : string :=
  "[" ++ String.concat "," (map pretty idx) ++ "]".

(** The loop of [__getitem__] over [zip(idx, self.__datatype.array)]. *)
Fixpoint linear_index (idx : list Z) (dims : list (Z * N)) (linearIndex : Z) (nItems : N)
  : result (Z * N) :=
  match idx, dims with
  | i :: idx', (lower, elements) :: dims' =>
      if (i <? lower) || (lower + Z.of_N elements <=? i) then Raise IndexError
      else linear_index idx' dims' (linearIndex * Z.of_N elements + (i - lower))
                        (nItems * elements)%N
  | _, _ => Ok (linearIndex, nItems)
  end.

Definition __getitem__ (limit : nat) (self : t) (idx : index) : M item :=
  match idx, __datatype self with
  | Slice start stop step, Some d =>
      match slice_indices start stop step (Z.of_N (AdsDatatypeEntry.size d)) with
      | Raise e => raise e
      | Ok (start, stop, step) =>
          if negb (step =? 1) then raise ValueError
          else if stop - start <? 0 then raise ValueError
          else ret (RawRead (AdsSymbolEntry.iGroup (__symbol self))
                            (Z.of_N (AdsSymbolEntry.iOffs (__symbol self)) + __offset self + start)
                            (stop - start))
      end
  | _, None => raise IndexError
  | _, Some d =>
      if (length (AdsDatatypeEntry.array d) =? 0)%nat then raise IndexError
      else
        match match idx with
              | Tuple idx => Some idx
              | Int i => Some [i]
              | Slice _ _ _ => None
              end with
        | None => raise TypeError
        | Some idx =>
            if negb (length idx =? length (AdsDatatypeEntry.array d))%nat
            then raise IndexError
            else
              match linear_index idx (AdsDatatypeEntry.array d) 0 1 with
              | Raise e => raise e
              | Ok (linearIndex, nItems) =>
                  if (nItems =? 0)%N then raise ZeroDivisionError
                  else if negb (AdsDatatypeEntry.size d mod nItems =? 0)%N
                  then raise AssertionError
                  else
                    let elementSize := (AdsDatatypeEntry.size d / nItems)%N in
                    let type := AdsDatatypeEntry.type d in
                    if negb (truthy type) then raise NotImplementedError
                    else
                      let offset := __offset self + linearIndex * Z.of_N elementSize in
                      v <- __init__ limit (idxStr idx) (__symbol self) (ByName type)
                                    (Some offset) ;;
                      ret (Child v)
              end
        end
  end.

(** [itertools.product] of the pools: the last pool varies fastest. *)
Fixpoint product (pools : list (list Z)) : list (list Z) :=
  match pools with
  | [] => [[]]
  | pool :: pools' => flat_map (fun x => map (cons x) (product pools')) pool
  end.

(** [range(a[0], a[0] + a[1])] for each dimension. *)
Definition dim_ranges (dims : list (Z * N)) : list (list Z) :=
  map (fun a : Z * N => seqZ (fst a) (Z.of_N (snd a))) dims.

(** The body of a [for] loop of the generator [__iter__]: every turn
    yields a pair, an exception from a turn ends the generator with it. *)
Fixpoint yield_each {K} (f : K -> M (string * item)) (keys : list K)
  : AdsVariablesDefinition.t -> (list (string * item) * finish) * AdsVariablesDefinition.t :=
  fun vardef =>
    match keys with
    | [] => (([], Exhausted), vardef)
    | k :: keys' =>
        match f k vardef with
        | (Raise e, vardef') => (([], Raises e), vardef')
        | (Ok p, vardef') =>
            let '((ps, fin), vardef'') := yield_each f keys' vardef' in
            ((p :: ps, fin), vardef'')
        end
    end.

Definition __iter__ (limit : nat) (self : t)
  : AdsVariablesDefinition.t -> (list (string * item) * finish) * AdsVariablesDefinition.t :=
  match __datatype self with
  | None => fun vardef => (([], Raises TypeError), vardef)
  | Some d =>
      if bool_decide (AdsDatatypeEntry.array d <> []) then
        yield_each
          (fun idx => v <- __getitem__ limit self (Tuple idx) ;; ret (idxStr idx, v))
          (product (dim_ranges (AdsDatatypeEntry.array d)))
      else if bool_decide (AdsDatatypeEntry.subItems d <> []) then
        yield_each
          (fun subItemName =>
             v <- getattr limit self subItemName ;; ret (subItemName, v))
          (map AdsDatatypeEntry.name (AdsDatatypeEntry.subItems d))
      else
        fun vardef => (([], Exhausted), vardef)
  end.

Definition __len__ (self : t) : result N :=
  match __datatype self with
  | None => Raise TypeError
  | Some d =>
      if bool_decide (AdsDatatypeEntry.array d = []) then Raise TypeError
      else Ok (fold_left (fun length (a : Z * N) => (length * snd a)%N)
                         (AdsDatatypeEntry.array d) 1%N)
  end.

(** [__dir__]: the names [dir()] and tab completion offer. *)
Definition __dir__ (self : t) : list string :=
  match __datatype self with
  | None => []
  | Some d => map AdsDatatypeEntry.name (AdsDatatypeEntry.subItems d)
  end.

(** What [__setitem__] does: the write request it sends to the transport
    ([adsSyncWriteReq(amsAddress, indexGroup, indexOffset, data)]). *)
Inductive write_request : Type :=
| RawWrite (indexGroup : N) (indexOffset : Z) (data : Entry.bytes).

(** [__setitem__]: slice-based writing of raw bytes; [data] is the buffer
    the [memoryview] exposes. *)
Definition __setitem__ (self : t) (idx : index) (data : Entry.bytes)
  : result write_request :=
  match idx, __datatype self with
  | Slice start stop step, Some d =>
      match slice_indices start stop step (Z.of_N (AdsDatatypeEntry.size d)) with
      | Raise e => Raise e
      | Ok (start, stop, step) =>
          if negb (step =? 1) then Raise ValueError
          else if negb (stop - start =? Z.of_nat (length data)) then Raise ValueError
          else Ok (RawWrite (AdsSymbolEntry.iGroup (__symbol self))
                            (Z.of_N (AdsSymbolEntry.iOffs (__symbol self))
                             + __offset self + start)
                            data)
      end
  | _, _ => Raise AssertionError
  end.

End AdsVariable.

(** ** Vocabulary of the properties *)

Module Props.

Import AdsVariablesDefinition.

(** A property of the catalog that a method keeps, whatever it returns. *)
Definition preserves {A} (P : AdsVariablesDefinition.t -> Prop) (c : M A) : Prop :=
  forall self, P self -> P (snd (c self)).

(** The exceptions a method can raise. *)
Definition raises_only {A} (E : exn -> Prop) (c : M A) : Prop :=
  forall self e, fst (c self) = Raise e -> E e.

(** What [getCtype] can raise: the recursion limit, its two assertions,
    the division by the element count of an empty array, and ctypes
    refusing a field without a type. *)
Definition getCtype_exn (e : exn) : Prop :=
  e = RecursionError \/ e = AssertionError \/ e = ZeroDivisionError \/ e = TypeError.

(** The frame of [getCtype]: the table is never touched and the memo only
    grows. *)
Definition extends (self0 self : AdsVariablesDefinition.t) : Prop :=
  dtypes self = dtypes self0
  /\ forall k v, ctypes self0 !! k = Some v -> ctypes self !! k = Some v.

(** Every memoized layout is a built-in, a string class made from its
    name, or a layout of the size its record declares.  The memo starts
    as [basictypes], and [getCtype] keeps the property. *)
Definition memo_ok (self : AdsVariablesDefinition.t) : Prop :=
  forall k ct, ctypes self !! k = Some ct ->
    basictypes !! k = Some ct
    \/ (exists len, stringMatch k = Some len /\ ct = PLCString_create len)
    \/ (exists d, dtypes self !! k = Some d /\ sizeof ct = AdsDatatypeEntry.size d).

(** An alias or array record as [getCtype] tells it apart: no pointer
    name, a type reference, no sub-items. *)
Definition plain_array (d : AdsDatatypeEntry.t) : Prop :=
  String.prefix "POINTER TO " (AdsDatatypeEntry.name d) = false
  /\ AdsDatatypeEntry.type d <> ""%string
  /\ AdsDatatypeEntry.subItems d = [].

(** Every memoized name that went through synthesis as an alias or array
    record passed [assert remainder == 0]: its declared size is a multiple
    of its element count. *)
Definition memo_even (self : AdsVariablesDefinition.t) : Prop :=
  forall k ct, ctypes self !! k = Some ct ->
    basictypes !! k = Some ct
    \/ is_Some (stringMatch k)
    \/ (exists d, dtypes self !! k = Some d
                  /\ (plain_array d ->
                      (AdsDatatypeEntry.size d mod arraysize (AdsDatatypeEntry.array d) = 0)%N)).

(** *** The classes ctypes makes

    The catalog builds descriptors of ctypes classes, for any name and any
    size.  ctypes makes the class of a descriptor when all of the
    following hold, at every level of the descriptor; the properties that
    depend on a class being made state it. *)

(** A length or size that fits [Py_ssize_t]. *)
Definition fits (n : N) : bool := Z.of_N n <=? Array.PY_SSIZE_T_MAX.

Definition has_nul (s : string) : bool :=
  existsb (Ascii.eqb Ascii.zero) (list_ascii_of_string s).

(** Field names that are safe whatever the class object reserves: every
    attribute of a class object that refuses a field descriptor has a
    name that starts with an underscore. *)
Definition field_name_ok (s : string) : bool := negb (String.prefix "_" s).

Fixpoint creatable (t : CType) : bool :=
  match t with
  | c_array e n => creatable e && fits n && fits (n * sizeof e)
  | NonzeroBasedArray_type e _ n => creatable e && fits n && fits (n * sizeof e)
  | PLCString_type length => fits (length + 1)
  | Dummy_type n => fits n
  | Structure_type name fields pack =>
      negb (has_nul name)
      && (fix all (fs : list (string * CType)) : bool :=
            match fs with
            | [] => true
            | f :: fs' => field_name_ok (fst f) && creatable (snd f) && all fs'
            end) fields
      && fits (sizeof (Structure_type name fields pack))
  | _ => true
  end.

(** A type name whose string class, if it names one, ctypes makes. *)
Definition string_fits (n : string) : Prop :=
  forall len, stringMatch n = Some len -> fits (len + 1) = true.

(** A record all of whose type references are memoized: synthesizing its
    layout makes no class but its own. *)
Definition references_memoized (self : AdsVariablesDefinition.t)
  (d : AdsDatatypeEntry.t) : Prop :=
  (AdsDatatypeEntry.type d <> ""%string ->
   is_Some (ctypes self !! AdsDatatypeEntry.type d))
  /\ Forall (fun s => is_Some (ctypes self !! AdsDatatypeEntry.type s))
            (AdsDatatypeEntry.subItems d).

(** Field lists in which every field has a type. *)
Definition all_typed (fields : list (string * option CType)) : Prop :=
  Forall (fun f => is_Some (snd f)) fields.

(** A well-formed record of the stream, for the record class [cls]: its
    first four bytes declare its own length, and [cls] decodes it. *)
Definition framed {E} (cls : Entry.bytes -> result E) (r : Entry.bytes * E) : Prop :=
  Entry.unpack_L (Entry.upto 4 (fst r)) = Ok (N.of_nat (length (fst r)))
  /\ cls (fst r) = Ok (snd r).

(** A catalog whose constructor has run: [AdsVariablesDefinition.__init__]
    calls [getCtype] for every name of the table before it creates any
    variable, so every record of the table has its name in the memo. *)
Definition ready (vardef : AdsVariablesDefinition.t) : Prop :=
  forall n d, dtypes vardef !! n = Some d ->
    is_Some (ctypes vardef !! AdsDatatypeEntry.name d).

(** The layout that goes with a name which is no record of the table: a
    built-in type, a string type, or none. *)
Definition named_ctype (n : string) : option CType :=
  match basictypes !! n with
  | Some c => Some c
  | None => option_map PLCString_create (stringMatch n)
  end.

(** An index component within the declared bounds of its dimension. *)
Definition in_range (i : Z) (dim : Z * N) : Prop :=
  fst dim <= i < fst dim + Z.of_N (snd dim).

(** The product of the element counts of the dimensions. *)
Fixpoint count_product (dims : list (Z * N)) : N :=
  match dims with
  | [] => 1
  | (_, elements) :: dims' => elements * count_product dims'
  end%N.

(** The row-major position of an index tuple, in the words of the
    specification: the sum over the dimensions of the zero-based index
    component times the product of the element counts of the dimensions
    inner to it. *)
Fixpoint row_major_sum (idx : list Z) (dims : list (Z * N)) : Z :=
  match idx, dims with
  | i :: idx', (lower, _) :: dims' =>
      (i - lower) * Z.of_N (count_product dims') + row_major_sum idx' dims'
  | _, _ => 0
  end.

End Props.

(** ** Sample catalogs and records *)

Module Examples.

Import AdsVariablesDefinition.

(** A data-type record with the given name, type reference, size, offset,
    dimensions and sub-items, an empty comment, and the lengths in its
    header as the binary format counts them. *)
Definition entry (name type : string) (size offs : N) (array : list (Z * N))
  (subItems : list AdsDatatypeEntry.t) : AdsDatatypeEntry.t :=
  let nameLength := N.of_nat (String.length name) in
  let typeLength := N.of_nat (String.length type) in
  let arrayDim := N.of_nat (length array) in
  let entryLength :=
    (42 + (nameLength + 1) + (typeLength + 1) + 1 + 8 * arrayDim
     + fold_right (fun s acc => AdsDatatypeEntry.entryLength s + acc) 0 subItems)%N in
  AdsDatatypeEntry.mk entryLength 1 0 0 size offs 0 0
    nameLength typeLength 0 arrayDim (N.of_nat (length subItems))
    name type "" array subItems.

(** [{t.name: t for t in records}] with the memo as the constructor
    seeds it, before any call of [getCtype]. *)
Definition catalog (records : list AdsDatatypeEntry.t) : AdsVariablesDefinition.t :=
  mk (dict_by_name records) basictypes [].

Definition symbol (name type : string) (size : N) : AdsSymbolEntry.t :=
  AdsSymbolEntry.mk 0 16448 0 size 0 0
    (N.of_nat (String.length name)) (N.of_nat (String.length type)) 0 name type "".

(** The array of the package's test: [create(c_byte, -2, 4)] holding
    [5, 6, 7, 7]. *)
Definition t1 : NonzeroBasedArray.t Z :=
  NonzeroBasedArray.create_instance (-2) [5; 6; 7; 7].

(** A structure of two [DINT] members at offsets 0 and 8, 12 bytes. *)
Definition ST_Gap : AdsDatatypeEntry.t :=
  entry "ST_Gap" "" 12 0 []
    [entry "a" "DINT" 4 0 [] []; entry "b" "DINT" 4 8 [] []].

(** A structure declared smaller than its one [LREAL] member. *)
Definition ST_Short : AdsDatatypeEntry.t :=
  entry "ST_Short" "" 4 0 [] [entry "x" "LREAL" 8 0 [] []].

(** [ARRAY [-2..1] OF BYTE], 4 bytes. *)
Definition ARR_Byte : AdsDatatypeEntry.t :=
  entry "ARRAY [-2..1] OF BYTE" "BYTE" 4 0 [(-2, 4%N)] [].

(** [ARRAY [1..2, 0..2] OF INT], 12 bytes. *)
Definition ARR_Int2 : AdsDatatypeEntry.t :=
  entry "ARRAY [1..2,0..2] OF INT" "INT" 12 0 [(1, 2%N); (0, 3%N)] [].

(** An array record of three elements declared with four bytes. *)
Definition ARR_Uneven : AdsDatatypeEntry.t :=
  entry "ARRAY [0..2] OF BYTE" "BYTE" 4 0 [(0, 3%N)] [].

(** A pointer type. *)
Definition PTR_Int : AdsDatatypeEntry.t :=
  entry "POINTER TO INT" "INT" 8 0 [] [].

(** Records named like a built-in type and like a string type, declaring
    sizes of their own. *)
Definition BYTE_Wide : AdsDatatypeEntry.t := entry "BYTE" "" 2 0 [] [].
Definition STRING_Wide : AdsDatatypeEntry.t := entry "STRING(5)" "" 10 0 [] [].

(** A variable of a table type at offset 0 of its symbol, as the
    constructor makes it on a catalog that has the type memoized. *)
Definition variable (d : AdsDatatypeEntry.t) (ctype : CType) : AdsVariable.t :=
  AdsVariable.mk "v" (symbol "MAIN.v" (AdsDatatypeEntry.name d) (AdsDatatypeEntry.size d))
    (Some ctype) (Some d) 0.

(** The catalog as [AdsVariablesDefinition.__init__] leaves it. *)
Definition loaded (records : list AdsDatatypeEntry.t) : AdsVariablesDefinition.t :=
  match __init__ 1000 records with
  | Ok self => self
  | Raise _ => catalog records
  end.

(** A symbol blob of one record that declares 40 bytes (header, [MAIN],
    [INT], empty comment) and is cut after 37. *)
Definition truncated_symbols : Entry.bytes :=
  let x00 := Byte.x00 in
  [ Byte.x28; x00; x00; x00;   Byte.x40; Byte.x40; x00; x00;
    x00; x00; x00; x00;        Byte.x02; x00; x00; x00;
    Byte.x02; x00; x00; x00;   x00; x00; x00; x00;
    Byte.x04; x00;  Byte.x03; x00;  x00; x00;
    Byte.x4d; Byte.x41; Byte.x49; Byte.x4e; x00;
    Byte.x49; Byte.x4e ].

(** The same record whole: 40 bytes, with [INT] and the empty comment. *)
Definition symbol_record : Entry.bytes :=
  truncated_symbols ++ [Byte.x54; Byte.x00; Byte.x00].

Definition symbol_MAIN : AdsSymbolEntry.t :=
  AdsSymbolEntry.mk 40 16448 0 2 2 0 4 3 0 "MAIN" "INT" "".

(** An array record over an element type that no table knows. *)
Definition ARR_Unknown : AdsDatatypeEntry.t :=
  entry "ARRAY [0..1] OF T_Missing" "T_Missing" 8 0 [(0, 2%N)] [].

(** An alias of [INT]. *)
Definition T_MyInt : AdsDatatypeEntry.t := entry "T_MyInt" "INT" 2 0 [] [].

(** An array record named like a built-in type, of three elements in four
    bytes. *)
Definition BYTE_Triple : AdsDatatypeEntry.t :=
  entry "BYTE" "INT" 4 0 [(0, 3%N)] [].

(** A data-type record [T] of 146 bytes: no type reference, the one
    dimension [(-2, 4)], and two sub-items that are both named [a], of 2
    and of 4 bytes. *)
Definition datatype_record : Entry.bytes :=
  [ Byte.x92; Byte.x00; Byte.x00; Byte.x00; Byte.x01; Byte.x00; Byte.x00; Byte.x00;
    Byte.x00; Byte.x00; Byte.x00; Byte.x00; Byte.x00; Byte.x00; Byte.x00; Byte.x00;
    Byte.x04; Byte.x00; Byte.x00; Byte.x00; Byte.x00; Byte.x00; Byte.x00; Byte.x00;
    Byte.x00; Byte.x00; Byte.x00; Byte.x00; Byte.x00; Byte.x00; Byte.x00; Byte.x00;
    Byte.x01; Byte.x00; Byte.x00; Byte.x00; Byte.x00; Byte.x00; Byte.x01; Byte.x00;
    Byte.x02; Byte.x00; Byte.x54; Byte.x00; Byte.x00; Byte.x00; Byte.xfe; Byte.xff;
    Byte.xff; Byte.xff; Byte.x04; Byte.x00; Byte.x00; Byte.x00; Byte.x2e; Byte.x00;
    Byte.x00; Byte.x00; Byte.x01; Byte.x00; Byte.x00; Byte.x00; Byte.x00; Byte.x00;
    Byte.x00; Byte.x00; Byte.x00; Byte.x00; Byte.x00; Byte.x00; Byte.x02; Byte.x00;
    Byte.x00; Byte.x00; Byte.x00; Byte.x00; Byte.x00; Byte.x00; Byte.x00; Byte.x00;
    Byte.x00; Byte.x00; Byte.x00; Byte.x00; Byte.x00; Byte.x00; Byte.x01; Byte.x00;
    Byte.x00; Byte.x00; Byte.x00; Byte.x00; Byte.x00; Byte.x00; Byte.x00; Byte.x00;
    Byte.x61; Byte.x00; Byte.x00; Byte.x00; Byte.x2e; Byte.x00; Byte.x00; Byte.x00;
    Byte.x01; Byte.x00; Byte.x00; Byte.x00; Byte.x00; Byte.x00; Byte.x00; Byte.x00;
    Byte.x00; Byte.x00; Byte.x00; Byte.x00; Byte.x04; Byte.x00; Byte.x00; Byte.x00;
    Byte.x00; Byte.x00; Byte.x00; Byte.x00; Byte.x00; Byte.x00; Byte.x00; Byte.x00;
    Byte.x00; Byte.x00; Byte.x00; Byte.x00; Byte.x01; Byte.x00; Byte.x00; Byte.x00;
    Byte.x00; Byte.x00; Byte.x00; Byte.x00; Byte.x00; Byte.x00; Byte.x61; Byte.x00;
    Byte.x00; Byte.x00 ].

(** A blob whose first record declares a length of zero. *)
Definition zero_length_blob : Entry.bytes :=
  [ Byte.x00; Byte.x00; Byte.x00; Byte.x00; Byte.x01; Byte.x02 ].

End Examples.

(** * Properties *)

(** ** NonzeroBasedArray *)

Section NonzeroBasedArrayFacts.

Import Array NonzeroBasedArray.

Context {A : Type}.
Implicit Types (self : NonzeroBasedArray.t A) (items : list A).

Lemma item_nth items (k : nat) x :
  nth_error items k = Some x -> item items (Z.of_nat k) = Ok x.
Proof.
  intros H. unfold item.
  assert (Hk : (k < length items)%nat) by (apply nth_error_Some; congruence).
  destruct (Z.ltb_spec (Z.of_nat k) 0); [lia|].
  destruct (Z.leb_spec (Z.of_nat (length items)) (Z.of_nat k)); [lia|].
  simpl. rewrite Nat2Z.id, H. reflexivity.
Qed.

Lemma item_out_of_range items i :
  i < 0 \/ Z.of_nat (length items) <= i -> item items i = Raise IndexError.
Proof.
  intros H. unfold item.
  destruct (Z.ltb_spec i 0); [reflexivity|].
  destruct (Z.leb_spec (Z.of_nat (length items)) i); [reflexivity|lia].
Qed.

Lemma getitem_shifted self (k : nat) x :
  nth_error (buffer self) k = Some x ->
  __getitem__ self (Int (_lbound_ self + Z.of_nat k)) = Ok (Item x).
Proof.
  intros H. unfold __getitem__, __convertindex__.
  replace (_lbound_ self + Z.of_nat k - _lbound_ self) with (Z.of_nat k) by lia.
  destruct (Z.ltb_spec (Z.of_nat k) 0); [lia|]. simpl.
  destruct (Z.ltb_spec (Z.of_nat k) 0); [lia|].
  rewrite (item_nth _ _ _ H). reflexivity.
Qed.

Lemma getitem_below self i :
  i - _lbound_ self < 0 -> __getitem__ self (Int i) = Raise IndexError.
Proof.
  intros H. unfold __getitem__, __convertindex__.
  destruct (Z.ltb_spec (i - _lbound_ self) 0); [reflexivity|lia].
Qed.

Lemma getitem_above self i :
  _length_ self <= i - _lbound_ self -> __getitem__ self (Int i) = Raise IndexError.
Proof.
  intros H. unfold _length_ in H. unfold __getitem__, __convertindex__.
  destruct (Z.ltb_spec (i - _lbound_ self) 0); [reflexivity|]. simpl.
  destruct (Z.ltb_spec (i - _lbound_ self) 0); [lia|].
  rewrite item_out_of_range by lia. reflexivity.
Qed.

Lemma getitem_slice_below self start stop step :
  (exists s, start = Some s /\ s - _lbound_ self < 0) \/
  (exists s, stop = Some s /\ s - _lbound_ self < 0) ->
  __getitem__ self (Slice start stop step) = Raise IndexError.
Proof.
  intros H. unfold __getitem__, __convertindex__.
  destruct start as [s|]; destruct stop as [e|]; simpl;
    repeat match goal with
           | |- context [?a <? 0] => destruct (Z.ltb_spec a 0); simpl
           end; try reflexivity;
    destruct H as [(x & Hx & ?)|(x & Hx & ?)]; inversion Hx; subst; lia.
Qed.

(** The generator loop started at the logical index of a suffix of the
    buffer yields that suffix and then leaves through [raise StopIteration]. *)
Lemma iter_from_suffix gs self (suf : list A) : forall (pre : list A) (fuel : nat),
  buffer self = pre ++ suf ->
  (length suf < fuel)%nat ->
  iter_from gs fuel self (_lbound_ self + Z.of_nat (length pre))
  = (map Item suf, generator_raise gs StopIteration).
Proof.
  induction suf as [|x suf IH]; intros pre fuel Hb Hf.
  - destruct fuel as [|fuel]; [simpl in Hf; lia|]. simpl iter_from.
    rewrite getitem_above; [reflexivity|].
    unfold _length_. rewrite Hb, app_nil_r. lia.
  - destruct fuel as [|fuel]; [simpl in Hf; lia|]. simpl iter_from.
    rewrite (getitem_shifted self (length pre) x).
    2:{ rewrite Hb. rewrite nth_error_app2 by lia. rewrite Nat.sub_diag. reflexivity. }
    replace (_lbound_ self + Z.of_nat (length pre) + 1)
      with (_lbound_ self + Z.of_nat (length (pre ++ [x])))
      by (rewrite length_app; simpl; lia).
    rewrite (IH (pre ++ [x]) fuel).
    + reflexivity.
    + rewrite Hb, <- app_assoc. reflexivity.
    + simpl in Hf. lia.
Qed.

Lemma iter_all gs self fuel :
  (length (buffer self) < fuel)%nat ->
  __iter__ gs fuel self = (map Item (buffer self), generator_raise gs StopIteration).
Proof.
  intros Hf. unfold __iter__.
  pose proof (iter_from_suffix gs self (buffer self) [] fuel eq_refl Hf) as H.
  simpl in H. rewrite Z.add_0_r in H. exact H.
Qed.

Lemma yielded_at_indices self (suf : list A) : forall (pre : list A),
  buffer self = pre ++ suf ->
  Forall2 (fun v i => __getitem__ self (Int i) = Ok v)
          (map Item suf)
          (seqZ (_lbound_ self + Z.of_nat (length pre)) (Z.of_nat (length suf))).
Proof.
  induction suf as [|x suf IH]; intros pre Hb.
  - constructor.
  - simpl length. rewrite Nat2Z.inj_succ, seqZ_cons by lia. simpl map. constructor.
    + apply getitem_shifted. rewrite Hb, nth_error_app2 by lia.
      rewrite Nat.sub_diag. reflexivity.
    + replace (Z.succ (_lbound_ self + Z.of_nat (length pre)))
        with (_lbound_ self + Z.of_nat (length (pre ++ [x])))
        by (rewrite length_app; simpl; lia).
      replace (Z.pred (Z.succ (Z.of_nat (length suf)))) with (Z.of_nat (length suf)) by lia.
      apply IH. rewrite Hb, <- app_assoc. reflexivity.
Qed.

End NonzeroBasedArrayFacts.

Section NonzeroBasedArrayClaims.

Import Array NonzeroBasedArray.

Context {A : Type}.
Implicit Types (self : NonzeroBasedArray.t A).

(** C8: for an array with lower bound [b] and length [n], an integer or
    slice index is converted by subtracting [b]; indexing at [b] and at
    [b+n-1] returns the elements at zero-based positions [0] and [n-1] (an
    array that has elements, [0 < n]); indexing at [b-1] and at [b+n] raises
    [IndexError]; the slice [[b:b]] is empty; and an index or slice bound
    whose shifted value is negative raises [IndexError], never counting from
    the end, even where the underlying ctypes array would have accepted the
    shifted index as a position from the end. *)
Theorem NonzeroBasedArray_indexing self :
  (forall i, 0 <= i - _lbound_ self ->
     __convertindex__ self (Int i) = Ok (Int (i - _lbound_ self)))
  /\ (forall start stop step,
        0 <= start - _lbound_ self -> 0 <= stop - _lbound_ self ->
        __convertindex__ self (Slice (Some start) (Some stop) step)
        = Ok (Slice (Some (start - _lbound_ self)) (Some (stop - _lbound_ self)) step))
  /\ (0 < _length_ self ->
      exists x y,
        nth_error (buffer self) 0 = Some x
        /\ nth_error (buffer self) (Z.to_nat (_length_ self - 1)) = Some y
        /\ __getitem__ self (Int (_lbound_ self)) = Ok (Item x)
        /\ __getitem__ self (Int (_lbound_ self + _length_ self - 1)) = Ok (Item y))
  /\ __getitem__ self (Int (_lbound_ self - 1)) = Raise IndexError
  /\ __getitem__ self (Int (_lbound_ self + _length_ self)) = Raise IndexError
  /\ __getitem__ self (Slice (Some (_lbound_ self)) (Some (_lbound_ self)) None)
     = Ok (Items [])
  /\ (forall i, i - _lbound_ self < 0 ->
        __getitem__ self (Int i) = Raise IndexError
        /\ (- _length_ self <= i - _lbound_ self ->
            exists x, getitem (buffer self) (Int (i - _lbound_ self)) = Ok (Item x)))
  /\ (forall start stop step,
        (exists s, start = Some s /\ s - _lbound_ self < 0) \/
        (exists s, stop = Some s /\ s - _lbound_ self < 0) ->
        __getitem__ self (Slice start stop step) = Raise IndexError).
Proof.
  repeat split.
  - intros i Hi. unfold __convertindex__.
    destruct (Z.ltb_spec (i - _lbound_ self) 0); [lia|reflexivity].
  - intros start stop step Hs He. unfold __convertindex__.
    destruct (Z.ltb_spec (start - _lbound_ self) 0); [lia|]. simpl.
    destruct (Z.ltb_spec (stop - _lbound_ self) 0); [lia|reflexivity].
  - intros Hn. unfold _length_ in *.
    destruct (nth_error (buffer self) 0) as [x|] eqn:Hx.
    2:{ apply nth_error_None in Hx. lia. }
    destruct (nth_error (buffer self) (Z.to_nat (Z.of_nat (length (buffer self)) - 1)))
      as [y|] eqn:Hy.
    2:{ apply nth_error_None in Hy. lia. }
    exists x, y. repeat split.
    + pose proof (getitem_shifted self 0 x Hx) as H. simpl in H.
      rewrite Z.add_0_r in H. exact H.
    + pose proof (getitem_shifted self _ y Hy) as H.
      rewrite Z2Nat.id in H by lia.
      replace (_lbound_ self + Z.of_nat (length (buffer self)) - 1)
        with (_lbound_ self + (Z.of_nat (length (buffer self)) - 1)) by lia.
      exact H.
  - apply getitem_below. lia.
  - apply getitem_above. lia.
  - unfold __getitem__, __convertindex__. rewrite Z.sub_diag. simpl.
    set (a := adjust _ _ _).
    replace (slicelength a a 1) with 0; [reflexivity|].
    unfold slicelength. simpl. rewrite Z.ltb_irrefl. reflexivity.
  - apply getitem_below. assumption.
  - intros Hn. unfold _length_ in Hn. unfold getitem.
    destruct (Z.ltb_spec (i - _lbound_ self) 0); [|lia].
    destruct (nth_error (buffer self)
                (Z.to_nat (i - _lbound_ self + Z.of_nat (length (buffer self)))))
      as [x|] eqn:Hx.
    2:{ apply nth_error_None in Hx. lia. }
    exists x. apply item_nth in Hx. rewrite Z2Nat.id in Hx by lia.
    rewrite Hx. reflexivity.
  - intros start stop step H. apply getitem_slice_below. assumption.
Qed.

(** C9, with the end of the iteration as the code has it: iterating an
    array with lower bound [b] and length [n] yields exactly the [n]
    elements at the logical indices [b, b+1, ..., b+n-1], in increasing
    index order; then the generator body executes [raise StopIteration].
    Under PEP 479 (every module from Python 3.7 on, or with
    [generator_stop] imported) this comes out of the iteration as
    [RuntimeError], so that the iteration does not end normally; only
    without PEP 479 does it end there. *)
Theorem NonzeroBasedArray_iter_yields_all self (generator_stop : bool) (fuel : nat) :
  (length (buffer self) < fuel)%nat ->
  exists vs,
    __iter__ generator_stop fuel self
    = (vs, if generator_stop then Raises RuntimeError else Exhausted)
    /\ vs = map Item (buffer self)
    /\ Z.of_nat (length vs) = _length_ self
    /\ Forall2 (fun v i => __getitem__ self (Int i) = Ok v)
               vs (seqZ (_lbound_ self) (_length_ self)).
Proof.
  intros Hf. exists (map Item (buffer self)). repeat split.
  - rewrite iter_all by assumption. destruct generator_stop; reflexivity.
  - rewrite length_map. reflexivity.
  - pose proof (yielded_at_indices self (buffer self) [] eq_refl) as H.
    simpl in H. rewrite Z.add_0_r in H. exact H.
Qed.

End NonzeroBasedArrayClaims.

Lemma NonzeroBasedArray_indexing_witness :
  NonzeroBasedArray.__getitem__ Examples.t1 (Array.Int (-2)) = Ok (Array.Item 5)
  /\ NonzeroBasedArray.__getitem__ Examples.t1 (Array.Int 1) = Ok (Array.Item 7)
  /\ NonzeroBasedArray.__getitem__ Examples.t1 (Array.Int (-3)) = Raise IndexError
  /\ NonzeroBasedArray.__getitem__ Examples.t1 (Array.Int 2) = Raise IndexError.
Proof.
  destruct (NonzeroBasedArray_indexing Examples.t1) as (_ & _ & H & Hlo & Hhi & _).
  destruct (H ltac:(reflexivity)) as (x & y & Hx & Hy & Hgx & Hgy).
  vm_compute in Hx, Hy. inversion Hx; inversion Hy; subst.
  repeat split; assumption.
Defined.

(** The array of the package's test, on an interpreter with PEP 479. *)
Lemma NonzeroBasedArray_iter_witness :
  exists vs,
    NonzeroBasedArray.__iter__ true 5 Examples.t1 = (vs, Raises RuntimeError)
    /\ vs = map Array.Item [5; 6; 7; 7]
    /\ Z.of_nat (length vs) = 4
    /\ Forall2 (fun v i => NonzeroBasedArray.__getitem__ Examples.t1 (Array.Int i) = Ok v)
               vs [-2; -1; 0; 1].
Proof. apply (NonzeroBasedArray_iter_yields_all Examples.t1 true 5). simpl. lia. Defined.

(** ** The record stream *)

Section RecordStream.

Import Entry Props.

Context {E : Type} (cls : bytes -> result E).

Lemma upto_length n (data : bytes) :
  length (upto n data) = Nat.min (N.to_nat n) (length data).
Proof. unfold upto. apply length_take. Qed.

Lemma unpack_L_length data v : unpack_L data = Ok v -> length data = 4%nat.
Proof.
  unfold unpack_L, unpack. change (calcsize [4%N]) with 4%N.
  destruct (N.eqb_spec (N.of_nat (length data)) 4) as [H|H]; [lia|discriminate].
Qed.

Lemma framed_length r : framed cls r -> (4 <= length (fst r))%nat.
Proof.
  intros [H _]. apply unpack_L_length in H. rewrite upto_length in H. lia.
Qed.

Lemma slice_all p q (data : bytes) :
  (N.of_nat (length data) <= q)%N -> slice p q data = from p data.
Proof.
  intros H. unfold slice, upto, from. apply take_ge. rewrite length_drop. lia.
Qed.

Lemma slice_empty p (data : bytes) : slice p (p + 0) data = [].
Proof. unfold slice, upto. replace (p + 0 - p)%N with 0%N by lia. reflexivity. Qed.

Lemma from_app (pre rest : bytes) : from (N.of_nat (length pre)) (pre ++ rest) = rest.
Proof. unfold from. rewrite Nat2N.id. apply drop_app_length. Qed.

Lemma slice_app (pre rest : bytes) n :
  slice (N.of_nat (length pre)) (N.of_nat (length pre) + n) (pre ++ rest) = upto n rest.
Proof.
  unfold slice. rewrite from_app. f_equal. lia.
Qed.

Lemma upto_app_exact (r rest : bytes) : upto (N.of_nat (length r)) (r ++ rest) = r.
Proof. unfold upto. rewrite Nat2N.id. apply take_app_length. Qed.

Lemma upto_app_le n (r rest : bytes) :
  (N.to_nat n <= length r)%nat -> upto n (r ++ rest) = upto n r.
Proof. intros H. unfold upto. apply take_app_le. exact H. Qed.

(** One turn of the loop at a cursor that stands in front of [rest]. *)
Lemma iter_from_step fuel (pre rest : bytes) :
  rest <> [] ->
  iter_from cls (S fuel) (pre ++ rest) (N.of_nat (length pre))
  = match unpack_L (upto 4 rest) with
    | Raise e => ([], Raises e)
    | Ok len =>
        match cls (upto len rest) with
        | Raise e => ([], Raises e)
        | Ok entry =>
            let '(entries, f) :=
              iter_from cls fuel (pre ++ rest) (N.of_nat (length pre) + len) in
            (entry :: entries, f)
        end
    end.
Proof.
  intros Hne. simpl.
  destruct (N.ltb_spec (N.of_nat (length pre)) (N.of_nat (length (pre ++ rest)))) as [_|H].
  - rewrite slice_app. destruct (unpack_L (upto 4 rest)) as [len|e]; [|reflexivity].
    rewrite slice_app. reflexivity.
  - rewrite length_app in H. destruct rest; [contradiction|simpl in H; lia].
Qed.

Lemma iter_from_end fuel (data : bytes) p :
  (N.of_nat (length data) <= p)%N -> iter_from cls (S fuel) data p = ([], Exhausted).
Proof.
  intros H. simpl. destruct (N.ltb_spec p (N.of_nat (length data))); [lia|reflexivity].
Qed.

(** Well-formed records in front of the cursor are yielded one per turn. *)
Lemma iter_from_records (recs : list (bytes * E)) : forall (pre rest : bytes) fuel,
  Forall (framed cls) recs ->
  iter_from cls (length recs + fuel) (pre ++ concat (map fst recs) ++ rest)
            (N.of_nat (length pre))
  = let '(entries, f) :=
      iter_from cls fuel (pre ++ concat (map fst recs) ++ rest)
                (N.of_nat (length (pre ++ concat (map fst recs)))) in
    (map snd recs ++ entries, f).
Proof.
  induction recs as [|[r e] recs IH]; intros pre rest fuel Hall.
  - simpl. rewrite app_nil_r. destruct (iter_from _ _ _ _). reflexivity.
  - inversion Hall as [|? ? Hr Hrecs]; subst.
    pose proof (framed_length _ Hr) as Hlen. destruct Hr as [Hdecl Hcls].
    simpl in Hlen, Hdecl, Hcls.
    change (length ((r, e) :: recs) + fuel)%nat with (S (length recs + fuel)).
    change (concat (map fst ((r, e) :: recs))) with (r ++ concat (map fst recs)).
    change (map snd ((r, e) :: recs)) with (e :: map snd recs).
    rewrite <- (app_assoc r).
    rewrite iter_from_step by (destruct r; [simpl in Hlen; lia|discriminate]).
    rewrite upto_app_le by (simpl; lia).
    rewrite Hdecl, upto_app_exact, Hcls.
    replace (N.of_nat (length pre) + N.of_nat (length r))%N
      with (N.of_nat (length (pre ++ r))) by (rewrite length_app; lia).
    replace (pre ++ r ++ concat (map fst recs) ++ rest)
      with ((pre ++ r) ++ concat (map fst recs) ++ rest) by (rewrite <- app_assoc; reflexivity).
    rewrite IH by assumption.
    replace ((pre ++ r) ++ concat (map fst recs)) with (pre ++ r ++ concat (map fst recs))
      by (rewrite <- app_assoc; reflexivity).
    destruct (iter_from _ _ _ _). reflexivity.
Qed.

(** A record class that refuses the empty record makes every turn of the
    loop that yields advance the cursor, so the loop ends. *)
Lemma iter_from_terminates e0 (data : bytes) :
  cls [] = Raise e0 ->
  forall fuel p,
    (length data - N.to_nat p < fuel)%nat ->
    snd (iter_from cls fuel data p) <> Suspended.
Proof.
  intros H0. induction fuel as [|fuel IH]; intros p Hfuel; [lia|]. simpl.
  destruct (N.ltb_spec p (N.of_nat (length data))) as [Hp|Hp]; [|simpl; discriminate].
  destruct (unpack_L _) as [len|e]; [|simpl; discriminate].
  destruct (N.eq_dec len 0%N) as [->|Hlen].
  - rewrite slice_empty, H0. simpl. discriminate.
  - destruct (cls (slice p (p + len) data)) as [entry|e]; [|simpl; discriminate].
    specialize (IH (p + len)%N ltac:(lia)).
    destruct (iter_from cls fuel data (p + len)). exact IH.
Qed.

Lemma records_length (recs : list (bytes * E)) :
  Forall (framed cls) recs -> (4 * length recs <= length (concat (map fst recs)))%nat.
Proof.
  induction 1 as [|r recs Hr _ IH]; simpl; [lia|].
  apply framed_length in Hr. rewrite length_app. lia.
Qed.

End RecordStream.

Section RecordClasses.

Import Entry.

Lemma AdsSymbolEntry_init_empty : AdsSymbolEntry.__init__ [] = Raise struct_error.
Proof. reflexivity. Qed.

Lemma AdsDatatypeEntry_init_empty depth :
  AdsDatatypeEntry.__init__ (S depth) [] = Raise struct_error.
Proof. reflexivity. Qed.

(** The symbol constructor fails exactly on fewer bytes than its fixed
    structure of 30: shorter strings are taken as they come. *)
Lemma AdsSymbolEntry_init_total (data : bytes) :
  if (length data <? 30)%nat
  then AdsSymbolEntry.__init__ data = Raise struct_error
  else exists entry, AdsSymbolEntry.__init__ data = Ok entry.
Proof.
  destruct (Nat.ltb_spec (length data) 30) as [Hlt|Hge].
  - unfold AdsSymbolEntry.__init__, _parsefields, unpack.
    change (calcsize AdsSymbolEntry._fieldsformat) with 30%N.
    rewrite upto_length.
    destruct (N.eqb_spec (N.of_nat (Nat.min (N.to_nat 30) (length data))) 30) as [H|H];
      [lia|reflexivity].
  - unfold AdsSymbolEntry.__init__, _parsefields, unpack.
    change (calcsize AdsSymbolEntry._fieldsformat) with 30%N.
    rewrite upto_length.
    destruct (N.eqb_spec (N.of_nat (Nat.min (N.to_nat 30) (length data))) 30) as [H|H];
      [|lia].
    cbn [result_bind AdsSymbolEntry._fieldsformat split_fields].
    repeat match goal with |- context [_stringfield ?n ?d] =>
             destruct (_stringfield n d) end.
    eexists. reflexivity.
Qed.

End RecordClasses.

Section RecordStreamClaims.

Import Entry Props.

(** C2 (as amended): [Entry.iter] always ends, for both record classes
    (whose constructors refuse an empty record).  After the well-formed
    records in front of it have been yielded, a record whose declared
    length is zero makes the iteration fail with the exception the
    constructor raises on the empty slice ([struct.error]), and so does a
    record with fewer than four bytes for its length; a record whose
    declared length extends past the end of the blob is decoded from the
    bytes that are left: the iteration fails if the constructor fails on
    them, and otherwise yields that shortened record and ends. *)
Theorem Entry_iter_malformed {E} (cls : bytes -> result E) (e0 : exn) :
  cls [] = Raise e0 ->
  (forall data fuel, (length data < fuel)%nat -> snd (iter cls fuel data) <> Suspended)
  /\ (forall (recs : list (bytes * E)) (bad : bytes) fuel,
        Forall (framed cls) recs ->
        bad <> [] ->
        (length (concat (map fst recs) ++ bad) < fuel)%nat ->
        match unpack_L (upto 4 bad) with
        | Raise e =>
            iter cls fuel (concat (map fst recs) ++ bad) = (map snd recs, Raises e)
        | Ok len =>
            (len = 0%N ->
             iter cls fuel (concat (map fst recs) ++ bad) = (map snd recs, Raises e0))
            /\ ((N.of_nat (length bad) < len)%N ->
                iter cls fuel (concat (map fst recs) ++ bad)
                = match cls bad with
                  | Ok entry => (map snd recs ++ [entry], Exhausted)
                  | Raise e => (map snd recs, Raises e)
                  end)
        end).
Proof.
  intros H0. split.
  - intros data fuel Hfuel. apply (iter_from_terminates cls e0 data H0). lia.
  - intros recs bad fuel Hrecs Hbad Hfuel.
    pose proof (records_length cls recs Hrecs) as Hn.
    rewrite length_app in Hfuel.
    assert (Hb : (0 < length bad)%nat) by (destruct bad; [contradiction|simpl; lia]).
    assert (Hsplit : exists fuel', fuel = (length recs + S (S fuel'))%nat).
    { exists (fuel - length recs - 2)%nat. lia. }
    destruct Hsplit as [fuel' ->].
    unfold iter.
    pose proof (iter_from_records cls recs [] bad (S (S fuel')) Hrecs) as Hrun.
    cbn [app length] in Hrun. change (N.of_nat 0) with 0%N in Hrun.
    rewrite Hrun. clear Hrun.
    rewrite (iter_from_step cls (S fuel') (concat (map fst recs)) bad Hbad).
    destruct (unpack_L (upto 4 bad)) as [len|e].
    2:{ rewrite app_nil_r. reflexivity. }
    split.
    + intros ->. change (upto 0 bad) with (@nil Byte.byte). rewrite H0.
      rewrite app_nil_r. reflexivity.
    + intros Hlen.
      replace (upto len bad) with bad
        by (unfold upto; rewrite take_ge; [reflexivity|lia]).
      destruct (cls bad) as [entry|e]; [|rewrite app_nil_r; reflexivity].
      rewrite iter_from_end by (rewrite length_app; lia). reflexivity.
Qed.

(** C2, as the claim states it, fails: a symbol blob whose only record
    declares 40 bytes and holds 37 is iterated without any error, and the
    record yielded is the truncated one (type [IN] for [INT]). *)
Lemma Entry_iter_yields_truncated_record :
  length Examples.truncated_symbols = 37%nat
  /\ unpack_L (upto 4 Examples.truncated_symbols) = Ok 40%N
  /\ exists entry,
       iter AdsSymbolEntry.__init__ 38 Examples.truncated_symbols = ([entry], Exhausted)
       /\ AdsSymbolEntry.entryLength entry = 40%N
       /\ AdsSymbolEntry.name entry = "MAIN"%string
       /\ AdsSymbolEntry.typeLength entry = 3%N
       /\ AdsSymbolEntry.type entry = "IN"%string.
Proof.
  split; [reflexivity|]. split; [reflexivity|].
  eexists. split; [vm_compute; reflexivity|]. repeat split.
Qed.

End RecordStreamClaims.

Lemma Entry_iter_malformed_witness :
  snd (Entry.iter AdsSymbolEntry.__init__ 7 Examples.zero_length_blob) <> Suspended
  /\ Entry.iter AdsSymbolEntry.__init__ 7 Examples.zero_length_blob
     = ([], Raises struct_error)
  /\ Entry.iter AdsSymbolEntry.__init__ 38 Examples.truncated_symbols
     = match AdsSymbolEntry.__init__ Examples.truncated_symbols with
       | Ok entry => ([entry], Exhausted)
       | Raise e => ([], Raises e)
       end.
Proof.
  destruct (Entry_iter_malformed AdsSymbolEntry.__init__ struct_error
              AdsSymbolEntry_init_empty) as [Hend Hbad].
  split; [apply Hend; simpl; lia|].
  pose proof (Hbad [] Examples.zero_length_blob 7%nat (List.Forall_nil _)
                ltac:(discriminate) ltac:(simpl; lia)) as Hzero.
  pose proof (Hbad [] Examples.truncated_symbols 38%nat (List.Forall_nil _)
                ltac:(discriminate) ltac:(simpl; lia)) as Hcut.
  change (Entry.unpack_L (Entry.upto 4 Examples.zero_length_blob)) with (@Ok N 0%N) in Hzero.
  change (Entry.unpack_L (Entry.upto 4 Examples.truncated_symbols))
    with (@Ok N 40%N) in Hcut.
  cbv beta iota in Hzero, Hcut.
  destruct Hzero as [Hzero _]. destruct Hcut as [_ Hcut].
  split; [exact (Hzero eq_refl)|exact (Hcut eq_refl)].
Defined.

(** ** The type catalog: invariants of [getCtype] *)

Section CatalogFacts.

Import AdsVariablesDefinition Props.
Local Open Scope py_scope.

Lemma bind_run {A B} (c : M A) (k : A -> M B) self :
  bind c k self
  = match c self with
    | (Ok a, self') => k a self'
    | (Raise e, self') => (Raise e, self')
    end.
Proof. reflexivity. Qed.

Lemma bind_Ok {A B} (c : M A) (k : A -> M B) self b self' :
  bind c k self = (Ok b, self') ->
  exists a s1, c self = (Ok a, s1) /\ k a s1 = (Ok b, self').
Proof.
  rewrite bind_run. destruct (c self) as [[a|e] s1]; [eauto|discriminate].
Qed.

Lemma preserves_ret {A} P (a : A) : preserves P (ret a).
Proof. intros self H. exact H. Qed.

Lemma preserves_raise {A} P e : preserves P (@raise A e).
Proof. intros self H. exact H. Qed.

Lemma preserves_bind {A B} P (c : M A) (k : A -> M B) :
  preserves P c -> (forall a, preserves P (k a)) -> preserves P (bind c k).
Proof.
  intros Hc Hk self H. rewrite bind_run.
  specialize (Hc self H). destruct (c self) as [[a|e] s1]; simpl in *.
  - apply Hk, Hc.
  - exact Hc.
Qed.

Lemma raises_only_ret {A} E (a : A) : raises_only E (ret a).
Proof. intros self e H. discriminate. Qed.

Lemma raises_only_raise {A} (E : exn -> Prop) e : E e -> raises_only E (@raise A e).
Proof. intros He self e' H. simpl in H. congruence. Qed.

Lemma raises_only_bind {A B} E (c : M A) (k : A -> M B) :
  raises_only E c -> (forall a, raises_only E (k a)) -> raises_only E (bind c k).
Proof.
  intros Hc Hk self e. rewrite bind_run.
  specialize (Hc self). destruct (c self) as [[a|e'] s1]; simpl in *.
  - apply Hk.
  - intros H. apply Hc. congruence.
Qed.

Lemma raises_only_warn E w : raises_only E (warn w).
Proof. intros self e H. discriminate. Qed.

Lemma raises_only_memoize E n ct : raises_only E (memoize n ct).
Proof. intros self e H. discriminate. Qed.

Lemma raises_only_get E : raises_only E get.
Proof. intros self e H. discriminate. Qed.

Section Members.

Context (rec : string -> option N -> M (option CType)).
Context (P : AdsVariablesDefinition.t -> Prop) (E : exn -> Prop).
Hypothesis rec_preserves : forall n sz, preserves P (rec n sz).
Hypothesis warn_preserves : forall w, preserves P (warn w).
Hypothesis rec_raises : forall n sz, raises_only E (rec n sz).
Hypothesis E_assert : E AssertionError.
Hypothesis E_zero : E ZeroDivisionError.
Hypothesis E_type : E TypeError.

Lemma preserves_struct_member s acc : preserves P (struct_member rec s acc).
Proof.
  unfold struct_member. destruct acc as [o fields].
  destruct (o <? AdsDatatypeEntry.offs s)%N;
    match goal with |- context [(?a =? ?b)%N] => destruct (a =? b)%N end;
    repeat first [apply preserves_bind; [|intros ?] | apply preserves_ret
                 | apply rec_preserves | apply warn_preserves].
Qed.

Lemma preserves_struct_members items : forall acc,
  preserves P (struct_members rec items acc).
Proof.
  induction items as [|s items IH]; intros acc; simpl.
  - apply preserves_ret.
  - apply preserves_bind; [apply preserves_struct_member|intros a; apply IH].
Qed.

Lemma preserves_Structure_create name fields :
  preserves P (Structure_create name fields).
Proof.
  unfold Structure_create. destruct (field_types fields);
    [apply preserves_ret|apply preserves_raise].
Qed.

Lemma preserves_synthesize n dtype : preserves P (synthesize rec n dtype).
Proof.
  unfold synthesize.
  repeat match goal with
         | |- preserves _ (if ?b then _ else _) => destruct b
         | |- preserves _ (bind _ _) => apply preserves_bind; [|intros ?]
         | |- preserves _ (ret _) => apply preserves_ret
         | |- preserves _ (raise _) => apply preserves_raise
         | |- preserves _ (rec _ _) => apply rec_preserves
         | |- preserves _ (warn _) => apply warn_preserves
         | |- preserves _ (struct_members _ _ _) => apply preserves_struct_members
         | |- preserves _ (Structure_create _ _) => apply preserves_Structure_create
         | |- preserves _ (match ?x with Some _ => _ | None => _ end) => destruct x
         | |- preserves _ (let '(_, _) := ?x in _) => destruct x
         end.
Qed.

Lemma raises_only_struct_member s acc : raises_only E (struct_member rec s acc).
Proof.
  unfold struct_member. destruct acc as [o fields].
  destruct (o <? AdsDatatypeEntry.offs s)%N;
    match goal with |- context [(?a =? ?b)%N] => destruct (a =? b)%N end;
    repeat first [apply raises_only_bind; [|intros ?] | apply raises_only_ret
                 | apply rec_raises | apply raises_only_warn].
Qed.

Lemma raises_only_struct_members items : forall acc,
  raises_only E (struct_members rec items acc).
Proof.
  induction items as [|s items IH]; intros acc; simpl.
  - apply raises_only_ret.
  - apply raises_only_bind; [apply raises_only_struct_member|intros a; apply IH].
Qed.

Lemma raises_only_synthesize n dtype : raises_only E (synthesize rec n dtype).
Proof.
  unfold synthesize, Structure_create.
  repeat match goal with
         | |- raises_only _ (if ?b then _ else _) => destruct b
         | |- raises_only _ (bind _ _) => apply raises_only_bind; [|intros ?]
         | |- raises_only _ (ret _) => apply raises_only_ret
         | |- raises_only _ (raise _) => apply raises_only_raise; assumption
         | |- raises_only _ (rec _ _) => apply rec_raises
         | |- raises_only _ (warn _) => apply raises_only_warn
         | |- raises_only _ (struct_members _ _ _) => apply raises_only_struct_members
         | |- raises_only _ (match ?x with Some _ => _ | None => _ end) => destruct x
         | |- raises_only _ (let '(_, _) := ?x in _) => destruct x
         end.
Qed.

End Members.

Lemma getCtype_raises depth : forall n sz, raises_only getCtype_exn (getCtype depth n sz).
Proof.
  induction depth as [|depth IH]; intros n sz; simpl.
  - apply raises_only_raise. left. reflexivity.
  - apply raises_only_bind; [apply raises_only_get|intros self].
    destruct (ctypes self !! n); [apply raises_only_ret|].
    destruct (stringMatch n).
    { apply raises_only_bind; [apply raises_only_memoize|intros; apply raises_only_ret]. }
    destruct (dtypes self !! n) as [dtype|].
    2:{ destruct sz; (apply raises_only_bind;
          [apply raises_only_warn|intros; apply raises_only_ret]). }
    apply raises_only_bind.
    { apply raises_only_synthesize; unfold getCtype_exn; auto. }
    intros ct. apply raises_only_bind.
    { match goal with |- raises_only _ (if ?b then _ else _) => destruct b end.
      - apply raises_only_bind; [apply raises_only_warn|intros; apply raises_only_ret].
      - apply raises_only_ret. }
    intros ct'. apply raises_only_bind; [apply raises_only_memoize|intros; apply raises_only_ret].
Qed.

Lemma extends_refl self : extends self self.
Proof. split; auto. Qed.

Lemma extends_warn self0 w : preserves (extends self0) (warn w).
Proof. intros self H. exact H. Qed.

Lemma getCtype_extends depth : forall n sz self0,
  preserves (extends self0) (getCtype depth n sz).
Proof.
  induction depth as [|depth IH]; intros n sz self0; simpl.
  - apply preserves_raise.
  - intros self H. rewrite bind_run. simpl.
    destruct (ctypes self !! n) as [ct|] eqn:Hmemo; [exact H|].
    destruct (stringMatch n).
    { simpl. destruct H as [Hd Hm]. split; [exact Hd|]. simpl. intros k v Hk.
      rewrite lookup_insert_ne; [auto|]. intros ->. apply Hm in Hk. congruence. }
    destruct (dtypes self !! n) as [dtype|].
    2:{ destruct sz; exact H. }
    rewrite bind_run.
    pose proof (preserves_synthesize (getCtype depth) (extends self0)
                  (fun n sz => IH n sz self0) (extends_warn self0) n dtype self H) as H1.
    destruct (synthesize (getCtype depth) n dtype self) as [[ct|e] s1]; simpl in *;
      [|exact H1].
    destruct H1 as [Hd1 Hm1].
    assert (Hn0 : ctypes self0 !! n = None).
    { destruct (ctypes self0 !! n) eqn:Hk; [|reflexivity].
      apply H in Hk. congruence. }
    match goal with |- context [if ?b then _ else _] => destruct b end; simpl;
      (split; [exact Hd1|]; simpl; intros k v Hk;
       rewrite lookup_insert_ne; [auto|]; intros ->; congruence).
Qed.

End CatalogFacts.

Section CatalogInvariant.

Import AdsVariablesDefinition Props.
Local Open Scope py_scope.

Lemma getCtype_unfold depth n sz :
  getCtype (S depth) n sz
  = (self <- get ;;
     match ctypes self !! n with
     | Some ctype => ret (Some ctype)
     | None =>
         match stringMatch n with
         | Some stringLength =>
             memoize n (PLCString_create stringLength) ;;
             ret (Some (PLCString_create stringLength))
         | None =>
             match dtypes self !! n with
             | None =>
                 match sz with
                 | None => warn (Unknown_type_with_unknown_size n) ;; ret None
                 | Some size =>
                     warn (Unknown_type_with_known_size n size) ;;
                     ret (Some (Dummy_type size))
                 end
             | Some dtype =>
                 ctype <- synthesize (getCtype depth) n dtype ;;
                 ctype <-
                   (if negb (AdsDatatypeEntry.size dtype
                             =? sizeof (wrap_arrays (AdsDatatypeEntry.array dtype) ctype))%N
                    then
                      warn (Ctype_size_does_not_match (AdsDatatypeEntry.name dtype)
                              (AdsDatatypeEntry.size dtype)) ;;
                      ret (Dummy_type (AdsDatatypeEntry.size dtype))
                    else ret (wrap_arrays (AdsDatatypeEntry.array dtype) ctype)) ;;
                 memoize n ctype ;;
                 ret (Some ctype)
             end
         end
     end).
Proof. reflexivity. Qed.

Lemma getCtype_hit depth n sz self ct :
  ctypes self !! n = Some ct ->
  getCtype (S depth) n sz self = (Ok (Some ct), self).
Proof. intros H. rewrite getCtype_unfold, bind_run. simpl. rewrite H. reflexivity. Qed.

Lemma preserves_and {A} (P Q : AdsVariablesDefinition.t -> Prop) (c : M A) :
  preserves P c -> preserves Q c -> preserves (fun s => P s /\ Q s) c.
Proof. intros HP HQ self [H1 H2]. split; [apply HP|apply HQ]; assumption. Qed.

Lemma memo_ok_warn w : preserves memo_ok (warn w).
Proof. intros self H. exact H. Qed.

Lemma memo_ok_initial table : memo_ok (mk table basictypes []).
Proof. intros k ct H. left. exact H. Qed.

Lemma memo_ok_insert self n ct :
  memo_ok self ->
  (exists len, stringMatch n = Some len /\ ct = PLCString_create len)
  \/ (exists d, dtypes self !! n = Some d /\ sizeof ct = AdsDatatypeEntry.size d) ->
  memo_ok (mk (dtypes self) (<[n := ct]> (ctypes self)) (warnings self)).
Proof.
  intros H Hn k v. simpl. rewrite lookup_insert. case_decide as Hk.
  - intros [= <-]. subst k. right. exact Hn.
  - apply H.
Qed.

Lemma sizeof_Dummy size : sizeof (Dummy_type size) = size.
Proof. reflexivity. Qed.

Lemma getCtype_memo_ok depth : forall n sz, preserves memo_ok (getCtype depth n sz).
Proof.
  induction depth as [|depth IH]; intros n sz.
  - apply preserves_raise.
  - intros self H. rewrite getCtype_unfold, bind_run. simpl.
    destruct (ctypes self !! n) as [ct|] eqn:Hmemo; [exact H|].
    destruct (stringMatch n) as [len|] eqn:Hs.
    { simpl. apply memo_ok_insert; [exact H|]. left. eauto. }
    destruct (dtypes self !! n) as [dtype|] eqn:Hd.
    2:{ destruct sz; exact H. }
    rewrite bind_run.
    pose proof (preserves_synthesize (getCtype depth)
                  (fun s => extends self s /\ memo_ok s)
                  (fun n sz => preserves_and _ _ _ (getCtype_extends depth n sz self) (IH n sz))
                  (fun w => preserves_and _ _ _ (extends_warn self w) (memo_ok_warn w))
                  n dtype self (conj (extends_refl self) H)) as H1.
    destruct (synthesize (getCtype depth) n dtype self) as [[ct|e] s1]; simpl in *;
      [|apply H1].
    destruct H1 as [[Hd1 _] Hok1].
    destruct (N.eqb_spec (AdsDatatypeEntry.size dtype)
                (sizeof (wrap_arrays (AdsDatatypeEntry.array dtype) ct))) as [Heq|Hne]; simpl.
    + apply (memo_ok_insert s1); [exact Hok1|]. right. exists dtype.
      rewrite Hd1. split; [exact Hd|]. symmetry. exact Heq.
    + apply (memo_ok_insert (mk (dtypes s1) (ctypes s1) _)); [exact Hok1|].
      right. exists dtype. simpl. rewrite Hd1. split; [exact Hd|reflexivity].
Qed.

(** A successful call for a name of the table leaves the name memoized. *)
Lemma getCtype_table_name_memoized depth n sz self r self' :
  getCtype depth n sz self = (Ok r, self') ->
  is_Some (dtypes self !! n) ->
  is_Some (ctypes self' !! n).
Proof.
  intros Hrun [d Hd].
  destruct depth as [|depth]; [discriminate|].
  rewrite getCtype_unfold, bind_run in Hrun. simpl in Hrun.
  destruct (ctypes self !! n) as [c|] eqn:Hmemo.
  { injection Hrun as <- <-. rewrite Hmemo. eauto. }
  destruct (stringMatch n) as [len|].
  { simpl in Hrun. injection Hrun as <- <-. simpl. rewrite lookup_insert_eq. eauto. }
  rewrite Hd, bind_run in Hrun.
  destruct (synthesize (getCtype depth) n d self) as [[ct0|e] s1]; [|discriminate].
  match type of Hrun with context [if ?b then _ else _] => destruct b end;
    simpl in Hrun; injection Hrun as <- <-; simpl; rewrite lookup_insert_eq; eauto.
Qed.

End CatalogInvariant.

Section CatalogClaims.

Import AdsVariablesDefinition Props.
Local Open Scope py_scope.



(** C5 (as amended): for an alias or array record (non-empty type
    reference, no sub-items, no pointer name) that is not memoized and
    whose declared size is not an exact multiple of the product of its
    dimension element counts, [getCtype] raises: [AssertionError] from
    [assert remainder == 0], or [ZeroDivisionError] when that product is
    zero.  It returns [None] exactly for a name that is in neither the
    memo nor the table, does not look like a string type and comes without
    a size hint. *)
Theorem getCtype_uneven_array_raises depth n sz self :
  (forall d,
     ctypes self !! n = None ->
     stringMatch n = None ->
     dtypes self !! n = Some d ->
     String.prefix "POINTER TO " (AdsDatatypeEntry.name d) = false ->
     AdsDatatypeEntry.type d <> ""%string ->
     AdsDatatypeEntry.subItems d = [] ->
     (forall k, AdsDatatypeEntry.size d <> k * arraysize (AdsDatatypeEntry.array d))%N ->
     getCtype (S depth) n sz self
     = (Raise (if (arraysize (AdsDatatypeEntry.array d) =? 0)%N
               then ZeroDivisionError else AssertionError), self))
  /\ ((exists self', getCtype (S depth) n sz self = (Ok None, self'))
      <-> (ctypes self !! n = None /\ stringMatch n = None
           /\ dtypes self !! n = None /\ sz = None)).
Proof.
  split.
  - intros d Hmemo Hstr Hd Hptr Hty Hsub Hmul.
    rewrite getCtype_unfold, bind_run. simpl. rewrite Hmemo, Hstr, Hd, bind_run.
    unfold synthesize. rewrite Hptr, Hsub.
    assert (Htruth : truthy (AdsDatatypeEntry.type d) = true).
    { unfold truthy. destruct (String.eqb_spec (AdsDatatypeEntry.type d) ""); [contradiction|reflexivity]. }
    rewrite Htruth. simpl.
    destruct (N.eqb_spec (arraysize (AdsDatatypeEntry.array d)) 0) as [Hz|Hnz];
      [reflexivity|].
    destruct (N.eqb_spec (AdsDatatypeEntry.size d mod arraysize (AdsDatatypeEntry.array d)) 0)
      as [Hrem|Hrem]; [|reflexivity].
    exfalso. apply (Hmul (AdsDatatypeEntry.size d / arraysize (AdsDatatypeEntry.array d))%N).
    pose proof (N.div_mod (AdsDatatypeEntry.size d) _ Hnz) as Hdm. lia.
  - split.
    + intros [self' Hrun].
      rewrite getCtype_unfold, bind_run in Hrun. simpl in Hrun.
      destruct (ctypes self !! n); [discriminate|].
      destruct (stringMatch n); [discriminate|].
      destruct (dtypes self !! n) as [d|].
      { rewrite bind_run in Hrun.
        destruct (synthesize (getCtype depth) n d self) as [[ct0|e] s1]; [|discriminate].
        match type of Hrun with context [if ?b then _ else _] => destruct b end;
          discriminate. }
      destruct sz; [discriminate|auto].
    + intros (Hmemo & Hstr & Hd & ->).
      rewrite getCtype_unfold, bind_run. simpl. rewrite Hmemo, Hstr, Hd.
      eexists. reflexivity.
Qed.


End CatalogClaims.

(** ** Variables: indexing and iteration *)

Section VariableFacts.

Import AdsVariablesDefinition Props AdsVariable.
Local Open Scope py_scope.

Lemma arraysize_from dims : forall acc,
  fold_left (fun acc (d : Z * N) => (acc * snd d)%N) dims acc
  = (acc * count_product dims)%N.
Proof.
  induction dims as [|[l n] dims IH]; intros acc; simpl.
  - lia.
  - rewrite IH. lia.
Qed.

Lemma arraysize_count_product dims : arraysize dims = count_product dims.
Proof. unfold arraysize. rewrite arraysize_from. lia. Qed.

Lemma count_product_in_range idx dims :
  Forall2 in_range idx dims -> (0 < count_product dims)%N.
Proof.
  induction 1 as [|i [l n] idx dims Hin _ IH]; simpl; [lia|].
  unfold in_range in Hin. simpl in Hin. apply N.mul_pos_pos; lia.
Qed.

(** The loop of [__getitem__] on an in-range tuple is Horner's scheme for
    the row-major position. *)
Lemma linear_index_in_range idx dims : forall linearIndex nItems,
  Forall2 in_range idx dims ->
  linear_index idx dims linearIndex nItems
  = Ok (linearIndex * Z.of_N (count_product dims) + row_major_sum idx dims,
        (nItems * count_product dims)%N).
Proof.
  intros linearIndex nItems H. revert linearIndex nItems.
  induction H as [|i [l n] idx dims Hin _ IH]; intros linearIndex nItems; simpl.
  - f_equal. f_equal; lia.
  - unfold in_range in Hin. simpl in Hin.
    destruct (Z.ltb_spec i l); [lia|].
    destruct (Z.leb_spec (l + Z.of_N n) i); [lia|]. simpl.
    rewrite IH. f_equal. f_equal; lia.
Qed.

Lemma linear_index_out_of_range idx dims : forall linearIndex nItems,
  length idx = length dims ->
  ~ Forall2 in_range idx dims ->
  linear_index idx dims linearIndex nItems = Raise IndexError.
Proof.
  revert dims. induction idx as [|i idx IH]; intros [|[l n] dims] linearIndex nItems Hlen Hout;
    simpl in *; try discriminate.
  - exfalso. apply Hout. constructor.
  - destruct (Z.ltb_spec i l); [reflexivity|].
    destruct (Z.leb_spec (l + Z.of_N n) i); [reflexivity|]. simpl.
    apply IH; [lia|]. intros HF. apply Hout. constructor; [|exact HF].
    unfold in_range. simpl. lia.
Qed.

Lemma not_in_range_lookup (idx : list Z) (dims : list (Z * N)) :
  length idx = length dims ->
  (~ Forall2 in_range idx dims
   <-> exists (k : nat) i dim, idx !! k = Some i /\ dims !! k = Some dim /\ ~ in_range i dim).
Proof.
  intros Hlen. split.
  - revert dims Hlen. induction idx as [|i idx IH]; intros [|dim dims] Hlen Hout;
      simpl in *; try discriminate.
    + exfalso. apply Hout. constructor.
    + destruct (decide (fst dim <= i < fst dim + Z.of_N (snd dim))) as [Hin|Hin].
      * destruct (IH dims) as (k & i' & dim' & H1 & H2 & H3); [lia| |].
        { intros HF. apply Hout. constructor; assumption. }
        exists (S k), i', dim'. auto.
      * exists 0%nat, i, dim. auto.
  - intros (k & i & dim & Hi & Hd & Hout) HF.
    apply Hout. eapply Forall2_lookup_lr; eauto.
Qed.

Lemma raises_only_init limit name sym dt off :
  raises_only getCtype_exn (__init__ limit name sym dt off).
Proof.
  unfold __init__. apply raises_only_bind.
  - destruct dt as [ty|d]; [|apply raises_only_ret].
    apply raises_only_bind; [apply raises_only_get|intros vardef].
    destruct (dtypes vardef !! ty) as [d|]; [destruct (is_alias d)|];
      repeat match goal with
             | |- raises_only _ (ret _) => apply raises_only_ret
             | |- raises_only _ (bind _ _) => apply raises_only_bind; [|intros ?]
             | |- raises_only _ (warn _) => apply raises_only_warn
             | |- raises_only _ (match ?x with Some _ => _ | None => _ end) => destruct x
             end.
  - intros [[d|] [c|]];
      repeat match goal with
             | |- raises_only _ (ret _) => apply raises_only_ret
             | |- raises_only _ (bind _ _) => apply raises_only_bind; [|intros ?]
             | |- raises_only _ (getCtype _ _ _) => apply getCtype_raises
             end.
Qed.

(** On a catalog whose constructor has run, creating a variable from a
    type name cannot fail; it leaves table and memo as they are and gives
    the variable the offset it was passed. *)
Lemma init_ready limit name sym ty off vardef :
  ready vardef ->
  exists v vardef',
    __init__ (S limit) name sym (ByName ty) (Some off) vardef = (Ok v, vardef')
    /\ __offset v = off /\ __name v = name
    /\ dtypes vardef' = dtypes vardef /\ ctypes vardef' = ctypes vardef.
Proof.
  intros Hready. unfold __init__. rewrite !bind_run. cbn [get fst snd].
  destruct (dtypes vardef !! ty) as [d|] eqn:Hd.
  - destruct (is_alias d).
    + destruct (basictypes !! AdsDatatypeEntry.type d); [|destruct (stringMatch _)];
        cbn; eauto 10.
    + cbn [ret]. destruct (Hready ty d Hd) as [c Hc].
      rewrite bind_run, (getCtype_hit limit _ None vardef c Hc). cbn. eauto 10.
  - destruct (basictypes !! ty); [|destruct (stringMatch _)]; cbn; eauto 10.
Qed.

End VariableFacts.

(** ** The catalog constructor *)

Section CatalogConstructor.

Import AdsVariablesDefinition Props.
Local Open Scope py_scope.

Lemma dict_by_name_from records : forall (m : gmap string AdsDatatypeEntry.t) k d,
  fold_left (fun m t => <[AdsDatatypeEntry.name t := t]> m) records m !! k = Some d ->
  m !! k = Some d \/ (d ∈ records /\ AdsDatatypeEntry.name d = k).
Proof.
  induction records as [|t records IH]; intros m k d H; simpl in H.
  - left. exact H.
  - destruct (IH _ _ _ H) as [Hm|[Hin Hname]].
    + rewrite lookup_insert in Hm. case_decide as Hk.
      * injection Hm as <-. right. split; [left|exact Hk].
      * left. exact Hm.
    + right. split; [right; exact Hin|exact Hname].
Qed.

Lemma dict_by_name_lookup records k d :
  dict_by_name records !! k = Some d ->
  AdsDatatypeEntry.name d = k /\ k ∈ dict_keys records.
Proof.
  intros H. destruct (dict_by_name_from _ _ _ _ H) as [Hm|[Hin Hname]].
  - rewrite lookup_empty in Hm. discriminate.
  - split; [exact Hname|]. unfold dict_keys.
    apply list_elem_of_In, in_rev. rewrite rev_involutive.
    apply list_elem_of_In, elem_of_remove_dups, list_elem_of_In.
    apply -> in_rev. apply in_map_iff. exists d. split; [exact Hname|].
    apply list_elem_of_In. exact Hin.
Qed.

Lemma extends_trans s0 s1 s2 : extends s0 s1 -> extends s1 s2 -> extends s0 s2.
Proof.
  intros [Hd1 Hm1] [Hd2 Hm2]. split; [congruence|]. intros k v Hk. auto.
Qed.

Lemma getCtype_each_memoizes limit names : forall self self',
  getCtype_each limit names self = (Ok tt, self') ->
  extends self self'
  /\ (memo_ok self -> memo_ok self')
  /\ forall k, k ∈ names -> is_Some (dtypes self !! k) -> is_Some (ctypes self' !! k).
Proof.
  induction names as [|n names IH]; intros self self' Hrun; simpl in Hrun.
  - injection Hrun as <-. split; [apply extends_refl|]. split; [auto|].
    intros k Hk. inversion Hk.
  - apply bind_Ok in Hrun. destruct Hrun as (r & s1 & Hn & Hrest).
    destruct (IH _ _ Hrest) as (Hext & Hok & Hall).
    pose proof (getCtype_extends limit n None self self (extends_refl self)) as Hext1.
    pose proof (getCtype_memo_ok limit n None self) as Hok1.
    rewrite Hn in Hext1, Hok1. simpl in Hext1, Hok1.
    split; [eapply extends_trans; eassumption|]. split; [auto|].
    intros k Hk Hsome. apply elem_of_cons in Hk. destruct Hk as [->|Hk].
    + destruct (getCtype_table_name_memoized _ _ _ _ _ _ Hn Hsome) as [ct Hct].
      exists ct. apply Hext. exact Hct.
    + apply Hall; [exact Hk|]. destruct Hext1 as [-> _]. exact Hsome.
Qed.

(** A catalog whose constructor succeeded has every name of its table in
    the memo, and a memo of the declared sizes. *)
Lemma init_establishes_ready limit records self :
  __init__ limit records = Ok self ->
  ready self /\ memo_ok self /\ dtypes self = dict_by_name records.
Proof.
  unfold __init__. intros H.
  destruct (getCtype_each limit (dict_keys records) _) as [[[]|e] s1] eqn:Hrun;
    [|discriminate].
  injection H as ->.
  destruct (getCtype_each_memoizes _ _ _ _ Hrun) as ([Hd Hm] & Hok & Hall).
  simpl in Hd. split; [|split; [apply Hok, memo_ok_initial|exact Hd]].
  intros n d Hn. rewrite Hd in Hn.
  destruct (dict_by_name_lookup _ _ _ Hn) as [-> Hkey].
  apply Hall; [exact Hkey|]. simpl. eauto.
Qed.

End CatalogConstructor.

Section VariableClaims.

Import AdsVariablesDefinition Props AdsVariable.
Local Open Scope py_scope.

Lemma getitem_Tuple limit self d idx :
  __datatype self = Some d ->
  AdsDatatypeEntry.array d <> [] ->
  __getitem__ limit self (Tuple idx)
  = if negb (length idx =? length (AdsDatatypeEntry.array d))%nat then raise IndexError
    else
      match linear_index idx (AdsDatatypeEntry.array d) 0 1 with
      | Raise e => raise e
      | Ok (linearIndex, nItems) =>
          if (nItems =? 0)%N then raise ZeroDivisionError
          else if negb (AdsDatatypeEntry.size d mod nItems =? 0)%N then raise AssertionError
          else if negb (truthy (AdsDatatypeEntry.type d)) then raise NotImplementedError
          else
            v <- __init__ limit (idxStr idx) (__symbol self)
                   (ByName (AdsDatatypeEntry.type d))
                   (Some (__offset self
                          + linearIndex * Z.of_N (AdsDatatypeEntry.size d / nItems))) ;;
            ret (Child v)
      end.
Proof.
  intros Hd Harr. unfold __getitem__. rewrite Hd.
  destruct (AdsDatatypeEntry.array d) as [|dim dims] eqn:Ha; [contradiction|].
  reflexivity.
Qed.

Lemma getitem_Int limit self i :
  __getitem__ limit self (Int i) = __getitem__ limit self (Tuple [i]).
Proof. unfold __getitem__. destruct (__datatype self); reflexivity. Qed.

Lemma truthy_nonempty s : s <> ""%string -> truthy s = true.
Proof.
  intros H. unfold truthy. destruct (String.eqb_spec s ""); [contradiction|reflexivity].
Qed.

(** An in-range index on a catalog whose constructor has run: the child
    variable and its offset. *)
Lemma getitem_in_range limit self d idx vardef :
  ready vardef ->
  __datatype self = Some d ->
  AdsDatatypeEntry.array d <> [] ->
  AdsDatatypeEntry.type d <> ""%string ->
  Forall2 in_range idx (AdsDatatypeEntry.array d) ->
  (AdsDatatypeEntry.size d mod arraysize (AdsDatatypeEntry.array d) = 0)%N ->
  exists child vardef',
    __getitem__ (S limit) self (Tuple idx) vardef = (Ok (Child child), vardef')
    /\ __offset child
       = __offset self
         + Z.of_N (AdsDatatypeEntry.size d / arraysize (AdsDatatypeEntry.array d))
           * row_major_sum idx (AdsDatatypeEntry.array d)
    /\ __name child = idxStr idx
    /\ dtypes vardef' = dtypes vardef /\ ctypes vardef' = ctypes vardef.
Proof.
  intros Hready Hd Harr Hty Hin Hdiv.
  rewrite (getitem_Tuple _ _ d) by assumption.
  rewrite (Forall2_length _ _ _ Hin), Nat.eqb_refl. simpl.
  rewrite linear_index_in_range by assumption.
  rewrite arraysize_count_product in *.
  pose proof (count_product_in_range _ _ Hin) as Hpos.
  rewrite N.mul_1_l.
  destruct (N.eqb_spec (count_product (AdsDatatypeEntry.array d)) 0); [lia|].
  rewrite Hdiv. simpl. rewrite truthy_nonempty by assumption. simpl.
  rewrite bind_run.
  destruct (init_ready limit (idxStr idx) (__symbol self) (AdsDatatypeEntry.type d)
              (__offset self
               + (0 * Z.of_N (count_product (AdsDatatypeEntry.array d))
                  + row_major_sum idx (AdsDatatypeEntry.array d))
                 * Z.of_N (AdsDatatypeEntry.size d / count_product (AdsDatatypeEntry.array d)))
              vardef Hready)
    as (v & vardef' & Hrun & Hoff & Hname & Hdt & Hct).
  rewrite Hrun. exists v, vardef'. simpl. repeat split; try assumption.
  rewrite Hoff. lia.
Qed.



(** C10, at the input where the code departs from it: a variable whose
    record has neither dimensions nor sub-items (a pointer type keeps its
    record) is iterated without any error, yielding nothing, where a
    variable without a record raises [TypeError]. *)
Theorem iter_neither_array_nor_structure limit self vardef :
  (__datatype self = None ->
   __iter__ limit self vardef = (([], Raises TypeError), vardef))
  /\ (forall d,
        __datatype self = Some d ->
        AdsDatatypeEntry.array d = [] ->
        AdsDatatypeEntry.subItems d = [] ->
        __iter__ limit self vardef = (([], Exhausted), vardef)).
Proof.
  split.
  - intros H. unfold __iter__. rewrite H. reflexivity.
  - intros d H Ha Hs. unfold __iter__. rewrite H, Ha, Hs. reflexivity.
Qed.

End VariableClaims.

(** ** Array records of a constructed catalog divide evenly *)

Section EvenArrays.

Import AdsVariablesDefinition Props.
Local Open Scope py_scope.

Lemma synthesize_even rec n d self ct s1 :
  synthesize rec n d self = (Ok ct, s1) ->
  plain_array d ->
  (AdsDatatypeEntry.size d mod arraysize (AdsDatatypeEntry.array d) = 0)%N.
Proof.
  intros Hrun (Hptr & Hty & Hsub). unfold synthesize in Hrun.
  rewrite Hptr, Hsub, (truthy_nonempty _ Hty) in Hrun. simpl in Hrun.
  destruct (arraysize (AdsDatatypeEntry.array d) =? 0)%N; [discriminate|].
  destruct (N.eqb_spec (AdsDatatypeEntry.size d mod arraysize (AdsDatatypeEntry.array d)) 0)
    as [H|H]; [exact H|discriminate].
Qed.

Lemma memo_even_initial table : memo_even (mk table basictypes []).
Proof. intros k ct H. left. exact H. Qed.

Lemma memo_even_warn w : preserves memo_even (warn w).
Proof. intros self H. exact H. Qed.

Lemma getCtype_memo_even depth : forall n sz, preserves memo_even (getCtype depth n sz).
Proof.
  induction depth as [|depth IH]; intros n sz.
  - apply preserves_raise.
  - intros self H. rewrite getCtype_unfold, bind_run. simpl.
    destruct (ctypes self !! n) as [ct|] eqn:Hmemo; [exact H|].
    destruct (stringMatch n) as [len|] eqn:Hs.
    { simpl. intros k v. simpl. rewrite lookup_insert. case_decide as Hk.
      - intros _. subst k. right. left. rewrite Hs. eauto.
      - apply H. }
    destruct (dtypes self !! n) as [dtype|] eqn:Hd.
    2:{ destruct sz; exact H. }
    rewrite bind_run.
    pose proof (preserves_synthesize (getCtype depth)
                  (fun s => extends self s /\ memo_even s)
                  (fun n sz => preserves_and _ _ _ (getCtype_extends depth n sz self) (IH n sz))
                  (fun w => preserves_and _ _ _ (extends_warn self w) (memo_even_warn w))
                  n dtype self (conj (extends_refl self) H)) as H1.
    destruct (synthesize (getCtype depth) n dtype self) as [[ct|e] s1] eqn:Hsyn;
      simpl in *; [|apply H1].
    destruct H1 as [[Hd1 _] Hok1].
    assert (Hnew : exists d, dtypes s1 !! n = Some d
                     /\ (plain_array d ->
                         (AdsDatatypeEntry.size d
                          mod arraysize (AdsDatatypeEntry.array d) = 0)%N)).
    { exists dtype. rewrite Hd1. split; [exact Hd|]. eapply synthesize_even. exact Hsyn. }
    match goal with |- context [if ?b then _ else _] => destruct b end; simpl;
      intros k v; simpl; rewrite lookup_insert; case_decide as Hk;
      try (intros _; subst k; right; right; exact Hnew); apply Hok1.
Qed.

Lemma getCtype_each_memo_even limit names : forall self self',
  getCtype_each limit names self = (Ok tt, self') -> memo_even self -> memo_even self'.
Proof.
  induction names as [|n names IH]; intros self self' Hrun H; simpl in Hrun.
  - injection Hrun as <-. exact H.
  - apply bind_Ok in Hrun. destruct Hrun as (r & s1 & Hn & Hrest).
    apply (IH _ _ Hrest).
    pose proof (getCtype_memo_even limit n None self H) as H1.
    rewrite Hn in H1. exact H1.
Qed.

(** In a catalog whose constructor succeeded, an alias or array record of
    the table, under a name that is neither built-in nor a string type,
    declares a size that its element count divides: the division
    [__getitem__] asserts was asserted when the catalog was built. *)
Lemma constructed_array_divides limit records self n d :
  __init__ limit records = Ok self ->
  dtypes self !! n = Some d ->
  basictypes !! n = None ->
  stringMatch n = None ->
  plain_array d ->
  (AdsDatatypeEntry.size d mod count_product (AdsDatatypeEntry.array d) = 0)%N.
Proof.
  intros Hinit Hd Hbasic Hstr Hplain.
  destruct (init_establishes_ready _ _ _ Hinit) as (Hready & _ & Hdt).
  assert (Heven : memo_even self).
  { unfold __init__ in Hinit.
    destruct (getCtype_each limit (dict_keys records) _) as [[[]|e] s1] eqn:Hrun;
      [|discriminate].
    injection Hinit as ->.
    apply (getCtype_each_memo_even _ _ _ _ Hrun), memo_even_initial. }
  assert (Hname : AdsDatatypeEntry.name d = n).
  { rewrite Hdt in Hd. apply (dict_by_name_lookup _ _ _ Hd). }
  destruct (Hready n d Hd) as [ct Hct]. rewrite Hname in Hct.
  rewrite <- arraysize_count_product.
  destruct (Heven n ct Hct) as [H|[[len H]|(d' & Hd' & H)]]; try congruence.
  assert (d' = d) by congruence. subst d'. apply H. exact Hplain.
Qed.

End EvenArrays.

(** ** Iterating a variable *)

Section VariableIteration.

Import AdsVariablesDefinition Props AdsVariable.
Local Open Scope py_scope.

(** A loop of the generator in which every turn succeeds and keeps an
    invariant of the catalog yields one pair per key, in order, and ends. *)
Lemma yield_each_all {K} (f : K -> M (string * item))
  (I : AdsVariablesDefinition.t -> Prop) (Q : K -> string * item -> Prop) (keys : list K) :
  (forall k s, k ∈ keys -> I s -> exists p s', f k s = (Ok p, s') /\ Q k p /\ I s') ->
  forall s, I s ->
  exists ps s', yield_each f keys s = ((ps, Exhausted), s') /\ Forall2 Q keys ps /\ I s'.
Proof.
  induction keys as [|k keys IH]; intros Hf s Hs; simpl.
  - exists [], s. repeat split; [constructor|exact Hs].
  - destruct (Hf k s) as (p & s1 & Hrun & Hq & Hs1); [left|exact Hs|].
    rewrite Hrun.
    destruct (IH (fun k' s' Hk => Hf k' s' (list_elem_of_further _ _ _ Hk)) s1 Hs1)
      as (ps & s2 & Hrest & Hall & Hs2).
    rewrite Hrest. exists (p :: ps), s2. repeat split; [constructor; assumption|exact Hs2].
Qed.

Lemma ready_same_tables s s' :
  dtypes s' = dtypes s -> ctypes s' = ctypes s -> ready s -> ready s'.
Proof. intros Hd Hc H n d. rewrite Hd, Hc. apply H. Qed.

(** The tuples of [itertools.product] over the dimension ranges are the
    in-range tuples... *)
Lemma product_in_range dims : forall idx,
  idx ∈ product (dim_ranges dims) -> Forall2 in_range idx dims.
Proof.
  induction dims as [|[l n] dims IH]; intros idx Hin; simpl in Hin.
  - apply list_elem_of_singleton in Hin. subst idx. constructor.
  - apply list_elem_of_In, in_flat_map in Hin. destruct Hin as (x & Hx & Hin).
    apply in_map_iff in Hin. destruct Hin as (idx' & <- & Hidx').
    apply list_elem_of_In, elem_of_seqZ in Hx.
    constructor; [unfold in_range; simpl; lia|].
    apply IH, list_elem_of_In. exact Hidx'.
Qed.

Lemma seqZ_blocks (l C : Z) (m : nat) : forall k,
  0 <= C ->
  flat_map (fun x => seqZ ((x - l) * C) C) (seqZ (l + k) (Z.of_nat m))
  = seqZ (k * C) (Z.of_nat m * C).
Proof.
  induction m as [|m IH]; intros k HC.
  - reflexivity.
  - rewrite seqZ_cons by lia. simpl flat_map.
    replace (Z.pred (Z.of_nat (S m))) with (Z.of_nat m) by lia.
    replace (Z.succ (l + k)) with (l + (k + 1)) by lia.
    rewrite IH by assumption.
    replace (l + k - l) with k by lia.
    replace (Z.of_nat (S m) * C) with (C + Z.of_nat m * C) by lia.
    rewrite seqZ_app by nia. f_equal. f_equal. lia.
Qed.

(** ... and they come in row-major order, the last dimension fastest: their
    row-major positions count up from 0. *)
Lemma product_row_major dims :
  map (fun idx => row_major_sum idx dims) (product (dim_ranges dims))
  = seqZ 0 (Z.of_N (count_product dims)).
Proof.
  induction dims as [|[l n] dims IH]; simpl; [reflexivity|].
  rewrite flat_map_concat_map, concat_map, map_map, <- flat_map_concat_map.
  erewrite flat_map_ext.
  2:{ intros x. rewrite map_map. simpl.
      rewrite <- (map_map (fun idx => row_major_sum idx dims)
                          (fun v => (x - l) * Z.of_N (count_product dims) + v)).
      rewrite IH.
      change (map (fun v => (x - l) * Z.of_N (count_product dims) + v))
        with (fmap (M:=list) (Z.add ((x - l) * Z.of_N (count_product dims)))).
      rewrite fmap_add_seqZ, Z.add_0_r. reflexivity. }
  pose proof (seqZ_blocks l (Z.of_N (count_product dims)) (N.to_nat n) 0 ltac:(lia)) as H.
  rewrite Z.add_0_r, N_nat_Z in H. rewrite H. f_equal. lia.
Qed.

(** Iterating an array variable (C10, first part): one pair per coordinate
    tuple of the declared ranges, in the order of [itertools.product], each
    made of the index string and the child that indexing with the tuple
    gives, then the normal end. *)
Lemma iter_array limit self d vardef :
  ready vardef ->
  __datatype self = Some d ->
  AdsDatatypeEntry.array d <> [] ->
  AdsDatatypeEntry.type d <> ""%string ->
  (AdsDatatypeEntry.size d mod count_product (AdsDatatypeEntry.array d) = 0)%N ->
  exists items vardef',
    __iter__ (S limit) self vardef = ((items, Exhausted), vardef')
    /\ Forall2
         (fun idx p =>
            fst p = idxStr idx
            /\ exists child,
                 snd p = Child child
                 /\ __name child = idxStr idx
                 /\ __offset child
                    = __offset self
                      + Z.of_N (AdsDatatypeEntry.size d
                                / count_product (AdsDatatypeEntry.array d))
                        * row_major_sum idx (AdsDatatypeEntry.array d))
         (product (dim_ranges (AdsDatatypeEntry.array d))) items.
Proof.
  intros Hready Hd Harr Hty Hdiv. unfold __iter__. rewrite Hd.
  rewrite bool_decide_true by exact Harr.
  rewrite <- arraysize_count_product in *.
  match goal with |- context [yield_each ?f ?keys] =>
    destruct (yield_each_all f ready
                (fun idx p =>
                   fst p = idxStr idx
                   /\ exists child,
                        snd p = Child child
                        /\ __name child = idxStr idx
                        /\ __offset child
                           = __offset self
                             + Z.of_N (AdsDatatypeEntry.size d
                                       / arraysize (AdsDatatypeEntry.array d))
                               * row_major_sum idx (AdsDatatypeEntry.array d))
                keys) with (s := vardef) as (ps & s' & Hrun & Hall & _)
  end.
  - intros idx s Hidx Hs. apply product_in_range in Hidx.
    destruct (getitem_in_range limit self d idx s Hs Hd Harr Hty Hidx Hdiv)
      as (c & s' & Hrun & Hoff & Hname & Hdt & Hct).
    rewrite bind_run, Hrun. simpl. eexists _, s'. split; [reflexivity|].
    split; [simpl; eauto|]. eapply ready_same_tables; eassumption.
  - exact Hready.
  - eauto.
Qed.

(** Creating a field variable from a field with a type reference cannot
    fail on a catalog whose constructor has run. *)
Lemma getattr_ready limit self d name vardef :
  ready vardef ->
  __datatype self = Some d ->
  Forall (fun s => AdsDatatypeEntry.type s <> ""%string) (AdsDatatypeEntry.subItems d) ->
  name ∈ map AdsDatatypeEntry.name (AdsDatatypeEntry.subItems d) ->
  exists s child vardef',
    find (fun s => String.eqb (AdsDatatypeEntry.name s) name) (AdsDatatypeEntry.subItems d)
    = Some s
    /\ __getattr__ (S limit) self name vardef = (Ok child, vardef')
    /\ __name child = name
    /\ __offset child = Z.of_N (AdsDatatypeEntry.offs s) + __offset self
    /\ ready vardef'.
Proof.
  intros Hready Hd Hty Hname. unfold __getattr__. rewrite Hd.
  destruct (find _ (AdsDatatypeEntry.subItems d)) as [s|] eqn:Hfind.
  2:{ exfalso. apply list_elem_of_In, in_map_iff in Hname.
      destruct Hname as (s & Hs & Hin).
      apply (find_none _ _ Hfind) in Hin. simpl in Hin.
      rewrite Hs, String.eqb_refl in Hin. discriminate. }
  pose proof (find_some _ _ Hfind) as [Hin _].
  rewrite Forall_forall in Hty. apply list_elem_of_In in Hin. specialize (Hty s Hin).
  rewrite (truthy_nonempty _ Hty).
  destruct (init_ready limit name (__symbol self) (AdsDatatypeEntry.type s)
              (Z.of_N (AdsDatatypeEntry.offs s) + __offset self) vardef Hready)
    as (v & vardef' & Hrun & Hoff & Hn & Hdt & Hct).
  exists s, v, vardef'. repeat split; try assumption.
  eapply ready_same_tables; eassumption.
Qed.

(** Iterating a structure variable (C10, second part): one pair per
    sub-item, in declared order, of the field name and the field's
    variable, then the normal end.  The sub-items are named unlike the
    attributes of the variable object itself, which [getattr] would return
    in place of a field. *)
Lemma iter_structure limit self d vardef :
  ready vardef ->
  __datatype self = Some d ->
  AdsDatatypeEntry.array d = [] ->
  AdsDatatypeEntry.subItems d <> [] ->
  Forall (fun s => AdsDatatypeEntry.type s <> ""%string) (AdsDatatypeEntry.subItems d) ->
  Forall (fun s => AdsDatatypeEntry.name s ∉ object_attributes)
         (AdsDatatypeEntry.subItems d) ->
  exists items vardef',
    __iter__ (S limit) self vardef = ((items, Exhausted), vardef')
    /\ Forall2
         (fun name p =>
            fst p = name
            /\ exists s child,
                 find (fun s => String.eqb (AdsDatatypeEntry.name s) name)
                      (AdsDatatypeEntry.subItems d) = Some s
                 /\ snd p = Child child
                 /\ __offset child = Z.of_N (AdsDatatypeEntry.offs s) + __offset self)
         (map AdsDatatypeEntry.name (AdsDatatypeEntry.subItems d)) items.
Proof.
  intros Hready Hd Harr Hsub Hty Hattr. unfold __iter__. rewrite Hd, Harr.
  rewrite bool_decide_false by (intros H; apply H; reflexivity).
  rewrite bool_decide_true by exact Hsub.
  match goal with |- context [yield_each ?f ?keys] =>
    destruct (yield_each_all f ready
                (fun name p =>
                   fst p = name
                   /\ exists s child,
                        find (fun s => String.eqb (AdsDatatypeEntry.name s) name)
                             (AdsDatatypeEntry.subItems d) = Some s
                        /\ snd p = Child child
                        /\ __offset child
                           = Z.of_N (AdsDatatypeEntry.offs s) + __offset self)
                keys) with (s := vardef) as (ps & s' & Hrun & Hall & _)
  end.
  - intros name s Hname Hs.
    destruct (getattr_ready limit self d name s Hs Hd Hty Hname)
      as (sub & c & s' & Hfind & Hrun & _ & Hoff & Hs').
    assert (Hno : existsb (String.eqb name) object_attributes = false).
    { apply not_true_is_false. intros Hex. apply existsb_exists in Hex.
      destruct Hex as (a & Ha & Heq). apply String.eqb_eq in Heq. subst a.
      apply list_elem_of_fmap in Hname. destruct Hname as (x & -> & Hx).
      rewrite Forall_forall in Hattr. apply (Hattr x Hx).
      apply list_elem_of_In. exact Ha. }
    unfold getattr. rewrite Hno, !bind_run, Hrun. simpl.
    eexists _, s'. split; [reflexivity|].
    split; [simpl; eauto 10|exact Hs'].
  - exact Hready.
  - eauto.
Qed.

End VariableIteration.

(** ** The properties at sample inputs *)

Section Samples.

Import AdsVariablesDefinition Props Examples.

Lemma loaded_ok records self :
  __init__ 1000 records = Ok self -> loaded records = self /\ ready self /\ memo_ok self.
Proof.
  intros H. unfold loaded. rewrite H. split; [reflexivity|].
  destruct (init_establishes_ready _ _ _ H) as (Hr & Hm & _). auto.
Qed.





(** C5, as the claim states it, fails: an array record of three elements
    declared with four bytes makes [getCtype] raise [AssertionError]; no
    [Dummy] of four bytes is returned. *)
Lemma getCtype_uneven_array_asserts :
  dtypes (catalog [ARR_Uneven]) !! "ARRAY [0..2] OF BYTE"%string = Some ARR_Uneven
  /\ arraysize (AdsDatatypeEntry.array ARR_Uneven) = 3%N
  /\ AdsDatatypeEntry.size ARR_Uneven = 4%N
  /\ getCtype 1000 "ARRAY [0..2] OF BYTE" None (catalog [ARR_Uneven])
     = (Raise AssertionError, catalog [ARR_Uneven]).
Proof. repeat split; vm_compute; reflexivity. Qed.

Lemma getCtype_uneven_array_raises_witness :
  getCtype 1000 "ARRAY [0..2] OF BYTE" (Some 4%N) (catalog [ARR_Uneven])
  = (Raise AssertionError, catalog [ARR_Uneven])
  /\ exists self', getCtype 1 "T_Unknown" None (catalog [ARR_Uneven]) = (Ok None, self').
Proof.
  destruct (getCtype_uneven_array_raises 999 "ARRAY [0..2] OF BYTE" (Some 4%N)
              (catalog [ARR_Uneven])) as [Hraise _].
  destruct (getCtype_uneven_array_raises 0 "T_Unknown" None (catalog [ARR_Uneven]))
    as [_ Hnone].
  split.
  - apply (Hraise ARR_Uneven); try reflexivity.
    + intros H. vm_compute in H. discriminate.
    + intros k. change (4 <> k * 3)%N. lia.
  - apply Hnone. repeat split; reflexivity.
Defined.


End Samples.

Section VariableSamples.

Import AdsVariablesDefinition Props Examples AdsVariable.

Lemma loaded_arrays_ready : ready (loaded [ARR_Byte; ARR_Int2; PTR_Int]).
Proof.
  destruct (AdsVariablesDefinition.__init__ 1000 [ARR_Byte; ARR_Int2; PTR_Int])
    as [self|e] eqn:H; [|vm_compute in H; discriminate].
  destruct (loaded_ok _ _ H) as (-> & Hr & _). exact Hr.
Qed.



(** Without the even division [__getitem__] stops at its assertion. *)
Lemma getitem_uneven_size_asserts :
  fst (__getitem__ 1000 (variable ARR_Uneven (Dummy_type 4)) (Int 0)
         (catalog [ARR_Uneven]))
  = Raise AssertionError.
Proof. vm_compute. reflexivity. Qed.


Lemma iter_neither_array_nor_structure_witness :
  exists p vardef',
    __init__ 1000 "p" (symbol "MAIN.p" "POINTER TO INT" 8) (ByName "POINTER TO INT") None
      (loaded [ARR_Byte; ARR_Int2; PTR_Int])
    = (Ok p, vardef')
    /\ __datatype p = Some PTR_Int
    /\ __iter__ 1000 p vardef' = (([], Exhausted), vardef').
Proof.
  destruct (__init__ 1000 "p" (symbol "MAIN.p" "POINTER TO INT" 8)
              (ByName "POINTER TO INT") None (loaded [ARR_Byte; ARR_Int2; PTR_Int]))
    as [r vardef'] eqn:Hrun.
  assert (Hr : r = Ok (mk "p" (symbol "MAIN.p" "POINTER TO INT" 8)
                          (Some c_void_p) (Some PTR_Int) 0)).
  { apply (f_equal fst) in Hrun. vm_compute in Hrun. symmetry. exact Hrun. }
  subst r. do 2 eexists. split; [reflexivity|]. split; [reflexivity|].
  exact (proj2 (iter_neither_array_nor_structure 1000
                  (mk "p" (symbol "MAIN.p" "POINTER TO INT" 8)
                      (Some c_void_p) (Some PTR_Int) 0) vardef')
           PTR_Int eq_refl eq_refl eq_refl).
Defined.

End VariableSamples.

(** * Further properties of the code *)

(** ** NonzeroBasedArray: assignment, construction, slices *)

Section NonzeroBasedArrayMore.

Import Array NonzeroBasedArray.

Context {A : Type}.
Implicit Types (self : NonzeroBasedArray.t A) (items : list A).

Lemma nth_error_lookup items (k : nat) : nth_error items k = items !! k.
Proof.
  revert k. induction items as [|x items IH]; intros [|k]; simpl; auto.
Qed.

Lemma item_lookup items (k : nat) x :
  items !! k = Some x -> item items (Z.of_nat k) = Ok x.
Proof. intros H. apply item_nth. rewrite nth_error_lookup. exact H. Qed.

Lemma getitem_Int_in_range self i :
  _lbound_ self <= i < _lbound_ self + _length_ self ->
  exists x, buffer self !! Z.to_nat (i - _lbound_ self) = Some x
            /\ __getitem__ self (Int i) = Ok (Item x).
Proof.
  intros Hi. unfold _length_ in Hi.
  destruct (buffer self !! Z.to_nat (i - _lbound_ self)) as [x|] eqn:Hx.
  2:{ apply lookup_ge_None in Hx. lia. }
  exists x. split; [reflexivity|].
  rewrite <- nth_error_lookup in Hx.
  pose proof (getitem_shifted self _ x Hx) as H.
  rewrite Z2Nat.id in H by lia.
  replace (_lbound_ self + (i - _lbound_ self)) with i in H by lia. exact H.
Qed.

Lemma setitem_Int_in_range self i v :
  _lbound_ self <= i < _lbound_ self + _length_ self ->
  __setitem__ self (Int i) (Item v)
  = Ok (create_instance (_lbound_ self)
          (<[Z.to_nat (i - _lbound_ self) := v]> (buffer self))).
Proof.
  intros Hi. unfold _length_ in Hi.
  assert (H1 : (i - _lbound_ self <? 0) = false) by (apply Z.ltb_ge; lia).
  assert (H2 : (Z.of_nat (length (buffer self)) <=? i - _lbound_ self) = false)
    by (apply Z.leb_gt; lia).
  unfold __setitem__, __convertindex__. rewrite H1. simpl. rewrite H1. simpl.
  rewrite H1, H2. reflexivity.
Qed.

Lemma setitem_Int_out_of_range self i v :
  ~ (_lbound_ self <= i < _lbound_ self + _length_ self) ->
  __setitem__ self (Int i) (Item v) = Raise IndexError.
Proof.
  intros Hi. unfold _length_ in Hi. unfold __setitem__, __convertindex__.
  destruct (Z.ltb_spec (i - _lbound_ self) 0) as [Hneg|Hpos]; [reflexivity|].
  assert (H1 : (i - _lbound_ self <? 0) = false) by (apply Z.ltb_ge; lia).
  assert (H2 : (Z.of_nat (length (buffer self)) <=? i - _lbound_ self) = true)
    by (apply Z.leb_le; lia).
  simpl. rewrite H1. simpl. rewrite H1, H2. reflexivity.
Qed.

(** Assigning an element and reading it back: [a[i] = v], for a value [v]
    of the element type, succeeds exactly
    on the indices [a[i]] can read, [lower <= i < lower + length], and
    raises [IndexError] on every other; afterwards [a[i]] is [v], every
    other index reads what it read before, and bound and length are
    unchanged. *)
Theorem NonzeroBasedArray_setitem_getitem self i v :
  (_lbound_ self <= i < _lbound_ self + _length_ self ->
   exists self',
     __setitem__ self (Int i) (Item v) = Ok self'
     /\ _lbound_ self' = _lbound_ self
     /\ _length_ self' = _length_ self
     /\ __getitem__ self' (Int i) = Ok (Item v)
     /\ forall j, j <> i -> __getitem__ self' (Int j) = __getitem__ self (Int j))
  /\ (~ (_lbound_ self <= i < _lbound_ self + _length_ self) ->
      __setitem__ self (Int i) (Item v) = Raise IndexError
      /\ __getitem__ self (Int i) = Raise IndexError).
Proof.
  split.
  - intros Hi. rewrite setitem_Int_in_range by assumption.
    eexists. split; [reflexivity|]. unfold _length_ in *. simpl.
    rewrite length_insert. repeat split.
    + match goal with |- __getitem__ ?s _ = _ => set (self' := s) end.
      destruct (getitem_Int_in_range self' i) as (x & Hx & Hget).
      { unfold _length_. subst self'. simpl. rewrite length_insert. lia. }
      subst self'. simpl in Hx. rewrite list_lookup_insert_eq in Hx by lia.
      injection Hx as <-. exact Hget.
    + intros j Hj.
      match goal with |- __getitem__ ?s _ = _ => set (self' := s) end.
      destruct (decide (_lbound_ self <= j < _lbound_ self + Z.of_nat (length (buffer self))))
        as [Hin|Hout].
      * destruct (getitem_Int_in_range self j) as (x & Hx & Hget); [exact Hin|].
        destruct (getitem_Int_in_range self' j) as (x' & Hx' & Hget').
        { unfold _length_. subst self'. simpl. rewrite length_insert. lia. }
        subst self'. simpl in Hx'. rewrite list_lookup_insert_ne in Hx' by lia.
        rewrite Hget, Hget'. congruence.
      * assert (Hraise : forall s : NonzeroBasedArray.t A,
                  _lbound_ s = _lbound_ self ->
                  length (buffer s) = length (buffer self) ->
                  __getitem__ s (Int j) = Raise IndexError).
        { intros s Hb Hl.
          destruct (Z.lt_ge_cases (j - _lbound_ s) 0).
          - apply getitem_below. assumption.
          - apply getitem_above. unfold _length_. lia. }
        rewrite (Hraise self) by reflexivity.
        apply Hraise; subst self'; simpl; [reflexivity|apply length_insert].
  - intros Hi. split; [apply setitem_Int_out_of_range; exact Hi|].
    destruct (Z.lt_ge_cases (i - _lbound_ self) 0).
    + apply getitem_below. assumption.
    + apply getitem_above. lia.
Qed.

Lemma init_args_fill (zero : A) (b : Z) (args : list A) : forall (done : list A) (m : nat),
  init_args (create_instance b (done ++ replicate m zero)) (Z.of_nat (length done)) args
  = if (length args <=? m)%nat
    then Ok (create_instance b (done ++ args ++ replicate (m - length args) zero))
    else Raise IndexError.
Proof.
  induction args as [|v args IH]; intros done m; simpl init_args.
  - simpl. rewrite Nat.sub_0_r. reflexivity.
  - destruct m as [|m].
    + simpl. rewrite setitem_Int_out_of_range; [reflexivity|].
      unfold _length_. simpl. rewrite app_nil_r. lia.
    + rewrite setitem_Int_in_range
        by (unfold _length_; cbn [buffer _lbound_];
            rewrite length_app, length_replicate; lia).
      simpl result_bind. simpl _lbound_. simpl buffer.
      replace (Z.to_nat (Z.of_nat (length done) + b - b)) with (length done + 0)%nat by lia.
      rewrite insert_app_r. simpl.
      replace (done ++ v :: replicate m zero) with ((done ++ [v]) ++ replicate m zero)
        by (rewrite <- app_assoc; reflexivity).
      replace (Z.of_nat (length done) + 1) with (Z.of_nat (length (done ++ [v])))
        by (rewrite length_app; simpl; lia).
      rewrite IH. simpl.
      destruct (length args <=? m)%nat; [|reflexivity].
      rewrite <- app_assoc. reflexivity.
Qed.

(** The constructor fills the array from its lower bound: with at most
    [length] arguments the elements are the arguments followed by zeroed
    elements, and these are what iterating the instance yields, in that
    order (how the iteration ends after them is C9's matter); with more
    arguments than elements it raises [IndexError]. *)
Theorem NonzeroBasedArray_init (zero : A) (b : Z) (n : nat) (args : list A) :
  ((length args <= n)%nat ->
   exists self,
     NonzeroBasedArray.__init__ zero b n args = Ok self
     /\ _lbound_ self = b
     /\ buffer self = args ++ replicate (n - length args) zero
     /\ forall generator_stop,
          fst (__iter__ generator_stop (S n) self)
          = map Item (args ++ replicate (n - length args) zero))
  /\ ((n < length args)%nat ->
      NonzeroBasedArray.__init__ zero b n args = Raise IndexError).
Proof.
  unfold NonzeroBasedArray.__init__.
  pose proof (init_args_fill zero b args [] n) as H.
  cbn [app length] in H. change (Z.of_nat 0) with 0 in H. rewrite H.
  split; intros Hlen.
  - destruct (Nat.leb_spec (length args) n); [|lia].
    eexists. split; [reflexivity|]. split; [reflexivity|]. split; [reflexivity|].
    intros generator_stop. rewrite iter_all; [reflexivity|].
    simpl. rewrite length_app, length_replicate. lia.
  - destruct (Nat.leb_spec (length args) n); [lia|reflexivity].
Qed.

Lemma collect_run items : forall (s : nat) (n : nat),
  (s + n <= length items)%nat ->
  collect items (Z.of_nat s) 1 n = Ok (take n (drop s items)).
Proof.
  intros s n. revert s. induction n as [|n IH]; intros s Hlen; simpl.
  - reflexivity.
  - destruct (items !! s) as [x|] eqn:Hx.
    2:{ apply lookup_ge_None in Hx. lia. }
    rewrite (item_lookup _ _ _ Hx). simpl.
    replace (Z.of_nat s + 1) with (Z.of_nat (S s)) by lia.
    rewrite IH by lia. simpl.
    rewrite (drop_S _ _ _ Hx). reflexivity.
Qed.

Lemma adjust_clip_nonneg (len v : Z) :
  0 <= v -> 0 <= len -> len <= PY_SSIZE_T_MAX ->
  adjust len 1 (clip v) = Z.min v len.
Proof.
  unfold adjust, clip, PY_SSIZE_T_MAX, PY_SSIZE_T_MIN.
  change (2 ^ 63) with 9223372036854775808.
  intros Hv Hlen Hmax.
  assert (Hc : Z.max (Z.opp 9223372036854775808) (Z.min (9223372036854775808 - 1) v)
               = Z.min 9223372036854775807 v) by lia.
  rewrite Hc.
  destruct (Z.ltb_spec (Z.min 9223372036854775807 v) 0); [lia|].
  destruct (Z.leb_spec len (Z.min 9223372036854775807 v)); simpl; lia.
Qed.

(** A slice with both bounds at or above the lower bound never raises:
    [a[lo:hi]] is the list of the elements from logical index [lo] up to
    and excluding [hi], and a bound beyond the end is clipped to the end
    (ctypes does not refuse it). *)
Theorem NonzeroBasedArray_slice self lo hi :
  _lbound_ self <= lo ->
  _lbound_ self <= hi ->
  _length_ self <= PY_SSIZE_T_MAX ->
  __getitem__ self (Slice (Some lo) (Some hi) None)
  = Ok (Items (drop (Z.to_nat (lo - _lbound_ self))
                 (take (Z.to_nat (hi - _lbound_ self)) (buffer self)))).
Proof.
  intros Hlo Hhi Hmax. unfold _length_ in Hmax.
  unfold __getitem__, __convertindex__.
  destruct (Z.ltb_spec (lo - _lbound_ self) 0); [lia|]. simpl.
  destruct (Z.ltb_spec (hi - _lbound_ self) 0); [lia|]. simpl.
  set (len := Z.of_nat (length (buffer self))) in *.
  set (s := lo - _lbound_ self) in *. set (e := hi - _lbound_ self) in *.
  assert (Hadj : forall v, 0 <= v -> adjust len 1 (clip v) = Z.min v len)
    by (intros v Hv; apply adjust_clip_nonneg; [exact Hv|subst len; lia|exact Hmax]).
  rewrite !Hadj by assumption.
  assert (Hlen : slicelength (Z.min s len) (Z.min e len) 1
                 = Z.max 0 (Z.min e len - Z.min s len)).
  { unfold slicelength. simpl.
    destruct (Z.ltb_spec (Z.min s len) (Z.min e len)); [|lia].
    rewrite Z.div_1_r. lia. }
  rewrite Hlen.
  replace (Z.min s len) with (Z.of_nat (Z.to_nat (Z.min s len))) at 1 by lia.
  rewrite collect_run by (subst len; lia). simpl. f_equal. f_equal.
  rewrite take_drop_commute.
  destruct (Z.le_gt_cases s e) as [Hse|Hse].
  - replace (Z.to_nat (Z.min s len) + Z.to_nat (Z.max 0 (Z.min e len - Z.min s len)))%nat
      with (Z.to_nat (Z.min e len)) by lia.
    destruct (Z.le_gt_cases len e).
    + rewrite (take_ge _ (Z.to_nat (Z.min e len))) by (subst len; lia).
      rewrite (take_ge _ (Z.to_nat e)) by (subst len; lia).
      destruct (Z.le_gt_cases len s).
      * rewrite !drop_ge by (subst len; lia). reflexivity.
      * f_equal. lia.
    + replace (Z.min e len) with e by lia. f_equal. lia.
  - replace (Z.to_nat (Z.min s len) + Z.to_nat (Z.max 0 (Z.min e len - Z.min s len)))%nat
      with (Z.to_nat (Z.min s len)) by lia.
    rewrite !drop_ge; [reflexivity| |];
      rewrite length_take; subst len; lia.
Qed.

End NonzeroBasedArrayMore.

(** ** The record stream and the record constructors *)

Section RecordStreamMore.

Import Entry Props.

(** Iterating a blob made of well-formed records (each declaring its own
    length, each decodable) yields exactly these records, in order, and
    ends normally. *)
Theorem Entry_iter_well_formed {E} (cls : bytes -> result E)
  (recs : list (bytes * E)) (fuel : nat) :
  Forall (framed cls) recs ->
  (length recs < fuel)%nat ->
  iter cls fuel (concat (map fst recs)) = (map snd recs, Exhausted).
Proof.
  intros Hrecs Hfuel. unfold iter.
  assert (Hsplit : exists fuel', fuel = (length recs + S fuel')%nat)
    by (exists (fuel - length recs - 1)%nat; lia).
  destruct Hsplit as [fuel' ->].
  pose proof (iter_from_records cls recs [] [] (S fuel') Hrecs) as Hrun.
  cbn [app length] in Hrun. change (N.of_nat 0) with 0%N in Hrun.
  rewrite app_nil_r in Hrun. rewrite Hrun.
  rewrite iter_from_end by lia. rewrite app_nil_r. reflexivity.
Qed.

Lemma string_of_list_ascii_length l :
  String.length (string_of_list_ascii l) = length l.
Proof. induction l as [|c l IH]; simpl; congruence. Qed.

Lemma decode_latin1_length data : String.length (decode_latin1 data) = length data.
Proof. unfold decode_latin1. rewrite string_of_list_ascii_length. apply length_map. Qed.

(** The symbol constructor raises [struct.error] exactly on fewer bytes
    than its fixed structure of 30; on anything longer it succeeds, also
    when the strings the header announces are not all there: name, type
    and comment then hold what is left of them, never more characters
    than their declared lengths. *)
Theorem AdsSymbolEntry_init_lengths (data : bytes) :
  ((length data < 30)%nat <-> AdsSymbolEntry.__init__ data = Raise struct_error)
  /\ ((30 <= length data)%nat ->
      exists entry,
        AdsSymbolEntry.__init__ data = Ok entry
        /\ AdsSymbolEntry.entryLength entry = le_uint (upto 4 data)
        /\ String.length (AdsSymbolEntry.name entry)
           = Nat.min (N.to_nat (AdsSymbolEntry.nameLength entry)) (length data - 30)
        /\ (String.length (AdsSymbolEntry.type entry)
            <= N.to_nat (AdsSymbolEntry.typeLength entry))%nat
        /\ (String.length (AdsSymbolEntry.comment entry)
            <= N.to_nat (AdsSymbolEntry.commentLength entry))%nat).
Proof.
  assert (Hok : (30 <= length data)%nat ->
      exists entry,
        AdsSymbolEntry.__init__ data = Ok entry
        /\ AdsSymbolEntry.entryLength entry = le_uint (upto 4 data)
        /\ String.length (AdsSymbolEntry.name entry)
           = Nat.min (N.to_nat (AdsSymbolEntry.nameLength entry)) (length data - 30)
        /\ (String.length (AdsSymbolEntry.type entry)
            <= N.to_nat (AdsSymbolEntry.typeLength entry))%nat
        /\ (String.length (AdsSymbolEntry.comment entry)
            <= N.to_nat (AdsSymbolEntry.commentLength entry))%nat).
  { intros Hge.
    unfold AdsSymbolEntry.__init__, _parsefields, unpack.
    change (calcsize AdsSymbolEntry._fieldsformat) with 30%N.
    rewrite upto_length.
    destruct (N.eqb_spec (N.of_nat (Nat.min (N.to_nat 30) (length data))) 30) as [H|H];
      [|lia].
    cbn [result_bind AdsSymbolEntry._fieldsformat split_fields].
    unfold _stringfield. eexists. split; [reflexivity|].
    cbn [AdsSymbolEntry.entryLength AdsSymbolEntry.name AdsSymbolEntry.type
         AdsSymbolEntry.comment AdsSymbolEntry.nameLength AdsSymbolEntry.typeLength
         AdsSymbolEntry.commentLength].
    rewrite !decode_latin1_length, !upto_length.
    split.
    { unfold upto. rewrite take_take. reflexivity. }
    split; [|split; lia].
    unfold from. rewrite length_drop. reflexivity. }
  split; [|exact Hok].
  split.
  - intros Hlt. pose proof (AdsSymbolEntry_init_total data) as H.
    destruct (Nat.ltb_spec (length data) 30); [exact H|lia].
  - intros Hraise. destruct (Nat.lt_ge_cases (length data) 30) as [H|H]; [exact H|].
    destruct (Hok H) as (entry & Hrun & _). congruence.
Qed.

End RecordStreamMore.

Section DatatypeRecord.

Import Entry AdsDatatypeEntry.

Lemma parse_dims_length n : forall remainder dims remainder',
  parse_dims n remainder = Ok (dims, remainder') -> length dims = n.
Proof.
  induction n as [|n IH]; intros remainder dims remainder' H; simpl in H.
  - injection H as <- _. reflexivity.
  - destruct (unpack_lL _) as [d|e]; [|discriminate]. simpl in H.
    destruct (parse_dims n _) as [[dims0 r0]|e] eqn:Hrec; [|discriminate].
    simpl in H. injection H as <- _. simpl. f_equal. eapply IH. exact Hrec.
Qed.

Lemma odict_set_names subItem d x :
  x ∈ map name (odict_set subItem d) -> x = name subItem \/ x ∈ map name d.
Proof.
  induction d as [|v d IH]; simpl.
  - intros H. apply list_elem_of_singleton in H. auto.
  - destruct (String.eqb_spec (name v) (name subItem)) as [Heq|Hne]; simpl; intros H.
    + apply elem_of_cons in H. destruct H as [->|H]; [auto|].
      right. right. exact H.
    + apply elem_of_cons in H. destruct H as [->|H].
      * right. left.
      * destruct (IH H) as [->|H']; [auto|]. right. right. exact H'.
Qed.

Lemma odict_set_NoDup subItem d :
  NoDup (map name d) -> NoDup (map name (odict_set subItem d)).
Proof.
  induction d as [|v d IH]; simpl; intros H.
  - repeat constructor. intros Hin. inversion Hin.
  - apply NoDup_cons in H. destruct H as [Hv Hd].
    destruct (String.eqb_spec (name v) (name subItem)) as [Heq|Hne]; simpl.
    + apply NoDup_cons. rewrite <- Heq. auto.
    + apply NoDup_cons. split; [|auto].
      intros Hin. apply odict_set_names in Hin. destruct Hin as [Hin|Hin]; auto.
Qed.

Lemma odict_set_length subItem d :
  (length (odict_set subItem d) <= S (length d))%nat.
Proof.
  induction d as [|v d IH]; simpl; [lia|].
  destruct (String.eqb (name v) (name subItem)); simpl; lia.
Qed.

(** The sub-item just stored is the one found under its name. *)
Lemma odict_set_find subItem d :
  find (fun s => String.eqb (name s) (name subItem)) (odict_set subItem d) = Some subItem.
Proof.
  induction d as [|v d IH]; simpl.
  - rewrite String.eqb_refl. reflexivity.
  - destruct (String.eqb (name v) (name subItem)) eqn:Heq; simpl.
    + rewrite String.eqb_refl. reflexivity.
    + rewrite Heq. exact IH.
Qed.

Lemma parse_subItems_NoDup init n : forall acc remainder items,
  parse_subItems init n acc remainder = Ok items ->
  NoDup (map name acc) ->
  NoDup (map name items) /\ (length items <= length acc + n)%nat.
Proof.
  induction n as [|n IH]; intros acc remainder items H Hacc; simpl in H.
  - injection H as <-. split; [exact Hacc|lia].
  - destruct (unpack_L _) as [len|e]; [|discriminate]. simpl in H.
    destruct (init _) as [subItem|e]; [|discriminate]. simpl in H.
    destruct (IH _ _ _ H (odict_set_NoDup subItem acc Hacc)) as [Hnd Hlen].
    split; [exact Hnd|]. pose proof (odict_set_length subItem acc). lia.
Qed.

(** A decoded data-type record has as many dimensions as its header
    announces, and sub-items of pairwise distinct names, at most as many as
    announced (a repeated name replaces the earlier sub-item); fewer than
    the 42 bytes of the fixed structure raise [struct.error]. *)
Theorem AdsDatatypeEntry_init_shape (depth : nat) (data : bytes) :
  (forall t,
     AdsDatatypeEntry.__init__ depth data = Ok t ->
     (42 <= length data)%nat
     /\ length (array t) = N.to_nat (arrayDim t)
     /\ NoDup (map name (subItems t))
     /\ (length (subItems t) <= N.to_nat (subItemsCount t))%nat)
  /\ ((length data < 42)%nat ->
      AdsDatatypeEntry.__init__ (S depth) data = Raise struct_error).
Proof.
  split.
  - intros t H. destruct depth as [|depth]; [discriminate|].
    simpl in H. unfold _parsefields, unpack in H.
    change (calcsize _fieldsformat) with 42%N in H.
    rewrite upto_length in H.
    destruct (N.eqb_spec (N.of_nat (Nat.min (N.to_nat 42) (length data))) 42) as [Hlen|Hlen];
      [|discriminate].
    split; [lia|].
    cbn [result_bind _fieldsformat split_fields] in H.
    repeat match type of H with context [_stringfield ?n ?d] =>
             destruct (_stringfield n d) end.
    destruct (parse_dims _ _) as [[dims r]|e] eqn:Hdims; [|discriminate].
    cbn [result_bind] in H.
    destruct (parse_subItems _ _ _ _) as [items|e] eqn:Hitems; [|discriminate].
    cbn [result_bind] in H. injection H as <-.
    cbn [array arrayDim subItems subItemsCount].
    split; [eapply parse_dims_length; exact Hdims|].
    destruct (parse_subItems_NoDup _ _ _ _ _ Hitems) as [Hnd Hn]; [constructor|].
    split; [exact Hnd|exact Hn].
  - intros Hlt. simpl. unfold _parsefields, unpack.
    change (calcsize _fieldsformat) with 42%N.
    rewrite upto_length.
    destruct (N.eqb_spec (N.of_nat (Nat.min (N.to_nat 42) (length data))) 42) as [Hlen|Hlen];
      [lia|reflexivity].
Qed.

End DatatypeRecord.

(** ** Layout synthesis *)

Section CatalogMore.

Import AdsVariablesDefinition Props.
Local Open Scope py_scope.

(** Whatever [warn] and [memoize] keep, [getCtype] keeps. *)
Lemma getCtype_preserves (P : AdsVariablesDefinition.t -> Prop) :
  (forall w, preserves P (warn w)) ->
  (forall n ct, preserves P (memoize n ct)) ->
  forall depth n sz, preserves P (getCtype depth n sz).
Proof.
  intros Hwarn Hmemo. induction depth as [|depth IH]; intros n sz.
  - apply preserves_raise.
  - rewrite getCtype_unfold. apply preserves_bind; [intros s H; exact H|intros self].
    destruct (ctypes self !! n); [apply preserves_ret|].
    destruct (stringMatch n).
    { apply preserves_bind; [apply Hmemo|intros; apply preserves_ret]. }
    destruct (dtypes self !! n) as [dtype|].
    2:{ destruct sz; (apply preserves_bind; [apply Hwarn|intros; apply preserves_ret]). }
    apply preserves_bind; [apply preserves_synthesize; auto|intros ct].
    apply preserves_bind.
    { match goal with |- preserves _ (if ?b then _ else _) => destruct b end.
      - apply preserves_bind; [apply Hwarn|intros; apply preserves_ret].
      - apply preserves_ret. }
    intros ct'. apply preserves_bind; [apply Hmemo|intros; apply preserves_ret].
Qed.

(** [getCtype] only adds to the catalog: whatever it returns or raises, the
    data-type table is the same afterwards, every layout that was memoized
    is still memoized unchanged, and the warnings emitted before are still
    there, in order, with the new ones after them. *)
Theorem getCtype_only_adds depth n sz self :
  dtypes (snd (getCtype depth n sz self)) = dtypes self
  /\ (forall k ct, ctypes self !! k = Some ct ->
        ctypes (snd (getCtype depth n sz self)) !! k = Some ct)
  /\ exists ws, warnings (snd (getCtype depth n sz self)) = warnings self ++ ws.
Proof.
  pose proof (getCtype_extends depth n sz self self (extends_refl self)) as [Hd Hm].
  split; [exact Hd|]. split; [exact Hm|].
  apply (getCtype_preserves (fun s => exists ws, warnings s = warnings self ++ ws)).
  - intros w s [ws Hws]. exists (ws ++ [w]). simpl. rewrite Hws, app_assoc. reflexivity.
  - intros k ct s H. exact H.
  - exists []. rewrite app_nil_r. reflexivity.
Qed.

(** With a size hint [getCtype] never answers [None]. *)
Lemma getCtype_hint_not_None depth n size self :
  fst (getCtype depth n (Some size) self) <> Ok None.
Proof.
  destruct depth as [|depth]; [discriminate|].
  rewrite getCtype_unfold, bind_run. simpl.
  destruct (ctypes self !! n); [discriminate|].
  destruct (stringMatch n); [discriminate|].
  destruct (dtypes self !! n) as [d|]; [|discriminate].
  rewrite bind_run.
  destruct (synthesize (getCtype depth) n d self) as [[ct|e] s1]; [|discriminate].
  match goal with |- context [if ?b then _ else _] => destruct b end; discriminate.
Qed.

Lemma all_typed_field_types fields :
  all_typed fields -> is_Some (field_types fields).
Proof.
  induction 1 as [|[name [c|]] fields [c' Hc] _ IH]; simpl.
  - eauto.
  - destruct IH as [fs ->]. eauto.
  - discriminate.
Qed.

Section Typed.

Context (rec : string -> option N -> M (option CType)).
Hypothesis rec_hint : forall n size self, fst (rec n (Some size) self) <> Ok None.

Lemma struct_member_typed s o fields self o' fields' self' :
  struct_member rec s (o, fields) self = (Ok (o', fields'), self') ->
  all_typed fields -> all_typed fields'.
Proof.
  unfold struct_member. intros H Hf.
  set (pad := fields ++ [(""%string, Some (c_array c_char (AdsDatatypeEntry.offs s - o)))])
    in H.
  assert (Hpad : all_typed pad).
  { apply Forall_app. split; [exact Hf|]. repeat constructor. simpl. eauto. }
  destruct (o <? AdsDatatypeEntry.offs s)%N;
    match type of H with context [(?a =? ?b)%N] => destruct (a =? b)%N end;
    try (simpl in H; injection H as _ <- _; assumption);
    rewrite bind_run in H;
    match type of H with context [rec ?n (Some ?z) self] =>
      pose proof (rec_hint n z self) as Hr; destruct (rec n (Some z) self) as [[[c|]|e] s1]
    end; simpl in *; try discriminate; try congruence;
    injection H as _ <- _; apply Forall_app; (split; [assumption|]);
    repeat constructor; simpl; eauto.
Qed.

Lemma struct_members_typed items : forall o fields self o' fields' self',
  struct_members rec items (o, fields) self = (Ok (o', fields'), self') ->
  all_typed fields -> all_typed fields'.
Proof.
  induction items as [|s items IH]; intros o fields self o' fields' self' H Hf; simpl in H.
  - injection H as _ <- _. exact Hf.
  - apply bind_Ok in H. destruct H as ([o1 f1] & s1 & H1 & H2).
    eapply IH; [exact H2|]. eapply struct_member_typed; eassumption.
Qed.

End Typed.

Section Blame.

Context (Q : exn -> gmap string AdsDatatypeEntry.t -> Prop).

(** A computation that leaves the table alone and whose [AssertionError]
    or [ZeroDivisionError] is accounted for by [Q] of the table. *)
Let blames {A} (c : M A) : Prop :=
  forall self,
    dtypes (snd (c self)) = dtypes self
    /\ forall e, fst (c self) = Raise e ->
         e = AssertionError \/ e = ZeroDivisionError -> Q e (dtypes self).

Lemma blames_ret {A} (a : A) : blames (ret a).
Proof. intros self. split; [reflexivity|discriminate]. Qed.

Lemma blames_warn w : blames (warn w).
Proof. intros self. split; [reflexivity|discriminate]. Qed.

Lemma blames_bind {A B} (c : M A) (k : A -> M B) :
  blames c -> (forall a, blames (k a)) -> blames (bind c k).
Proof.
  intros Hc Hk self. rewrite bind_run. destruct (Hc self) as [Hd He].
  destruct (c self) as [[a|e] s1]; simpl in *.
  - destruct (Hk a s1) as [Hd' He']. rewrite Hd', Hd. split; [reflexivity|].
    rewrite <- Hd. exact He'.
  - split; [exact Hd|]. intros e0 [= <-]. apply He. reflexivity.
Qed.

Context (rec : string -> option N -> M (option CType)).
Hypothesis rec_blames : forall n sz, blames (rec n sz).

Lemma blames_struct_member s acc : blames (struct_member rec s acc).
Proof.
  unfold struct_member. destruct acc as [o fields].
  destruct (o <? AdsDatatypeEntry.offs s)%N;
    match goal with |- context [(?a =? ?b)%N] => destruct (a =? b)%N end;
    repeat first [apply blames_bind; [|intros ?] | apply blames_ret
                 | apply rec_blames | apply blames_warn].
Qed.

Lemma blames_struct_members items : forall acc, blames (struct_members rec items acc).
Proof.
  induction items as [|s items IH]; intros acc; simpl.
  - apply blames_ret.
  - apply blames_bind; [apply blames_struct_member|intros a; apply IH].
Qed.

Lemma blames_Structure_create name fields : blames (Structure_create name fields).
Proof.
  intros self. unfold Structure_create. destruct (field_types fields); simpl.
  - split; [reflexivity|discriminate].
  - split; [reflexivity|]. intros e [= <-] [?|?]; discriminate.
Qed.

End Blame.

(** What is wrong with the table when [getCtype] fails on its own account:
    [AssertionError] comes only from an alias or array record whose
    declared size is no multiple of its element count, and
    [ZeroDivisionError] only from one with a dimension of no elements.  And
    with a size hint [getCtype] never returns [None], so that the
    assertion on the element type of an array record cannot fail and no
    field of a structure is left without a type. *)
Theorem getCtype_exceptions depth n sz self :
  (forall size, fst (getCtype depth n (Some size) self) <> Ok None)
  /\ (fst (getCtype depth n sz self) = Raise AssertionError ->
      exists k d,
        dtypes self !! k = Some d /\ plain_array d
        /\ arraysize (AdsDatatypeEntry.array d) <> 0%N
        /\ (AdsDatatypeEntry.size d mod arraysize (AdsDatatypeEntry.array d) <> 0)%N)
  /\ (fst (getCtype depth n sz self) = Raise ZeroDivisionError ->
      exists k d,
        dtypes self !! k = Some d /\ plain_array d
        /\ arraysize (AdsDatatypeEntry.array d) = 0%N)
  /\ (forall items o fields self',
        struct_members (getCtype depth) items (0%N, []) self = (Ok (o, fields), self') ->
        all_typed fields).
Proof.
  set (Q := fun (e : exn) (dt : gmap string AdsDatatypeEntry.t) =>
              exists k d,
                dt !! k = Some d /\ plain_array d
                /\ ((e = ZeroDivisionError /\ arraysize (AdsDatatypeEntry.array d) = 0%N)
                    \/ (e = AssertionError
                        /\ arraysize (AdsDatatypeEntry.array d) <> 0%N
                        /\ (AdsDatatypeEntry.size d
                             mod arraysize (AdsDatatypeEntry.array d) <> 0)%N))).
  assert (Hall : forall depth n sz self,
            dtypes (snd (getCtype depth n sz self)) = dtypes self
            /\ forall e, fst (getCtype depth n sz self) = Raise e ->
                 e = AssertionError \/ e = ZeroDivisionError -> Q e (dtypes self)).
  { clear depth n sz self.
    induction depth as [|depth IH]; intros n sz self.
    - simpl. split; [reflexivity|]. intros e [= <-] [?|?]; discriminate.
    - rewrite getCtype_unfold, bind_run. simpl.
      destruct (ctypes self !! n); [split; [reflexivity|discriminate]|].
      destruct (stringMatch n); [split; [reflexivity|discriminate]|].
      destruct (dtypes self !! n) as [d|] eqn:Hd.
      2:{ destruct sz; (split; [reflexivity|discriminate]). }
      rewrite bind_run.
      assert (Hsyn : dtypes (snd (synthesize (getCtype depth) n d self)) = dtypes self
                /\ forall e, fst (synthesize (getCtype depth) n d self) = Raise e ->
                     e = AssertionError \/ e = ZeroDivisionError -> Q e (dtypes self)).
      { unfold synthesize.
        destruct (String.prefix _ _) eqn:Hptr; [split; [reflexivity|discriminate]|].
        destruct (truthy (AdsDatatypeEntry.type d)
                  && negb (bool_decide (AdsDatatypeEntry.subItems d <> []))) eqn:Hplain.
        { apply andb_true_iff in Hplain. destruct Hplain as [Hty Hsub].
          assert (Hp : plain_array d).
          { split; [exact Hptr|]. split.
            - intros H. unfold truthy in Hty. rewrite H in Hty. discriminate.
            - apply negb_true_iff, bool_decide_eq_false in Hsub.
              destruct (AdsDatatypeEntry.subItems d); [reflexivity|].
              exfalso. apply Hsub. discriminate. }
          destruct (N.eqb_spec (arraysize (AdsDatatypeEntry.array d)) 0) as [Hz|Hz].
          { split; [reflexivity|]. intros e [= <-] _.
            exists n, d. split; [exact Hd|]. split; [exact Hp|]. left. auto. }
          destruct (N.eqb_spec (AdsDatatypeEntry.size d
                                mod arraysize (AdsDatatypeEntry.array d)) 0) as [Hm|Hm];
            simpl.
          2:{ split; [reflexivity|]. intros e [= <-] _.
              exists n, d. split; [exact Hd|]. split; [exact Hp|]. right. auto. }
          rewrite bind_run.
          destruct (IH (AdsDatatypeEntry.type d)
                      (Some (AdsDatatypeEntry.size d / arraysize (AdsDatatypeEntry.array d))%N)
                      self) as [Hdt He].
          pose proof (getCtype_hint_not_None depth (AdsDatatypeEntry.type d)
                        (AdsDatatypeEntry.size d / arraysize (AdsDatatypeEntry.array d))%N
                        self) as Hnone.
          destruct (getCtype depth (AdsDatatypeEntry.type d) _ self) as [[[c|]|e'] s1];
            simpl in Hdt, He, Hnone |- *.
          - split; [exact Hdt|discriminate].
          - exfalso. apply Hnone. reflexivity.
          - split; [exact Hdt|]. intros e [= <-]. apply He. reflexivity. }
        destruct (bool_decide (AdsDatatypeEntry.subItems d <> [])
                  && negb (truthy (AdsDatatypeEntry.type d))).
        2:{ apply (blames_bind Q); [apply blames_warn|intros ?; apply blames_ret]. }
        apply (blames_bind Q); [apply (blames_struct_members Q); exact (IH)|].
        intros [o fields]. apply blames_Structure_create. }
      destruct Hsyn as [Hdt He].
      destruct (synthesize (getCtype depth) n d self) as [[ct|e'] s1]; simpl in *.
      + match goal with |- context [if ?b then _ else _] => destruct b end;
          simpl; (split; [exact Hdt|discriminate]).
      + split; [exact Hdt|]. intros e [= <-]. apply He. reflexivity. }
  split; [intros size; apply getCtype_hint_not_None|].
  split; [|split].
  - intros H. destruct (proj2 (Hall depth n sz self) _ H (or_introl eq_refl))
      as (k & d & Hk & Hp & [[? _]|(_ & Hz & Hm)]); [discriminate|eauto 10].
  - intros H. destruct (proj2 (Hall depth n sz self) _ H (or_intror eq_refl))
      as (k & d & Hk & Hp & [[_ Hz]|(? & _)]); [eauto 10|discriminate].
  - intros items o fields self' H.
    apply (struct_members_typed (getCtype depth)
             (fun n size self => getCtype_hint_not_None depth n size self)
             items 0%N [] self o fields self' H).
    constructor.
Qed.

Lemma sizeof_wrap_rev dims : forall ct,
  sizeof (fold_left
            (fun ct (d : Z * N) =>
               let '(lbound, elements) := d in
               if lbound =? 0 then c_array ct elements
               else NonzeroBasedArray_type ct lbound elements) dims ct)
  = (fold_right (fun (d : Z * N) acc => snd d * acc) 1 dims * sizeof ct)%N.
Proof.
  induction dims as [|[l n] dims IH]; intros ct; simpl fold_left; simpl fold_right.
  - lia.
  - rewrite IH. destruct (l =? 0); unfold sizeof; simpl; lia.
Qed.

Lemma count_product_rev dims :
  fold_right (fun (d : Z * N) acc => (snd d * acc)%N) 1%N (rev dims) = count_product dims.
Proof.
  rewrite fold_left_rev_right.
  assert (H : forall acc,
            fold_left (fun acc (d : Z * N) => (snd d * acc)%N) dims acc
            = (acc * count_product dims)%N).
  { induction dims as [|[l n] dims IH]; intros acc; simpl; [lia|]. rewrite IH. lia. }
  rewrite H. lia.
Qed.

(** The layout of an array type takes as many bytes as its elements
    together: the element count times the element size. *)
Lemma sizeof_wrap_arrays dims ct :
  sizeof (wrap_arrays dims ct) = (arraysize dims * sizeof ct)%N.
Proof.
  unfold wrap_arrays. rewrite sizeof_wrap_rev, count_product_rev.
  rewrite arraysize_count_product. reflexivity.
Qed.

(** An array (or alias) record over a type that is known nowhere still
    gets its array layout: the size hint makes a [Dummy] of the element
    size stand in for the element, the dimensions are wrapped around it,
    and the result has exactly the declared size, so it is kept and
    memoized (with the warning about the unknown element type). *)
Theorem getCtype_array_of_unknown depth n sz self d :
  ctypes self !! n = None ->
  stringMatch n = None ->
  dtypes self !! n = Some d ->
  plain_array d ->
  (AdsDatatypeEntry.size d mod arraysize (AdsDatatypeEntry.array d) = 0)%N ->
  arraysize (AdsDatatypeEntry.array d) <> 0%N ->
  ctypes self !! AdsDatatypeEntry.type d = None ->
  stringMatch (AdsDatatypeEntry.type d) = None ->
  dtypes self !! AdsDatatypeEntry.type d = None ->
  let itemsize := (AdsDatatypeEntry.size d / arraysize (AdsDatatypeEntry.array d))%N in
  let layout := wrap_arrays (AdsDatatypeEntry.array d) (Dummy_type itemsize) in
  getCtype (S (S depth)) n sz self
  = (Ok (Some layout),
     mk (dtypes self) (<[n := layout]> (ctypes self))
        (warnings self
         ++ [Unknown_type_with_known_size (AdsDatatypeEntry.type d) itemsize]))
  /\ sizeof layout = AdsDatatypeEntry.size d.
Proof.
  intros Hmemo Hstr Hd (Hptr & Hty & Hsub) Hdiv Hnz Hmemo' Hstr' Hd' itemsize layout.
  assert (Hsize : sizeof layout = AdsDatatypeEntry.size d).
  { subst layout itemsize. rewrite sizeof_wrap_arrays. unfold sizeof at 1. simpl.
    pose proof (N.div_mod (AdsDatatypeEntry.size d) _ Hnz) as Hdm. lia. }
  split; [|exact Hsize].
  assert (Hinner : getCtype (S depth) (AdsDatatypeEntry.type d) (Some itemsize) self
                   = (Ok (Some (Dummy_type itemsize)),
                      mk (dtypes self) (ctypes self)
                         (warnings self
                          ++ [Unknown_type_with_known_size (AdsDatatypeEntry.type d)
                                itemsize]))).
  { rewrite getCtype_unfold, bind_run. simpl. rewrite Hmemo', Hstr', Hd'. reflexivity. }
  remember (S depth) as depth' eqn:Hdepth.
  rewrite getCtype_unfold, bind_run. simpl. rewrite Hmemo, Hstr, Hd, bind_run.
  unfold synthesize. rewrite Hptr, Hsub, (truthy_nonempty _ Hty). simpl.
  destruct (N.eqb_spec (arraysize (AdsDatatypeEntry.array d)) 0); [contradiction|].
  rewrite Hdiv. simpl. fold itemsize. rewrite bind_run, Hinner. simpl.
  fold layout. rewrite Hsize, N.eqb_refl. reflexivity.
Qed.

End CatalogMore.

(** ** Variables on a constructed catalog *)

Section VariableMore.

Import AdsVariablesDefinition Props AdsVariable.
Local Open Scope py_scope.

(** After the catalog constructor has succeeded, the table is the
    dictionary of the records by name, every built-in type is still in the
    memo, and every name of the table has a memoized layout, which has
    the size the record declares unless the name is a built-in or a string
    type name. *)
Theorem AdsVariablesDefinition_init_memo limit records self :
  AdsVariablesDefinition.__init__ limit records = Ok self ->
  dtypes self = dict_by_name records
  /\ (forall k ct, basictypes !! k = Some ct -> ctypes self !! k = Some ct)
  /\ (forall n d,
        dtypes self !! n = Some d ->
        AdsDatatypeEntry.name d = n
        /\ exists ct,
             ctypes self !! n = Some ct
             /\ (basictypes !! n = None -> stringMatch n = None ->
                 sizeof ct = AdsDatatypeEntry.size d)).
Proof.
  intros Hinit.
  destruct (init_establishes_ready _ _ _ Hinit) as (Hready & Hok & Hdt).
  split; [exact Hdt|]. split.
  - unfold AdsVariablesDefinition.__init__ in Hinit.
    destruct (getCtype_each limit (dict_keys records) _) as [[[]|e] s1] eqn:Hrun;
      [|discriminate].
    injection Hinit as ->.
    destruct (getCtype_each_memoizes _ _ _ _ Hrun) as ([_ Hm] & _ & _).
    exact Hm.
  - intros n d Hd.
    assert (Hname : AdsDatatypeEntry.name d = n).
    { rewrite Hdt in Hd. apply (dict_by_name_lookup _ _ _ Hd). }
    split; [exact Hname|].
    destruct (Hready n d Hd) as [ct Hct]. rewrite Hname in Hct.
    exists ct. split; [exact Hct|]. intros Hbasic Hstr.
    destruct (Hok n ct Hct) as [H|[(len & H & _)|(d' & Hd' & Hsz)]]; congruence.
Qed.

Lemma init_table_type limit name sym ty off vardef d :
  ready vardef ->
  dtypes vardef !! ty = Some d ->
  is_alias d = false ->
  exists ct,
    ctypes vardef !! AdsDatatypeEntry.name d = Some ct
    /\ AdsVariable.__init__ (S limit) name sym (ByName ty) (Some off) vardef
       = (Ok (mk name sym (Some ct) (Some d) off), vardef).
Proof.
  intros Hready Hd Halias. destruct (Hready ty d Hd) as [ct Hct].
  exists ct. split; [exact Hct|].
  unfold AdsVariable.__init__. rewrite !bind_run. cbn [get fst snd].
  rewrite Hd, Halias. cbn [ret]. rewrite bind_run.
  rewrite (getCtype_hit limit _ None vardef ct Hct). reflexivity.
Qed.


Lemma product_length dims :
  length (product (dim_ranges dims)) = N.to_nat (count_product dims).
Proof.
  induction dims as [|[l n] dims IH]; simpl; [reflexivity|].
  assert (H : forall (xs : list Z),
            length (flat_map (fun x => map (cons x) (product (dim_ranges dims))) xs)
            = (length xs * N.to_nat (count_product dims))%nat).
  { induction xs as [|x xs IHx]; simpl; [reflexivity|].
    rewrite length_app, length_map, IHx, IH. reflexivity. }
  rewrite H, length_seqZ. lia.
Qed.



Lemma adjust_within len v : 0 <= len -> 0 <= Array.adjust len 1 v <= len.
Proof.
  intros Hlen. unfold Array.adjust. simpl.
  destruct (Z.ltb_spec v 0).
  - destruct (Z.ltb_spec (v + len) 0); lia.
  - destruct (Z.leb_spec len v); lia.
Qed.

Lemma slice_indices_unit start stop step len s e k :
  0 <= len ->
  slice_indices start stop step len = Ok (s, e, k) ->
  k = 1 ->
  0 <= s <= len /\ 0 <= e <= len.
Proof.
  intros Hlen H ->. unfold slice_indices in H.
  destruct (default 1 step =? 0); [discriminate|].
  injection H as <- <- Hk. rewrite Hk. simpl.
  split.
  - destruct start; [apply adjust_within; exact Hlen|lia].
  - destruct stop; [apply adjust_within; exact Hlen|lia].
Qed.

(** A raw read through a slice never leaves the variable: whatever the
    bounds of the slice, the bytes requested from the transport lie within
    the [size] bytes of the variable (bounds beyond them are clipped,
    negative ones count from the end); a slice [[a:b]] with
    [0 <= a <= b <= size] requests exactly the bytes [a .. b-1]; and any
    step other than 1 raises [ValueError]. *)
Theorem raw_read_within_variable limit self d vardef :
  __datatype self = Some d ->
  let base := Z.of_N (AdsSymbolEntry.iOffs (__symbol self)) + __offset self in
  (forall start stop step r vardef',
     __getitem__ limit self (Slice start stop step) vardef = (Ok r, vardef') ->
     exists s e,
       r = RawRead (AdsSymbolEntry.iGroup (__symbol self)) (base + s) (e - s)
       /\ 0 <= s <= e /\ e <= Z.of_N (AdsDatatypeEntry.size d)
       /\ vardef' = vardef)
  /\ (forall a b,
        0 <= a <= b -> b <= Z.of_N (AdsDatatypeEntry.size d) ->
        __getitem__ limit self (Slice (Some a) (Some b) None) vardef
        = (Ok (RawRead (AdsSymbolEntry.iGroup (__symbol self)) (base + a) (b - a)), vardef))
  /\ (forall start stop k,
        k <> 1 ->
        fst (__getitem__ limit self (Slice start stop (Some k)) vardef) = Raise ValueError).
Proof.
  intros Hd base. unfold __getitem__. rewrite Hd.
  split; [|split].
  - intros start stop step r vardef' H.
    destruct (slice_indices start stop step _) as [[[s e] k]|err] eqn:Hidx;
      [|discriminate].
    destruct (Z.eqb_spec k 1) as [->|Hk]; [|discriminate]. simpl in H.
    destruct (Z.ltb_spec (e - s) 0); [discriminate|].
    injection H as <- <-.
    destruct (slice_indices_unit _ _ _ _ _ _ _ (N2Z.is_nonneg _) Hidx eq_refl) as [Hs He].
    exists s, e. repeat split; lia.
  - intros a b Hab Hb. unfold slice_indices. simpl.
    unfold Array.adjust. simpl.
    destruct (Z.ltb_spec a 0); [lia|]. destruct (Z.ltb_spec b 0); [lia|].
    assert (Ha : (if Z.of_N (AdsDatatypeEntry.size d) <=? a
                  then Z.of_N (AdsDatatypeEntry.size d) else a) = a)
      by (destruct (Z.leb_spec (Z.of_N (AdsDatatypeEntry.size d)) a); lia).
    assert (Hb' : (if Z.of_N (AdsDatatypeEntry.size d) <=? b
                   then Z.of_N (AdsDatatypeEntry.size d) else b) = b)
      by (destruct (Z.leb_spec (Z.of_N (AdsDatatypeEntry.size d)) b); lia).
    rewrite Ha, Hb'.
    destruct (Z.ltb_spec (b - a) 0); [lia|]. reflexivity.
  - intros start stop k Hk. unfold slice_indices. simpl.
    destruct (Z.eqb_spec k 0); [reflexivity|].
    destruct (Z.eqb_spec k 1); [contradiction|]. reflexivity.
Qed.

(** A raw write through a slice obeys the same bounds, and only writes
    data of exactly the length of the slice: any other length raises
    [ValueError] and nothing is sent. *)
Theorem raw_write_within_variable self d :
  __datatype self = Some d ->
  let base := Z.of_N (AdsSymbolEntry.iOffs (__symbol self)) + __offset self in
  (forall start stop step data w,
     __setitem__ self (Slice start stop step) data = Ok w ->
     exists s,
       w = RawWrite (AdsSymbolEntry.iGroup (__symbol self)) (base + s) data
       /\ 0 <= s
       /\ s + Z.of_nat (length data) <= Z.of_N (AdsDatatypeEntry.size d))
  /\ (forall a b data,
        0 <= a <= b -> b <= Z.of_N (AdsDatatypeEntry.size d) ->
        __setitem__ self (Slice (Some a) (Some b) None) data
        = if Z.of_nat (length data) =? b - a
          then Ok (RawWrite (AdsSymbolEntry.iGroup (__symbol self)) (base + a) data)
          else Raise ValueError).
Proof.
  intros Hd base. unfold __setitem__. rewrite Hd.
  split.
  - intros start stop step data w H.
    destruct (slice_indices start stop step _) as [[[s e] k]|err] eqn:Hidx;
      [|discriminate].
    destruct (Z.eqb_spec k 1) as [->|Hk]; [|discriminate]. simpl in H.
    destruct (Z.eqb_spec (e - s) (Z.of_nat (length data))) as [Hlen|Hlen];
      [|discriminate].
    injection H as <-.
    destruct (slice_indices_unit _ _ _ _ _ _ _ (N2Z.is_nonneg _) Hidx eq_refl) as [Hs He].
    exists s. repeat split; lia.
  - intros a b data Hab Hb. unfold slice_indices. simpl.
    unfold Array.adjust. simpl.
    destruct (Z.ltb_spec a 0); [lia|]. destruct (Z.ltb_spec b 0); [lia|].
    assert (Ha : (if Z.of_N (AdsDatatypeEntry.size d) <=? a
                  then Z.of_N (AdsDatatypeEntry.size d) else a) = a)
      by (destruct (Z.leb_spec (Z.of_N (AdsDatatypeEntry.size d)) a); lia).
    assert (Hb' : (if Z.of_N (AdsDatatypeEntry.size d) <=? b
                   then Z.of_N (AdsDatatypeEntry.size d) else b) = b)
      by (destruct (Z.leb_spec (Z.of_N (AdsDatatypeEntry.size d)) b); lia).
    rewrite Ha, Hb'. rewrite (Z.eqb_sym (Z.of_nat (length data))).
    destruct (b - a =? Z.of_nat (length data)); reflexivity.
Qed.


End VariableMore.

(** ** PLC strings *)

Section PLCStringMore.

Import PLCString.

Lemma decode_encode_latin1 (s : string) :
  Entry.decode_latin1 (encode_latin1 s) = s.
Proof.
  unfold Entry.decode_latin1, encode_latin1. rewrite map_map.
  rewrite (map_ext _ id) by (intros a; apply ascii_of_byte_of_ascii).
  rewrite map_id. apply string_of_list_ascii_of_string.
Qed.

Lemma encode_latin1_length (s : string) :
  length (encode_latin1 s) = String.length s.
Proof.
  unfold encode_latin1. rewrite length_map.
  induction s as [|a s IH]; simpl; [reflexivity|]. rewrite IH. reflexivity.
Qed.

Lemma c_str_no_nul (data rest : Entry.bytes) :
  Byte.x00 ∉ data -> c_str (data ++ Byte.x00 :: rest) = data.
Proof.
  induction data as [|b data IH]; intros Hnul; simpl; [reflexivity|].
  destruct (Byte.eqb b Byte.x00) eqn:Hb.
  - exfalso. apply Hnul. apply Byte.byte_dec_bl in Hb. subst b. left.
  - f_equal. apply IH. intros Hin. apply Hnul. right. exact Hin.
Qed.

Lemma c_str_whole (data : Entry.bytes) :
  Byte.x00 ∉ data -> c_str data = data.
Proof.
  induction data as [|b data IH]; intros Hnul; simpl; [reflexivity|].
  destruct (Byte.eqb b Byte.x00) eqn:Hb.
  - exfalso. apply Hnul. apply Byte.byte_dec_bl in Hb. subst b. left.
  - f_equal. apply IH. intros Hin. apply Hnul. right. exact Hin.
Qed.

Lemma encode_latin1_no_nul (s : string) :
  Ascii.zero ∉ list_ascii_of_string s -> Byte.x00 ∉ encode_latin1 s.
Proof.
  intros Hnul Hin. apply Hnul. unfold encode_latin1 in Hin.
  apply list_elem_of_fmap in Hin. destruct Hin as (a & Ha & Hin).
  replace Ascii.zero with a; [exact Hin|].
  rewrite <- (ascii_of_byte_of_ascii a), <- Ha. reflexivity.
Qed.

(** A string without NUL character survives the trip through a PLC string
    as long as it has at most [length + 1] characters: the instance has
    [length + 1] bytes, which are the string followed by zeros, and
    [__repr__] gives the string back.  A string of exactly [length + 1]
    characters is accepted too and fills the field, leaving no terminating
    NUL in it.  A longer one raises [ValueError]. *)
Theorem PLCString_round_trip (length : N) (str : string) :
  Ascii.zero ∉ list_ascii_of_string str ->
  let n := String.length str in
  ((n <= N.to_nat length + 1)%nat ->
   PLCString.__init__ length str
   = Ok (PLCString.mk (encode_latin1 str
                       ++ replicate (N.to_nat length + 1 - n) Byte.x00))
   /\ PLCString.__repr__
        (PLCString.mk (encode_latin1 str
                       ++ replicate (N.to_nat length + 1 - n) Byte.x00)) = str)
  /\ ((N.to_nat length + 1 < n)%nat ->
      PLCString.__init__ length str = Raise ValueError).
Proof.
  intros Hnul n. apply encode_latin1_no_nul in Hnul.
  unfold PLCString.__init__, s_set.
  rewrite (c_str_no_nul _ [] Hnul), length_replicate, encode_latin1_length.
  fold n. replace (N.to_nat (length + 1)) with (N.to_nat length + 1)%nat by lia.
  split.
  - intros Hn. split.
    + destruct (Nat.ltb_spec n (N.to_nat length + 1)) as [Hlt|Hge].
      * simpl. do 2 f_equal. rewrite drop_replicate.
        replace (N.to_nat length + 1 - n)%nat with (S (N.to_nat length + 1 - S n)) by lia.
        reflexivity.
      * destruct (Nat.ltb_spec (N.to_nat length + 1) n) as [Hlt|_]; [lia|].
        simpl. rewrite drop_replicate. reflexivity.
    + unfold PLCString.__repr__, s_get. simpl.
      destruct (N.to_nat length + 1 - n)%nat as [|k].
      * simpl. rewrite app_nil_r, (c_str_whole _ Hnul). apply decode_encode_latin1.
      * simpl. rewrite (c_str_no_nul _ _ Hnul). apply decode_encode_latin1.
  - intros Hn.
    destruct (Nat.ltb_spec n (N.to_nat length + 1)) as [Hlt|_]; [lia|].
    destruct (Nat.ltb_spec (N.to_nat length + 1) n) as [_|Hge]; [|lia].
    reflexivity.
Qed.

End PLCStringMore.

(** ** The further properties at sample inputs *)

Section MoreSamples.

Import AdsVariablesDefinition Props Examples.

(** The package's own test: [t1[-1] = 4], then [t1[-1] == 4]. *)
Lemma NonzeroBasedArray_setitem_getitem_witness :
  exists self',
    NonzeroBasedArray.__setitem__ t1 (Array.Int (-1)) (Array.Item 4) = Ok self'
    /\ NonzeroBasedArray.__getitem__ self' (Array.Int (-1)) = Ok (Array.Item 4)
    /\ NonzeroBasedArray.__getitem__ self' (Array.Int 0) = Ok (Array.Item 7).
Proof.
  destruct (proj1 (NonzeroBasedArray_setitem_getitem t1 (-1) 4))
    as (self' & Hset & _ & _ & Hget & Hother).
  - vm_compute. split; [discriminate|reflexivity].
  - exists self'. split; [exact Hset|]. split; [exact Hget|].
    rewrite (Hother 0) by discriminate. reflexivity.
Defined.

(** The instance of the package's test, built from 5, 6, 7, 7. *)
Lemma NonzeroBasedArray_init_witness :
  exists self,
    NonzeroBasedArray.__init__ 0 (-2) 4 [5; 6; 7; 7] = Ok self
    /\ NonzeroBasedArray.buffer self = [5; 6; 7; 7]
    /\ fst (NonzeroBasedArray.__iter__ true 5 self) = map Array.Item [5; 6; 7; 7].
Proof.
  destruct (proj1 (NonzeroBasedArray_init 0 (-2) 4 [5; 6; 7; 7]))
    as (self & Hinit & _ & Hbuf & Hiter).
  - simpl. lia.
  - exists self. split; [exact Hinit|]. split; [exact Hbuf|exact (Hiter true)].
Defined.

(** [t1[-2:2]] and, clipped, [t1[0:9]]. *)
Lemma NonzeroBasedArray_slice_witness :
  NonzeroBasedArray.__getitem__ t1 (Array.Slice (Some (-2)) (Some 2) None)
  = Ok (Array.Items [5; 6; 7; 7])
  /\ NonzeroBasedArray.__getitem__ t1 (Array.Slice (Some 0) (Some 9) None)
     = Ok (Array.Items [7; 7]).
Proof.
  split.
  - apply (NonzeroBasedArray_slice t1 (-2) 2); vm_compute; discriminate.
  - apply (NonzeroBasedArray_slice t1 0 9); vm_compute; discriminate.
Defined.

Lemma Entry_iter_well_formed_witness :
  Entry.iter AdsSymbolEntry.__init__ 3 (symbol_record ++ symbol_record)
  = ([symbol_MAIN; symbol_MAIN], Exhausted).
Proof.
  apply (Entry_iter_well_formed AdsSymbolEntry.__init__
           [(symbol_record, symbol_MAIN); (symbol_record, symbol_MAIN)] 3).
  - repeat constructor.
  - simpl. lia.
Defined.

(** The record cut after 37 of its 40 bytes decodes, with a type name of
    two of its three characters. *)
Lemma AdsSymbolEntry_init_lengths_witness :
  exists entry,
    AdsSymbolEntry.__init__ truncated_symbols = Ok entry
    /\ AdsSymbolEntry.entryLength entry = 40%N
    /\ String.length (AdsSymbolEntry.name entry) = 4%nat
    /\ (String.length (AdsSymbolEntry.type entry) <= 3)%nat.
Proof.
  destruct (proj2 (AdsSymbolEntry_init_lengths truncated_symbols))
    as (entry & Hinit & Hlen & Hname & Htype & _).
  - simpl. lia.
  - exists entry. split; [exact Hinit|].
    assert (Hn : AdsSymbolEntry.nameLength entry = 4%N
                 /\ AdsSymbolEntry.typeLength entry = 3%N).
    { vm_compute in Hinit. injection Hinit as <-. split; reflexivity. }
    destruct Hn as [Hn Ht]. rewrite Hn in Hname. rewrite Ht in Htype.
    split; [exact Hlen|]. split; [exact Hname|exact Htype].
Defined.

(** A record with one dimension and two sub-items of the same name: the
    second replaces the first.  And a blob too short for the header. *)
Lemma AdsDatatypeEntry_init_shape_witness :
  (exists t,
     AdsDatatypeEntry.__init__ 3 datatype_record = Ok t
     /\ AdsDatatypeEntry.array t = [(-2, 4%N)]
     /\ AdsDatatypeEntry.arrayDim t = 1%N
     /\ AdsDatatypeEntry.subItemsCount t = 2%N
     /\ map AdsDatatypeEntry.size (AdsDatatypeEntry.subItems t) = [4%N]
     /\ length (AdsDatatypeEntry.array t) = N.to_nat (AdsDatatypeEntry.arrayDim t)
     /\ NoDup (map AdsDatatypeEntry.name (AdsDatatypeEntry.subItems t))
     /\ (length (AdsDatatypeEntry.subItems t)
         <= N.to_nat (AdsDatatypeEntry.subItemsCount t))%nat)
  /\ AdsDatatypeEntry.__init__ 1 zero_length_blob = Raise struct_error.
Proof.
  split.
  - destruct (AdsDatatypeEntry.__init__ 3 datatype_record) as [t|e] eqn:H;
      [|vm_compute in H; discriminate].
    destruct (proj1 (AdsDatatypeEntry_init_shape 3 datatype_record) t H)
      as (_ & Hdim & Hnames & Hcount).
    exists t. split; [reflexivity|].
    vm_compute in H. injection H as <-.
    split; [reflexivity|]. split; [reflexivity|]. split; [reflexivity|].
    split; [reflexivity|]. split; [exact Hdim|]. split; [exact Hnames|exact Hcount].
  - apply (proj2 (AdsDatatypeEntry_init_shape 0 zero_length_blob)).
    simpl. lia.
Defined.

Lemma getCtype_only_adds_witness :
  dtypes (snd (getCtype 1000 "ST_Short" None (catalog [ST_Short])))
  = dtypes (catalog [ST_Short])
  /\ ctypes (snd (getCtype 1000 "ST_Short" None (catalog [ST_Short]))) !! "LREAL"%string
     = Some c_double.
Proof.
  destruct (getCtype_only_adds 1000 "ST_Short" None (catalog [ST_Short]))
    as (Hd & Hc & _).
  split; [exact Hd|]. apply Hc. reflexivity.
Defined.

(** The uneven array record: the [AssertionError] points at it. *)
Lemma getCtype_exceptions_witness :
  fst (getCtype 1000 "ARRAY [0..2] OF BYTE" None (catalog [ARR_Uneven]))
  = Raise AssertionError
  /\ exists k d,
       dtypes (catalog [ARR_Uneven]) !! k = Some d /\ plain_array d
       /\ arraysize (AdsDatatypeEntry.array d) <> 0%N
       /\ (AdsDatatypeEntry.size d mod arraysize (AdsDatatypeEntry.array d) <> 0)%N.
Proof.
  assert (H : fst (getCtype 1000 "ARRAY [0..2] OF BYTE" None (catalog [ARR_Uneven]))
              = Raise AssertionError) by (vm_compute; reflexivity).
  split; [exact H|].
  exact (proj1 (proj2 (getCtype_exceptions 1000 "ARRAY [0..2] OF BYTE" None
                         (catalog [ARR_Uneven]))) H).
Defined.

Lemma getCtype_array_of_unknown_witness :
  fst (getCtype 1000 "ARRAY [0..1] OF T_Missing" None (catalog [ARR_Unknown]))
  = Ok (Some (c_array (Dummy_type 4) 2))
  /\ sizeof (c_array (Dummy_type 4) 2) = 8%N.
Proof.
  destruct (getCtype_array_of_unknown 998 "ARRAY [0..1] OF T_Missing" None
              (catalog [ARR_Unknown]) ARR_Unknown) as [Hrun Hsize].
  - reflexivity.
  - reflexivity.
  - reflexivity.
  - repeat split; discriminate.
  - reflexivity.
  - discriminate.
  - reflexivity.
  - reflexivity.
  - reflexivity.
  - split; [|exact Hsize]. rewrite Hrun. reflexivity.
Defined.

Lemma loaded_init (records : list AdsDatatypeEntry.t) :
  (exists self, __init__ 1000 records = Ok self) ->
  __init__ 1000 records = Ok (loaded records).
Proof. intros [self H]. unfold loaded. rewrite H. reflexivity. Qed.

Lemma loaded_arrays_init :
  __init__ 1000 [ARR_Byte; ARR_Int2; PTR_Int; T_MyInt]
  = Ok (loaded [ARR_Byte; ARR_Int2; PTR_Int; T_MyInt]).
Proof.
  apply loaded_init.
  destruct (__init__ 1000 [ARR_Byte; ARR_Int2; PTR_Int; T_MyInt]) as [self|e] eqn:H;
    [eauto|vm_compute in H; discriminate].
Qed.

Lemma loaded_arrays_dtypes :
  dtypes (loaded [ARR_Byte; ARR_Int2; PTR_Int; T_MyInt])
  = dict_by_name [ARR_Byte; ARR_Int2; PTR_Int; T_MyInt].
Proof. apply (init_establishes_ready _ _ _ loaded_arrays_init). Qed.

Lemma loaded_arrays_alias_ready : ready (loaded [ARR_Byte; ARR_Int2; PTR_Int; T_MyInt]).
Proof. apply (init_establishes_ready _ _ _ loaded_arrays_init). Qed.

Lemma AdsVariablesDefinition_init_memo_witness :
  exists ct,
    ctypes (loaded [ARR_Byte; ARR_Int2; PTR_Int; T_MyInt])
      !! "ARRAY [1..2,0..2] OF INT"%string = Some ct
    /\ sizeof ct = 12%N.
Proof.
  destruct (AdsVariablesDefinition_init_memo 1000 [ARR_Byte; ARR_Int2; PTR_Int; T_MyInt]
              (loaded [ARR_Byte; ARR_Int2; PTR_Int; T_MyInt]) loaded_arrays_init)
    as (Hd & _ & Hall).
  destruct (Hall "ARRAY [1..2,0..2] OF INT"%string ARR_Int2) as (_ & ct & Hct & Hsize).
  - rewrite Hd. reflexivity.
  - exists ct. split; [exact Hct|]. apply Hsize; reflexivity.
Defined.




(** The raw bytes 2 to 5 of a 12-byte variable. *)
Lemma raw_read_within_variable_witness :
  AdsVariable.__getitem__ 1000
    (variable ARR_Int2 (NonzeroBasedArray_type (c_array c_int16 3) 1 2))
    (AdsVariable.Slice (Some 2) (Some 6) None) (catalog [ARR_Int2])
  = (Ok (AdsVariable.RawRead 16448 2 4), catalog [ARR_Int2]).
Proof.
  apply (proj1 (proj2 (raw_read_within_variable 1000
                         (variable ARR_Int2 (NonzeroBasedArray_type (c_array c_int16 3) 1 2))
                         ARR_Int2 (catalog [ARR_Int2]) eq_refl)) 2 6).
  - lia.
  - simpl. lia.
Defined.

Lemma raw_write_within_variable_witness :
  AdsVariable.__setitem__
    (variable ARR_Int2 (NonzeroBasedArray_type (c_array c_int16 3) 1 2))
    (AdsVariable.Slice (Some 2) (Some 6) None)
    [Byte.x01; Byte.x02; Byte.x03; Byte.x04]
  = Ok (AdsVariable.RawWrite 16448 2 [Byte.x01; Byte.x02; Byte.x03; Byte.x04])
  /\ AdsVariable.__setitem__
       (variable ARR_Int2 (NonzeroBasedArray_type (c_array c_int16 3) 1 2))
       (AdsVariable.Slice (Some 2) (Some 6) None) [Byte.x01]
     = Raise ValueError.
Proof.
  split.
  - apply (proj2 (raw_write_within_variable
                    (variable ARR_Int2 (NonzeroBasedArray_type (c_array c_int16 3) 1 2))
                    ARR_Int2 eq_refl) 2 6 [Byte.x01; Byte.x02; Byte.x03; Byte.x04]).
    + lia.
    + simpl. lia.
  - apply (proj2 (raw_write_within_variable
                    (variable ARR_Int2 (NonzeroBasedArray_type (c_array c_int16 3) 1 2))
                    ARR_Int2 eq_refl) 2 6 [Byte.x01]).
    + lia.
    + simpl. lia.
Defined.


Lemma PLCString_round_trip_witness :
  PLCString.__init__ 5 "ab"
  = Ok (PLCString.mk [Byte.x61; Byte.x62; Byte.x00; Byte.x00; Byte.x00; Byte.x00])
  /\ PLCString.__repr__
       (PLCString.mk [Byte.x61; Byte.x62; Byte.x00; Byte.x00; Byte.x00; Byte.x00])
     = "ab"%string.
Proof.
  apply (proj1 (PLCString_round_trip 5 "ab"
                  ltac:(intros H; apply list_elem_of_In in H; simpl in H;
                        destruct H as [H|[H|[]]]; discriminate))).
  simpl. lia.
Defined.

End MoreSamples.

